(** * pybooklet: the status ledger, the session log and the TBR lists

    A shallow embedding of [database.py] (the data-access layer of the
    pybooklet reading tracker) and proofs of the properties its
    specification states about it.

    The layer talks to SQLite through Python's [sqlite3] module.  Every
    function opens a connection, runs a few statements on a cursor, commits
    (or not) and closes.  The embedding keeps that shape: a table is the
    list of its rows in insertion order, a connection carries the committed
    database and the pending one, a statement acts on the pending database,
    [commit] publishes it and [close] drops whatever was not committed. *)

From Stdlib Require Import ZArith String Ascii List Lia.
From stdpp Require Import base decidable option list gmap strings sorting pretty.

Local Open Scope string_scope.
Local Open Scope Z_scope.

#[local] Set Warnings "-clear-no-such-hyp".

(** ** Rows and tables

    The [CREATE TABLE] statements are not part of [database.py]; the columns
    are the ones its statements name.  A column that a statement can bind to
    Python's [None] is an [option].  No [UNIQUE], [NOT NULL] or enforced
    foreign-key constraint is modelled: exclusivity of the three status
    tables is the business of the functions below, not of the schema, and
    [get_db_connection] never switches SQLite's foreign-key enforcement on.
    Of the catalog columns only those some statement below reads are kept. *)

Record book_row := {
  b_id : Z;
  b_title : string;
  b_author : string;
  b_page_count : Z
}.

Record tracker_row := {
  rt_id : Z;
  rt_book_id : Z;
  rt_current_page : Z;
  rt_start_date : option string
}.

Record completed_row := {
  cb_id : Z;
  cb_book_id : Z;
  cb_rating : option Z;
  cb_review : option string;
  cb_start_date : option string;
  cb_completion_date : option string
}.

Record abandoned_row := {
  ab_id : Z;
  ab_book_id : Z;
  ab_page_at_abandonment : option Z;
  ab_reason : option string;
  ab_start_date : option string;
  ab_abandonment_date : option string
}.

Record session_row := {
  rs_id : Z;
  rs_book_id : Z;
  rs_start_time : string;
  rs_end_time : string;
  rs_duration_seconds : Z;
  rs_pages_read : Z;
  rs_start_page : Z;
  rs_end_page : Z;
  rs_session_date : string
}.

Record database := {
  books : list book_row;
  reading_tracker : list tracker_row;
  completed_books : list completed_row;
  abandoned_books : list abandoned_row;
  reading_sessions : list session_row
}.

Definition empty_database : database :=
  {| books := []; reading_tracker := []; completed_books := [];
     abandoned_books := []; reading_sessions := [] |}.

(** ** Connections

    [sqlite3] opens a transaction implicitly before the first
    [INSERT]/[UPDATE]/[DELETE]; [commit] makes the pending changes durable;
    [close] without a [commit] loses them. *)

Record connection := {
  committed : database;
  pending : database
}.

Definition get_db_connection (db : database) : connection :=
  {| committed := db; pending := db |}.

Definition execute (stmt : database -> database) (conn : connection) : connection :=
  {| committed := committed conn; pending := stmt (pending conn) |}.

Definition commit (conn : connection) : connection :=
  {| committed := pending conn; pending := pending conn |}.

Definition close (conn : connection) : database := committed conn.

(** [cursor.fetchone()]: the first row of the result, or [None]. *)
Definition fetchone {A} (rows : list A) : option A := head rows.

(** The rowid SQLite gives a new row: one more than the largest in use. *)
Definition next_id (ids : list Z) : Z := 1 + foldr Z.max 0 ids.

(** Python's [not s] for an optional string: [None] and [""] are falsy. *)
Definition py_not (s : option string) : bool :=
  match s with
  | None => true
  | Some EmptyString => true
  | Some _ => false
  end.

(** ** Statements *)

(** [SELECT id FROM books WHERE id = ?] *)
Definition select_book_ids (book_id : Z) (db : database) : list Z :=
  b_id <$> filter (fun r => b_id r = book_id) (books db).

(** [SELECT id FROM reading_tracker WHERE book_id = ?] *)
Definition select_tracker_ids (book_id : Z) (db : database) : list Z :=
  rt_id <$> filter (fun r => rt_book_id r = book_id) (reading_tracker db).

(** [SELECT start_date FROM reading_tracker WHERE book_id = ?] *)
Definition select_tracker_start_date (book_id : Z) (db : database)
  : list (option string) :=
  rt_start_date <$> filter (fun r => rt_book_id r = book_id) (reading_tracker db).

(** [SELECT id FROM completed_books WHERE book_id = ?] *)
Definition select_completed_ids (book_id : Z) (db : database) : list Z :=
  cb_id <$> filter (fun r => cb_book_id r = book_id) (completed_books db).

(** [SELECT id FROM abandoned_books WHERE book_id = ?] *)
Definition select_abandoned_ids (book_id : Z) (db : database) : list Z :=
  ab_id <$> filter (fun r => ab_book_id r = book_id) (abandoned_books db).

(** [DELETE FROM reading_tracker WHERE book_id = ?] *)
Definition delete_tracker (book_id : Z) (db : database) : database :=
  {| books := books db;
     reading_tracker := filter (fun r => rt_book_id r <> book_id) (reading_tracker db);
     completed_books := completed_books db;
     abandoned_books := abandoned_books db;
     reading_sessions := reading_sessions db |}.

(** [DELETE FROM completed_books WHERE book_id = ?] *)
Definition delete_completed (book_id : Z) (db : database) : database :=
  {| books := books db;
     reading_tracker := reading_tracker db;
     completed_books := filter (fun r => cb_book_id r <> book_id) (completed_books db);
     abandoned_books := abandoned_books db;
     reading_sessions := reading_sessions db |}.

(** [DELETE FROM abandoned_books WHERE book_id = ?] *)
Definition delete_abandoned (book_id : Z) (db : database) : database :=
  {| books := books db;
     reading_tracker := reading_tracker db;
     completed_books := completed_books db;
     abandoned_books := filter (fun r => ab_book_id r <> book_id) (abandoned_books db);
     reading_sessions := reading_sessions db |}.

(** [cursor.rowcount] after a [DELETE] or [UPDATE]: the rows its [WHERE]
    clause matched. *)
Definition rowcount_tracker (book_id : Z) (db : database) : Z :=
  Z.of_nat (length (filter (fun r => rt_book_id r = book_id) (reading_tracker db))).

Definition rowcount_completed (book_id : Z) (db : database) : Z :=
  Z.of_nat (length (filter (fun r => cb_book_id r = book_id) (completed_books db))).

Definition rowcount_abandoned (book_id : Z) (db : database) : Z :=
  Z.of_nat (length (filter (fun r => ab_book_id r = book_id) (abandoned_books db))).

(** [INSERT INTO reading_tracker (book_id, current_page) VALUES (?, ?)];
    [start_date] takes its default, the time of the insertion. *)
Definition insert_tracker (now : string) (book_id current_page : Z)
    (db : database) : database :=
  {| books := books db;
     reading_tracker := reading_tracker db ++
       [ {| rt_id := next_id (rt_id <$> reading_tracker db);
            rt_book_id := book_id;
            rt_current_page := current_page;
            rt_start_date := Some now |} ];
     completed_books := completed_books db;
     abandoned_books := abandoned_books db;
     reading_sessions := reading_sessions db |}.

(** [INSERT INTO completed_books (book_id, rating, review, start_date)
    VALUES (?, ?, ?, ?)]; [completion_date] takes its default, the time of
    the insertion. *)
Definition insert_completed (now : string) (book_id : Z) (rating : option Z)
    (review start_date : option string) (db : database) : database :=
  {| books := books db;
     reading_tracker := reading_tracker db;
     completed_books := completed_books db ++
       [ {| cb_id := next_id (cb_id <$> completed_books db);
            cb_book_id := book_id;
            cb_rating := rating;
            cb_review := review;
            cb_start_date := start_date;
            cb_completion_date := Some now |} ];
     abandoned_books := abandoned_books db;
     reading_sessions := reading_sessions db |}.

(** [INSERT INTO abandoned_books (book_id, page_at_abandonment, reason,
    start_date) VALUES (?, ?, ?, ?)]; [abandonment_date] takes its default,
    the time of the insertion. *)
Definition insert_abandoned (now : string) (book_id page_at_abandonment : Z)
    (reason start_date : option string) (db : database) : database :=
  {| books := books db;
     reading_tracker := reading_tracker db;
     completed_books := completed_books db;
     abandoned_books := abandoned_books db ++
       [ {| ab_id := next_id (ab_id <$> abandoned_books db);
            ab_book_id := book_id;
            ab_page_at_abandonment := Some page_at_abandonment;
            ab_reason := reason;
            ab_start_date := start_date;
            ab_abandonment_date := Some now |} ];
     reading_sessions := reading_sessions db |}.

(** [UPDATE reading_tracker SET current_page = ? WHERE book_id = ?] *)
Definition update_tracker (book_id current_page : Z) (db : database) : database :=
  {| books := books db;
     reading_tracker :=
       (fun r => if decide (rt_book_id r = book_id)
                 then {| rt_id := rt_id r; rt_book_id := rt_book_id r;
                         rt_current_page := current_page;
                         rt_start_date := rt_start_date r |}
                 else r) <$> reading_tracker db;
     completed_books := completed_books db;
     abandoned_books := abandoned_books db;
     reading_sessions := reading_sessions db |}.

(** [UPDATE completed_books SET rating = ?, review = ?, start_date = ?,
    completion_date = ? WHERE book_id = ?] *)
Definition update_completed (book_id : Z) (rating : option Z)
    (review start_date completion_date : option string) (db : database)
  : database :=
  {| books := books db;
     reading_tracker := reading_tracker db;
     completed_books :=
       (fun r => if decide (cb_book_id r = book_id)
                 then {| cb_id := cb_id r; cb_book_id := cb_book_id r;
                         cb_rating := rating; cb_review := review;
                         cb_start_date := start_date;
                         cb_completion_date := completion_date |}
                 else r) <$> completed_books db;
     abandoned_books := abandoned_books db;
     reading_sessions := reading_sessions db |}.

(** [UPDATE abandoned_books SET page_at_abandonment = ?, reason = ?,
    start_date = ?, abandonment_date = ? WHERE book_id = ?] *)
Definition update_abandoned (book_id : Z) (page_at_abandonment : option Z)
    (reason start_date abandonment_date : option string) (db : database)
  : database :=
  {| books := books db;
     reading_tracker := reading_tracker db;
     completed_books := completed_books db;
     abandoned_books :=
       (fun r => if decide (ab_book_id r = book_id)
                 then {| ab_id := ab_id r; ab_book_id := ab_book_id r;
                         ab_page_at_abandonment := page_at_abandonment;
                         ab_reason := reason;
                         ab_start_date := start_date;
                         ab_abandonment_date := abandonment_date |}
                 else r) <$> abandoned_books db;
     reading_sessions := reading_sessions db |}.

(** ** Book status operations *)

Definition get_book_status (book_id : Z) (db : database) : string :=
  let conn := get_db_connection db in
  match fetchone (select_book_ids book_id (pending conn)) with
  | None => "unknown"
  | Some _ =>
    match fetchone (select_tracker_ids book_id (pending conn)) with
    | Some _ => "tracking"
    | None =>
      match fetchone (select_completed_ids book_id (pending conn)) with
      | Some _ => "completed"
      | None =>
        match fetchone (select_abandoned_ids book_id (pending conn)) with
        | Some _ => "abandoned"
        | None => "library"
        end
      end
    end
  end.

(** ** Reading tracker operations *)

Definition add_to_tracker (now : string) (book_id current_page : Z)
    (db : database) : bool * database :=
  let conn := get_db_connection db in
  let conn := execute (delete_completed book_id) conn in
  let conn := execute (delete_abandoned book_id) conn in
  match fetchone (select_tracker_ids book_id (pending conn)) with
  | Some _ => (false, close conn)
  | None =>
    let conn := execute (insert_tracker now book_id current_page) conn in
    let conn := commit conn in
    (true, close conn)
  end.

Definition update_tracker_progress (book_id current_page : Z) (db : database)
  : bool * database :=
  let conn := get_db_connection db in
  let rowcount := rowcount_tracker book_id (pending conn) in
  let conn := execute (update_tracker book_id current_page) conn in
  let conn := commit conn in
  let success := bool_decide (rowcount > 0) in
  (success, close conn).

Definition remove_from_tracker (book_id : Z) (db : database) : bool * database :=
  let conn := get_db_connection db in
  let rowcount := rowcount_tracker book_id (pending conn) in
  let conn := execute (delete_tracker book_id) conn in
  let conn := commit conn in
  let success := bool_decide (rowcount > 0) in
  (success, close conn).

(** ** Completed books operations *)

Definition complete_book (now : string) (book_id : Z) (rating : option Z)
    (review start_date : option string) (db : database) : bool * database :=
  let conn := get_db_connection db in
  let start_date :=
    if py_not start_date then
      match fetchone (select_tracker_start_date book_id (pending conn)) with
      | Some row => row
      | None => start_date
      end
    else start_date in
  let conn := execute (delete_tracker book_id) conn in
  let conn := execute (delete_abandoned book_id) conn in
  let conn := execute (insert_completed now book_id rating review start_date) conn in
  let conn := commit conn in
  (true, close conn).

Definition update_completed_book (book_id : Z) (rating : option Z)
    (review start_date completion_date : option string) (db : database)
  : bool * database :=
  let conn := get_db_connection db in
  let rowcount := rowcount_completed book_id (pending conn) in
  let conn :=
    execute (update_completed book_id rating review start_date completion_date)
            conn in
  let conn := commit conn in
  let success := bool_decide (rowcount > 0) in
  (success, close conn).

Definition remove_from_completed (book_id : Z) (db : database) : bool * database :=
  let conn := get_db_connection db in
  let rowcount := rowcount_completed book_id (pending conn) in
  let conn := execute (delete_completed book_id) conn in
  let conn := commit conn in
  let success := bool_decide (rowcount > 0) in
  (success, close conn).

(** ** Abandoned books operations *)

Definition abandon_book (now : string) (book_id page_at_abandonment : Z)
    (reason start_date : option string) (db : database) : bool * database :=
  let conn := get_db_connection db in
  let start_date :=
    if py_not start_date then
      match fetchone (select_tracker_start_date book_id (pending conn)) with
      | Some row => row
      | None => start_date
      end
    else start_date in
  let conn := execute (delete_tracker book_id) conn in
  let conn := execute (delete_completed book_id) conn in
  let conn :=
    execute (insert_abandoned now book_id page_at_abandonment reason start_date)
            conn in
  let conn := commit conn in
  (true, close conn).

Definition update_abandoned_book (book_id : Z) (page_at_abandonment : option Z)
    (reason start_date abandonment_date : option string) (db : database)
  : bool * database :=
  let conn := get_db_connection db in
  let rowcount := rowcount_abandoned book_id (pending conn) in
  let conn :=
    execute (update_abandoned book_id page_at_abandonment reason start_date
                              abandonment_date) conn in
  let conn := commit conn in
  let success := bool_decide (rowcount > 0) in
  (success, close conn).

Definition remove_from_abandoned (book_id : Z) (db : database) : bool * database :=
  let conn := get_db_connection db in
  let rowcount := rowcount_abandoned book_id (pending conn) in
  let conn := execute (delete_abandoned book_id) conn in
  let conn := commit conn in
  let success := bool_decide (rowcount > 0) in
  (success, close conn).

(** ** Timestamps

    [add_reading_session] derives the calendar date of a session with
    [datetime.fromisoformat(start_time).date().isoformat()].
    [fromisoformat] is the one of CPython 3.11, which reads most ISO 8601
    texts: calendar dates [YYYY-MM-DD] and [YYYYMMDD], week dates
    [YYYY-Www[-D]] and [YYYYWww[D]], any one character as separator, times
    [HH[:MM[:SS]]] with or without the colons, a fraction after [.] or [,]
    and an offset [Z] or [+HH[:MM[:SS[.ffffff]]]].  The definitions below
    follow the functions of the interpreter's [_datetimemodule.c] of the
    same names, which work on the UTF-8 bytes of the text, a buffer that
    ends with a zero byte; a [string] here is that sequence of bytes, and
    positions are byte offsets into it.  [ValueError] is modelled by
    [None].  A text with a lone surrogate has no UTF-8 form and is left
    out: the [INSERT] cannot bind it, so no session is recorded for it
    either. *)

Record py_date := {
  year : Z;
  month : Z;
  day : Z
}.

Record py_datetime := {
  dt_date : py_date;
  hour : Z;
  minute : Z;
  second : Z;
  microsecond : Z;
  utcoffset : option Z   (* microseconds east of UTC, [None] when naive *)
}.

(** The byte at offset [i]; past the end of the text it is the zero byte
    that ends the buffer. *)
Definition byte_at (s : string) (i : nat) : ascii :=
  default "000"%char (String.get i s).

Definition digit (c : ascii) : option Z :=
  let n := Z.of_N (N_of_ascii c) in
  if decide (48 <= n <= 57) then Some (n - 48) else None.

Definition is_digit (c : ascii) : bool := bool_decide (is_Some (digit c)).

Definition digit_char (d : Z) : ascii := ascii_of_N (Z.to_N (48 + d)).

(** [num_digits] decimal digits from offset [ptr], added to [var]; the
    result is the offset after them and the number. *)
Fixpoint parse_digits (s : string) (ptr : nat) (var : Z) (num_digits : nat)
  : option (nat * Z) :=
  match num_digits with
  | O => Some (ptr, var)
  | S n =>
    match digit (byte_at s ptr) with
    | Some d => parse_digits s (S ptr) (10 * var + d) n
    | None => None
    end
  end.

(** [while (is_digit( *p )) ++p], for at most [fuel] bytes. *)
Fixpoint skip_digits (s : string) (fuel : nat) (p : nat) : nat :=
  match fuel with
  | O => p
  | S fuel => if is_digit (byte_at s p) then skip_digits s fuel (S p) else p
  end.

Definition is_leap (y : Z) : bool :=
  (y mod 4 =? 0) && (negb (y mod 100 =? 0) || (y mod 400 =? 0)).

Definition days_in_month (y m : Z) : Z :=
  if m =? 2 then (if is_leap y then 29 else 28)
  else if (m =? 4) || (m =? 6) || (m =? 9) || (m =? 11) then 30
  else 31.

Definition days_before_month (y m : Z) : Z :=
  nth (Z.to_nat m) [0; 0; 31; 59; 90; 120; 151; 181; 212; 243; 273; 304; 334] 0
  + (if (2 <? m) && is_leap y then 1 else 0).

Definition days_before_year (y : Z) : Z :=
  let y := y - 1 in y * 365 + y / 4 - y / 100 + y / 400.

Definition ymd_to_ord (y m d : Z) : Z :=
  days_before_year y + days_before_month y m + d.

(** 0 for a Monday. *)
Definition weekday (y m d : Z) : Z := (ymd_to_ord y m d + 6) mod 7.

(** The ordinal of the Monday that starts ISO week 1 of the year. *)
Definition iso_week1_monday (y : Z) : Z :=
  let first_day := ymd_to_ord y 1 1 in
  let first_weekday := (first_day + 6) mod 7 in
  let week1_monday := first_day - first_weekday in
  if 3 <? first_weekday then week1_monday + 7 else week1_monday.

Definition ord_to_ymd (ordinal : Z) : Z * Z * Z :=
  let ordinal := ordinal - 1 in
  let n400 := ordinal / 146097 in
  let n := ordinal mod 146097 in
  let n100 := n / 36524 in
  let n := n mod 36524 in
  let n4 := n / 1461 in
  let n := n mod 1461 in
  let n1 := n / 365 in
  let n := n mod 365 in
  let y := n400 * 400 + 1 + n100 * 100 + n4 * 4 + n1 in
  if (n1 =? 4) || (n100 =? 4) then (y - 1, 12, 31)
  else
    let leapyear := (n1 =? 3) && (negb (n4 =? 24) || (n100 =? 3)) in
    let m := Z.shiftr (n + 50) 5 in
    let preceding :=
      nth (Z.to_nat m) [0; 0; 31; 59; 90; 120; 151; 181; 212; 243; 273; 304; 334] 0
      + (if (2 <? m) && leapyear then 1 else 0) in
    if n <? preceding
    then (y, m - 1, n - (preceding - days_in_month y (m - 1)) + 1)
    else (y, m, n - preceding + 1).

(** Week 53 exists in the years that start on a Thursday and in the leap
    years that start on a Wednesday.  For the ISO year 0 the interpreter
    computes a date before year 1, which the [datetime] constructor then
    refuses; here it is refused at once. *)
Definition iso_to_ymd (iso_year iso_week iso_day : Z) : option (Z * Z * Z) :=
  if decide (iso_year < 1) then None
  else
    let out_of_range :=
      if (iso_week <=? 0) || (53 <=? iso_week) then
        if iso_week =? 53 then
          let first_weekday := weekday iso_year 1 1 in
          negb ((first_weekday =? 3)
                || ((first_weekday =? 2) && is_leap iso_year))
        else true
      else false in
    if out_of_range then None
    else if (iso_day <=? 0) || (8 <=? iso_day) then None
    else
      let day_1 := iso_week1_monday iso_year in
      let day_offset := (iso_week - 1) * 7 + iso_day - 1 in
      Some (ord_to_ymd (day_1 + day_offset)).

(** Where the date ends: the formats are told apart by the bytes 4 and 5.
    [None] is the interpreter's [-1]. *)
Definition find_isoformat_datetime_separator (dtstr : string) (len : nat)
  : option nat :=
  if decide (len = 7%nat) then Some 7%nat
  else if decide (byte_at dtstr 4 = "-"%char) then
    if decide (byte_at dtstr 5 = "W"%char) then
      if decide (len < 8)%nat then None
      else if decide ((8 < len)%nat /\ byte_at dtstr 8 = "-"%char) then
        if decide (len = 9%nat) then None
        else if decide ((10 < len)%nat /\ is_digit (byte_at dtstr 10) = true)
        then Some 8%nat
        else Some 10%nat
      else Some 8%nat
    else Some 10%nat
  else if decide (byte_at dtstr 4 = "W"%char) then
    let idx := skip_digits dtstr (len - 7) 7 in
    if decide (idx < 9)%nat then Some idx
    else if Nat.even idx then Some 7%nat
    else Some 8%nat
  else Some 8%nat.

(** Year, month and day as written; the [datetime] constructor checks
    them later. *)
Definition parse_isoformat_date (dtstr : string) (len : nat)
  : option (Z * Z * Z) :=
  '(p, y) ← parse_digits dtstr 0 0 4;
  let uses_separator := bool_decide (byte_at dtstr p = "-"%char) in
  let p := if uses_separator then S p else p in
  if decide (byte_at dtstr p = "W"%char) then
    let p := S p in
    '(p, iso_week) ← parse_digits dtstr p 0 2;
    if decide (p < len)%nat then
      if uses_separator && negb (bool_decide (byte_at dtstr p = "-"%char))
      then None
      else
        let p := if uses_separator then S p else p in
        '(p, iso_day) ← parse_digits dtstr p 0 1;
        iso_to_ymd y iso_week iso_day
    else iso_to_ymd y iso_week 1
  else
    '(p, m) ← parse_digits dtstr p 0 2;
    if uses_separator && negb (bool_decide (byte_at dtstr p = "-"%char))
    then None
    else
      let p := if uses_separator then S p else p in
      '(p, d) ← parse_digits dtstr p 0 2;
      Some (y, m, d).

(** How the loop over hour, minute and second ends: with the function's
    result ([rv] is true when it is 1, the mark of bytes left over), or
    with a fraction to read from [p]. *)
Inductive loop_exit :=
| Return (rv : bool)
| Fraction (p : nat).

(** The loop [for (i = 0; i < 3; ++i)] of [parse_hh_mm_ss_ff], with [n]
    fields still to read; the fields read come back in order. *)
Fixpoint parse_hh_mm_ss (s : string) (p_end : nat) (n : nat) (first : bool)
    (has_separator : bool) (p : nat) : option (list Z * loop_exit) :=
  match n with
  | O => Some ([], Fraction p)
  | S n =>
    '(p, v) ← parse_digits s p 0 2;
    let c := byte_at s p in
    let p := S p in
    let has_separator :=
      if first then bool_decide (c = ":"%char) else has_separator in
    if decide (p_end <= p)%nat then
      Some ([v], Return (negb (bool_decide (c = "000"%char))))
    else if has_separator && bool_decide (c = ":"%char) then
      '(vs, e) ← parse_hh_mm_ss s p_end n false has_separator p;
      Some (v :: vs, e)
    else if bool_decide (c = "."%char \/ c = ","%char) then
      Some ([v], Fraction p)
    else if negb has_separator then
      '(vs, e) ← parse_hh_mm_ss s p_end n false has_separator (Nat.pred p);
      Some (v :: vs, e)
    else None
  end.

(** Hour, minute, second and microsecond of the bytes from [tstr] to
    [tstr_end], and whether bytes are left over.  At most six digits of
    the fraction count; further digits are skipped. *)
Definition parse_hh_mm_ss_ff (s : string) (tstr tstr_end : nat)
  : option (Z * Z * Z * Z * bool) :=
  '(vs, e) ← parse_hh_mm_ss s tstr_end 3 true true tstr;
  let h := nth 0 vs 0 in
  let m := nth 1 vs 0 in
  let sec := nth 2 vs 0 in
  match e with
  | Return rv => Some (h, m, sec, 0, rv)
  | Fraction p =>
    let len_remains := (tstr_end - p)%nat in
    let to_parse := if decide (6 <= len_remains)%nat then 6%nat else len_remains in
    '(p, us) ← parse_digits s p 0 to_parse;
    let us := us * 10 ^ Z.of_nat (6 - to_parse) in
    let p := skip_digits s (String.length s) p in
    Some (h, m, sec, us, negb (bool_decide (byte_at s p = "000"%char)))
  end.

Definition is_tz_char (c : ascii) : bool :=
  bool_decide (c = "Z"%char \/ c = "+"%char \/ c = "-"%char).

(** [do { if ( *tzinfo_pos is Z, + or - ) break; } while (++tzinfo_pos <
    p_end)] *)
Fixpoint find_tzinfo (s : string) (p_end : nat) (fuel : nat) (pos : nat) : nat :=
  match fuel with
  | O => pos
  | S fuel =>
    if is_tz_char (byte_at s pos) then pos
    else if decide (S pos < p_end)%nat then find_tzinfo s p_end fuel (S pos)
    else S pos
  end.

(** Hour, minute, second, microsecond and the offset in microseconds of
    the bytes from [dtstr] to [p_end].  Bytes left over after the time are
    an error only when no offset follows.  An offset of zero whole seconds
    is UTC, whatever its fraction. *)
Definition parse_isoformat_time (s : string) (dtstr p_end : nat)
  : option (Z * Z * Z * Z * option Z) :=
  let tzinfo_pos := find_tzinfo s p_end (S (String.length s)) dtstr in
  '(h, m, sec, us, rv) ← parse_hh_mm_ss_ff s dtstr tzinfo_pos;
  if decide (tzinfo_pos = p_end) then
    if (rv : bool) then None else Some (h, m, sec, us, None)
  else if decide (byte_at s tzinfo_pos = "Z"%char) then
    if decide (byte_at s (S tzinfo_pos) = "000"%char)
    then Some (h, m, sec, us, Some 0)
    else None
  else
    let tzsign := if decide (byte_at s tzinfo_pos = "-"%char) then -1 else 1 in
    '(tzh, tzm, tzs, tzus, rv) ← parse_hh_mm_ss_ff s (S tzinfo_pos) p_end;
    if (rv : bool) then None
    else
      let tzoffset := tzsign * (tzh * 3600 + tzm * 60 + tzs) in
      Some (h, m, sec, us,
            Some (if tzoffset =? 0 then 0
                  else tzoffset * 1000000 + tzsign * tzus)).

(** The number of bytes of the UTF-8 character that starts with [c]. *)
Definition separator_width (c : ascii) : nat :=
  let b := Z.of_N (N_of_ascii c) in
  if Z.land b 128 =? 0 then 1%nat
  else if Z.land b 240 =? 224 then 3%nat
  else if Z.land b 240 =? 240 then 4%nat
  else 2%nat.

(** [datetime.fromisoformat].  A text of fewer than seven characters is
    refused (no text of fewer characters and seven bytes or more has a
    date, so the bytes are counted here); the date runs to the separator,
    one character is skipped and the rest is the time.  The constructor
    then checks the date, the time and that the offset is less than a day.
    A separator cut short by the end of the text does not occur in UTF-8
    and is refused. *)
Definition fromisoformat (s : string) : option py_datetime :=
  let len := String.length s in
  if decide (len < 7)%nat then None
  else
    separator_location ← find_isoformat_datetime_separator s len;
    '(y, m, d) ← parse_isoformat_date s separator_location;
    '(h, mi, sec, us, tz) ←
      (if decide (separator_location < len)%nat then
         let p := (separator_location
                   + separator_width (byte_at s separator_location))%nat in
         if decide (len < p)%nat then None
         else parse_isoformat_time s p len
       else Some (0, 0, 0, 0, None));
    if decide ((1 <= y <= 9999 /\ 1 <= m <= 12 /\ 1 <= d <= days_in_month y m) /\
               (h < 24 /\ mi < 60 /\ sec < 60) /\
               -86400000000 < default 0 tz < 86400000000)
    then Some {| dt_date := {| year := y; month := m; day := d |};
                 hour := h; minute := mi; second := sec; microsecond := us;
                 utcoffset := tz |}
    else None.



(** [datetime.date()] *)
Definition datetime_date (dt : py_datetime) : py_date := dt_date dt.

(** [date.isoformat()]: ["%04d-%02d-%02d"]. *)
Definition date_isoformat (d : py_date) : string :=
  String (digit_char (year d / 1000 mod 10))
  (String (digit_char (year d / 100 mod 10))
  (String (digit_char (year d / 10 mod 10))
  (String (digit_char (year d mod 10))
  (String "-"
  (String (digit_char (month d / 10 mod 10))
  (String (digit_char (month d mod 10))
  (String "-"
  (String (digit_char (day d / 10 mod 10))
  (String (digit_char (day d mod 10)) EmptyString))))))))).

(** ** Reading sessions operations *)

(** [INSERT INTO reading_sessions (book_id, start_time, end_time,
    duration_seconds, pages_read, start_page, end_page, session_date)
    VALUES (?, ?, ?, ?, ?, ?, ?, ?)] *)
Definition insert_session (book_id : Z) (start_time end_time : string)
    (duration_seconds pages_read start_page end_page : Z)
    (session_date : string) (db : database) : database :=
  {| books := books db;
     reading_tracker := reading_tracker db;
     completed_books := completed_books db;
     abandoned_books := abandoned_books db;
     reading_sessions := reading_sessions db ++
       [ {| rs_id := next_id (rs_id <$> reading_sessions db);
            rs_book_id := book_id;
            rs_start_time := start_time;
            rs_end_time := end_time;
            rs_duration_seconds := duration_seconds;
            rs_pages_read := pages_read;
            rs_start_page := start_page;
            rs_end_page := end_page;
            rs_session_date := session_date |} ] |}.

(** [cursor.lastrowid] after the insertion. *)
Definition lastrowid_session (db : database) : Z :=
  default 0 (rs_id <$> last (reading_sessions db)).

(** [None] is the [ValueError] that [fromisoformat] raises, which the
    function lets through before it has run any statement. *)
Definition add_reading_session (book_id : Z) (start_time end_time : string)
    (duration_seconds start_page end_page : Z) (db : database)
  : option (Z * database) :=
  let conn := get_db_connection db in
  let pages_read := end_page - start_page in
  dt ← fromisoformat start_time;
  let session_date := date_isoformat (datetime_date dt) in
  let conn :=
    execute (insert_session book_id start_time end_time duration_seconds
                            pages_read start_page end_page session_date) conn in
  let session_id := lastrowid_session (pending conn) in
  let conn := commit conn in
  Some (session_id, close conn).

(** ** Status records of a book *)

(** The book has a row in [reading_tracker], [completed_books],
    [abandoned_books], [books]. *)
Definition tracking (db : database) (book_id : Z) : Prop :=
  Exists (fun r => rt_book_id r = book_id) (reading_tracker db).

Definition completed (db : database) (book_id : Z) : Prop :=
  Exists (fun r => cb_book_id r = book_id) (completed_books db).

Definition abandoned (db : database) (book_id : Z) : Prop :=
  Exists (fun r => ab_book_id r = book_id) (abandoned_books db).

Definition in_catalog (db : database) (book_id : Z) : Prop :=
  Exists (fun r => b_id r = book_id) (books db).

Definition no_status (db : database) (book_id : Z) : Prop :=
  ~ tracking db book_id /\ ~ completed db book_id /\ ~ abandoned db book_id.

(** At most one of the three kinds of status record exists for the book. *)
Definition exclusive (db : database) (book_id : Z) : Prop :=
  ~ (tracking db book_id /\ completed db book_id) /\
  ~ (tracking db book_id /\ abandoned db book_id) /\
  ~ (completed db book_id /\ abandoned db book_id).

(** ** Sequences of transition calls

    A call is paired with the time the store's clock shows when it runs. *)
Inductive call :=
| AddToTracker (book_id current_page : Z)
| CompleteBook (book_id : Z) (rating : option Z) (review start_date : option string)
| AbandonBook (book_id page_at_abandonment : Z) (reason start_date : option string)
| UpdateTrackerProgress (book_id current_page : Z)
| RemoveFromTracker (book_id : Z)
| RemoveFromCompleted (book_id : Z)
| RemoveFromAbandoned (book_id : Z).

Definition run_call (now : string) (c : call) (db : database) : bool * database :=
  match c with
  | AddToTracker b p => add_to_tracker now b p db
  | CompleteBook b rating review start_date =>
      complete_book now b rating review start_date db
  | AbandonBook b p reason start_date => abandon_book now b p reason start_date db
  | UpdateTrackerProgress b p => update_tracker_progress b p db
  | RemoveFromTracker b => remove_from_tracker b db
  | RemoveFromCompleted b => remove_from_completed b db
  | RemoveFromAbandoned b => remove_from_abandoned b db
  end.

Fixpoint run_calls (cs : list (string * call)) (db : database) : database :=
  match cs with
  | [] => db
  | (now, c) :: cs => run_calls cs (snd (run_call now c db))
  end.

(** ** TBR lists

    [main.py] calls [db.add_book_to_tbr_list], [db.move_book_up],
    [db.move_book_down], [db.remove_book_from_tbr_list],
    [db.get_books_in_tbr_list] and [db.get_book_tbr_list], but
    [database.py] does not define them, nor the tables they work on.  This
    part of the embedding follows the specification of the ordered list
    manager instead. *)

(** Modelled from the spec: the TBR list entity (identity, name, optional
    description); its table is missing from the sources. *)
Record tbr_list_row := {
  tl_id : Z;
  tl_name : string;
  tl_description : option string
}.

(** Modelled from the spec: the TBR membership of a book, a list reference
    and an integer position; its table is missing from the sources. *)
Record tbr_membership := {
  tm_list_id : Z;
  tm_position : Z
}.

(** Modelled from the spec: the membership table is keyed by the book
    reference, which is unique, so it is a finite map from book ids; the
    lists are the rows of their table. *)
Record tbr_database := {
  tbr_lists : list tbr_list_row;
  tbr_list_books : gmap Z tbr_membership
}.

Definition tbr_list_exists (db : tbr_database) (list_id : Z) : Prop :=
  Exists (fun r => tl_id r = list_id) (tbr_lists db).

(** The memberships of one list, each with its book. *)
Definition members (list_id : Z) (db : tbr_database)
  : list (Z * tbr_membership) :=
  filter (fun bm => tm_list_id bm.2 = list_id) (map_to_list (tbr_list_books db)).

Definition by_position : relation (Z * tbr_membership) :=
  fun x y => tm_position x.2 <= tm_position y.2.

#[global] Instance by_position_dec x y : Decision (by_position x y).
Proof. unfold by_position. apply _. Defined.

(** Modelled from the spec: [list_books(list_id)], the books of the list by
    ascending position; the function is missing from the sources. *)
Definition get_books_in_tbr_list (list_id : Z) (db : tbr_database) : list Z :=
  fst <$> merge_sort by_position (members list_id db).

(** Modelled from the spec: [book's current list(book_id) -> List | none];
    the function is missing from the sources. *)
Definition get_book_tbr_list (book_id : Z) (db : tbr_database)
  : option tbr_list_row :=
  m ← tbr_list_books db !! book_id;
  head (filter (fun r => tl_id r = tm_list_id m) (tbr_lists db)).

(** The membership just before position [p] in position order: the one with
    the greatest position below [p]. *)
Definition preceding (p : Z) (ms : list (Z * tbr_membership))
  : option (Z * tbr_membership) :=
  foldr (fun x best =>
           if decide (tm_position x.2 < p) then
             match best with
             | Some y => if decide (tm_position y.2 < tm_position x.2)
                         then Some x else best
             | None => Some x
             end
           else best) None ms.

(** The membership just after position [p]: the one with the least position
    above [p]. *)
Definition following (p : Z) (ms : list (Z * tbr_membership))
  : option (Z * tbr_membership) :=
  foldr (fun x best =>
           if decide (p < tm_position x.2) then
             match best with
             | Some y => if decide (tm_position x.2 < tm_position y.2)
                         then Some x else best
             | None => Some x
             end
           else best) None ms.

(** The two memberships of a list with their positions exchanged. *)
Definition swap_positions (list_id book_id : Z) (m : tbr_membership)
    (other : Z) (m' : tbr_membership) (db : tbr_database) : tbr_database :=
  {| tbr_lists := tbr_lists db;
     tbr_list_books :=
       <[book_id := {| tm_list_id := list_id; tm_position := tm_position m' |}]>
         (<[other := {| tm_list_id := list_id; tm_position := tm_position m |}]>
            (tbr_list_books db)) |}.

(** Modelled from the spec: [move_up(book_id, list_id)] finds the membership
    just before the book's position and swaps the two positions; it fails
    when the book is not in the list or is already first.  The function is
    missing from the sources. *)
Definition move_book_up (book_id list_id : Z) (db : tbr_database)
  : bool * tbr_database :=
  match tbr_list_books db !! book_id with
  | Some m =>
    if decide (tm_list_id m = list_id) then
      match preceding (tm_position m) (members list_id db) with
      | Some (other, m') => (true, swap_positions list_id book_id m other m' db)
      | None => (false, db)
      end
    else (false, db)
  | None => (false, db)
  end.

(** Modelled from the spec: [move_down(book_id, list_id)], the same with the
    membership just after; the function is missing from the sources. *)
Definition move_book_down (book_id list_id : Z) (db : tbr_database)
  : bool * tbr_database :=
  match tbr_list_books db !! book_id with
  | Some m =>
    if decide (tm_list_id m = list_id) then
      match following (tm_position m) (members list_id db) with
      | Some (other, m') => (true, swap_positions list_id book_id m other m' db)
      | None => (false, db)
      end
    else (false, db)
  | None => (false, db)
  end.

(** Modelled from the spec: [remove_book(book_id, list_id)] deletes the
    membership and fails if the book was not a member of that list; the
    remaining positions are not renumbered.  The function is missing from
    the sources. *)
Definition remove_book_from_tbr_list (book_id list_id : Z) (db : tbr_database)
  : bool * tbr_database :=
  match tbr_list_books db !! book_id with
  | Some m =>
    if decide (tm_list_id m = list_id)
    then (true, {| tbr_lists := tbr_lists db;
                   tbr_list_books := delete book_id (tbr_list_books db) |})
    else (false, db)
  | None => (false, db)
  end.

Section add_book.
(** The position the first book of an empty list gets: the specification
    leaves it at 0 or 1. *)
Variable first_position : Z.

(** The position after the last one of the list. *)
Definition next_position (list_id : Z) (db : tbr_database) : Z :=
  match (fun bm => tm_position bm.2) <$> members list_id db with
  | [] => first_position
  | p :: ps => foldr Z.max p ps + 1
  end.

(** Modelled from the spec: [add_book(book_id, list_id)] first deletes a
    membership of the book in a different list, then appends the book to
    the target list, and fails only on a constraint violation: the list
    does not exist, or the book, whose reference is the unique key of the
    table, is already in the target list.  A failed call changes nothing.
    The function is missing from the sources. *)
Definition add_book_to_tbr_list (book_id list_id : Z) (db : tbr_database)
  : bool * tbr_database :=
  if decide (tbr_list_exists db list_id) then
    let db1 :=
      match tbr_list_books db !! book_id with
      | Some m =>
        if decide (tm_list_id m = list_id) then db
        else {| tbr_lists := tbr_lists db;
                tbr_list_books := delete book_id (tbr_list_books db) |}
      | None => db
      end in
    match tbr_list_books db1 !! book_id with
    | Some _ => (false, db)
    | None =>
      (true,
       {| tbr_lists := tbr_lists db1;
          tbr_list_books :=
            <[book_id := {| tm_list_id := list_id;
                            tm_position := next_position list_id db1 |}]>
              (tbr_list_books db1) |})
    end
  else (false, db).
End add_book.

(** Within a list no two books share a position. *)
Definition unique_positions (list_id : Z) (db : tbr_database) : Prop :=
  forall b1 b2 m1 m2,
    tbr_list_books db !! b1 = Some m1 ->
    tbr_list_books db !! b2 = Some m2 ->
    tm_list_id m1 = list_id -> tm_list_id m2 = list_id ->
    tm_position m1 = tm_position m2 -> b1 = b2.

(** The book a transition call is about. *)
Definition call_book (c : call) : Z :=
  match c with
  | AddToTracker b _ => b
  | CompleteBook b _ _ _ => b
  | AbandonBook b _ _ _ => b
  | UpdateTrackerProgress b _ => b
  | RemoveFromTracker b => b
  | RemoveFromCompleted b => b
  | RemoveFromAbandoned b => b
  end.

(** ** Books: lookup and deletion *)

(** [SELECT * FROM books WHERE id = ?] *)
Definition select_books (book_id : Z) (db : database) : list book_row :=
  filter (fun r => b_id r = book_id) (books db).

Definition get_book_by_id (book_id : Z) (db : database) : option book_row :=
  let conn := get_db_connection db in
  fetchone (select_books book_id (pending conn)).

(** [DELETE FROM reading_sessions WHERE book_id = ?] *)
Definition delete_sessions_of_book (book_id : Z) (db : database) : database :=
  {| books := books db;
     reading_tracker := reading_tracker db;
     completed_books := completed_books db;
     abandoned_books := abandoned_books db;
     reading_sessions :=
       filter (fun r => rs_book_id r <> book_id) (reading_sessions db) |}.

(** [DELETE FROM books WHERE id = ?] *)
Definition delete_books_row (book_id : Z) (db : database) : database :=
  {| books := filter (fun r => b_id r <> book_id) (books db);
     reading_tracker := reading_tracker db;
     completed_books := completed_books db;
     abandoned_books := abandoned_books db;
     reading_sessions := reading_sessions db |}.

Definition rowcount_books (book_id : Z) (db : database) : Z :=
  Z.of_nat (length (filter (fun r => b_id r = book_id) (books db))).

(** [cursor.rowcount] is read after the last statement, the [DELETE] on
    [books]. *)
Definition delete_book (book_id : Z) (db : database) : bool * database :=
  let conn := get_db_connection db in
  let conn := execute (delete_sessions_of_book book_id) conn in
  let conn := execute (delete_tracker book_id) conn in
  let conn := execute (delete_completed book_id) conn in
  let conn := execute (delete_abandoned book_id) conn in
  let rowcount := rowcount_books book_id (pending conn) in
  let conn := execute (delete_books_row book_id) conn in
  let conn := commit conn in
  let success := bool_decide (rowcount > 0) in
  (success, close conn).

(** ** Reading sessions: deletion *)

(** [DELETE FROM reading_sessions WHERE id = ?] *)
Definition delete_session_row (session_id : Z) (db : database) : database :=
  {| books := books db;
     reading_tracker := reading_tracker db;
     completed_books := completed_books db;
     abandoned_books := abandoned_books db;
     reading_sessions :=
       filter (fun r => rs_id r <> session_id) (reading_sessions db) |}.

Definition rowcount_session (session_id : Z) (db : database) : Z :=
  Z.of_nat (length (filter (fun r => rs_id r = session_id) (reading_sessions db))).

Definition delete_session (session_id : Z) (db : database) : bool * database :=
  let conn := get_db_connection db in
  let rowcount := rowcount_session session_id (pending conn) in
  let conn := execute (delete_session_row session_id) conn in
  let conn := commit conn in
  let success := bool_decide (rowcount > 0) in
  (success, close conn).

(** ** Dashboard statistics *)

Record dashboard_stats := {
  total_books : Z;
  library_count : Z;
  completed_count : Z;
  abandoned_count : Z;
  tracking_count : Z
}.

(** [SELECT COUNT( * ) FROM books WHERE id NOT IN (SELECT book_id FROM
    reading_tracker) AND id NOT IN (SELECT book_id FROM completed_books)
    AND id NOT IN (SELECT book_id FROM abandoned_books)] *)
Definition count_library (db : database) : Z :=
  Z.of_nat (length (filter
    (fun r => (b_id r ∉ rt_book_id <$> reading_tracker db) /\
              (b_id r ∉ cb_book_id <$> completed_books db) /\
              (b_id r ∉ ab_book_id <$> abandoned_books db)) (books db))).

Definition get_dashboard_stats (db : database) : dashboard_stats :=
  let conn := get_db_connection db in
  let library_count := count_library (pending conn) in
  let total_books := Z.of_nat (length (books (pending conn))) in
  let completed_count := Z.of_nat (length (completed_books (pending conn))) in
  let abandoned_count := Z.of_nat (length (abandoned_books (pending conn))) in
  let tracking_count := Z.of_nat (length (reading_tracker (pending conn))) in
  {| total_books := total_books;
     library_count := library_count;
     completed_count := completed_count;
     abandoned_count := abandoned_count;
     tracking_count := tracking_count |}.

(** ** Reading sessions: listings *)

(** [ORDER BY session_date DESC, start_time DESC]: [x] may come before [y].
    Text is compared the way SQLite's default collation compares it, byte
    by byte, which is the order of [String.compare].  SQL leaves the
    order of rows that tie open; nothing below depends on it. *)
Definition newest_first (x y : session_row) : Prop :=
  String.ltb (rs_session_date y) (rs_session_date x) = true \/
  (rs_session_date x = rs_session_date y /\
   String.leb (rs_start_time y) (rs_start_time x) = true).

#[global] Instance newest_first_dec x y : Decision (newest_first x y).
Proof. unfold newest_first. apply _. Defined.

(** [LIMIT ? OFFSET ?]: a negative limit is no limit, a negative offset is
    no offset. *)
Definition sql_limit_offset {A} (limit offset : Z) (rows : list A) : list A :=
  let rows := drop (Z.to_nat offset) rows in
  if decide (limit < 0) then rows else take (Z.to_nat limit) rows.

(** [SELECT * FROM reading_sessions WHERE book_id = ?
     ORDER BY session_date DESC, start_time DESC] *)
Definition select_sessions_of_book (book_id : Z) (db : database)
  : list session_row :=
  merge_sort newest_first
    (filter (fun r => rs_book_id r = book_id) (reading_sessions db)).

Definition get_book_sessions (book_id limit offset : Z) (db : database)
  : list session_row * Z :=
  let conn := get_db_connection db in
  let total_count :=
    Z.of_nat (length (filter (fun r => rs_book_id r = book_id)
                             (reading_sessions (pending conn)))) in
  let sessions :=
    sql_limit_offset limit offset
      (select_sessions_of_book book_id (pending conn)) in
  (sessions, total_count).

(** [SELECT rs.*, b.title, b.author, b.cover_url FROM reading_sessions rs
     JOIN books b ON rs.book_id = b.id
     ORDER BY rs.session_date DESC, rs.start_time DESC]: a session with the
    catalog row of its book. *)
Definition select_sessions_with_books (db : database)
  : list (session_row * book_row) :=
  merge_sort (fun x y => newest_first x.1 y.1)
    (s ← reading_sessions db;
     b ← filter (fun b => b_id b = rs_book_id s) (books db);
     [(s, b)]).

(** The total is counted on [reading_sessions] alone, without the join. *)
Definition get_all_sessions (limit offset : Z) (db : database)
  : list (session_row * book_row) * Z :=
  let conn := get_db_connection db in
  let total_count := Z.of_nat (length (reading_sessions (pending conn))) in
  let sessions :=
    sql_limit_offset limit offset (select_sessions_with_books (pending conn)) in
  (sessions, total_count).

(** ** The routes of [main.py]

    A handler takes the values FastAPI has parsed from the request and the
    database, and gives its response and the database it leaves.  The
    clock of the store is an argument where a statement reads it. *)
Module main.

Inductive response :=
| RedirectResponse (url : string) (status_code : Z)
| HTTPException (status_code : Z) (detail : string)
| Started (book_id : Z)        (* [{"status": "started", "book_id": book_id}] *)
| InternalServerError.         (* an exception no handler catches *)

Definition move_to_tracker (now : string) (book_id : Z) (db : database)
  : response * database :=
  let '(success, db) := add_to_tracker now book_id 0 db in
  if negb success
  then (HTTPException 400 "Could not add book to tracker", db)
  else (RedirectResponse "/tracker" 303, db).

Definition delete_book (book_id : Z) (db : database) : response * database :=
  let '(success, db) := delete_book book_id db in
  if negb success
  then (HTTPException 404 "Book not found", db)
  else (RedirectResponse "/library" 303, db).

Definition update_progress (book_id current_page : Z) (db : database)
  : response * database :=
  let '(success, db) := update_tracker_progress book_id current_page db in
  if negb success
  then (HTTPException 404 "Book not found in tracker", db)
  else (RedirectResponse "/tracker" 303, db).

Definition complete_tracked_book (now : string) (book_id : Z)
    (rating : option Z) (review : option string) (db : database)
  : response * database :=
  let '(success, db) := complete_book now book_id rating review None db in
  if negb success
  then (HTTPException 400 "Could not complete book", db)
  else (RedirectResponse "/completed" 303, db).

Definition abandon_tracked_book (now : string) (book_id page_at_abandonment : Z)
    (reason : option string) (db : database) : response * database :=
  let '(success, db) :=
    abandon_book now book_id page_at_abandonment reason None db in
  if negb success
  then (HTTPException 400 "Could not abandon book", db)
  else (RedirectResponse "/abandoned" 303, db).

Definition remove_from_tracker (book_id : Z) (db : database)
  : response * database :=
  let '(success, db) := remove_from_tracker book_id db in
  if negb success
  then (HTTPException 404 "Book not found in tracker", db)
  else (RedirectResponse "/library" 303, db).

Definition start_session (book_id : Z) (start_time : string) (start_page : Z)
    (db : database) : response * database :=
  match get_book_by_id book_id db with
  | None => (HTTPException 404 "Book not found", db)
  | Some book => (Started book_id, db)
  end.

(** [add_reading_session] raises on a start time [fromisoformat] rejects;
    the handler does not catch it.  The result of
    [update_tracker_progress] is dropped. *)
Definition stop_session (book_id : Z) (start_time end_time : string)
    (duration_seconds start_page end_page : Z) (db : database)
  : response * database :=
  match add_reading_session book_id start_time end_time duration_seconds
                            start_page end_page db with
  | None => (InternalServerError, db)
  | Some (session_id, db) =>
    let '(_, db) := update_tracker_progress book_id end_page db in
    (RedirectResponse "/tracker" 303, db)
  end.

(** [None if (s == "" or s is None) else s] *)
Definition empty_to_none (s : option string) : option string :=
  match s with
  | None => None
  | Some EmptyString => None
  | Some s => Some s
  end.

Definition update_completed_book (book_id : Z) (rating : option Z)
    (review start_date completion_date : option string) (db : database)
  : response * database :=
  let review := empty_to_none review in
  let start_date := empty_to_none start_date in
  let completion_date := empty_to_none completion_date in
  let '(success, db) :=
    update_completed_book book_id rating review start_date completion_date db in
  if negb success
  then (HTTPException 404 "Completed book not found", db)
  else (RedirectResponse "/completed" 303, db).

Definition remove_from_completed (book_id : Z) (db : database)
  : response * database :=
  let '(success, db) := remove_from_completed book_id db in
  if negb success
  then (HTTPException 404 "Book not found in completed", db)
  else (RedirectResponse "/library" 303, db).

Definition update_abandoned_book (book_id : Z) (page_at_abandonment : option Z)
    (reason start_date abandonment_date : option string) (db : database)
  : response * database :=
  let reason := empty_to_none reason in
  let start_date := empty_to_none start_date in
  let abandonment_date := empty_to_none abandonment_date in
  let '(success, db) :=
    update_abandoned_book book_id page_at_abandonment reason start_date
                          abandonment_date db in
  if negb success
  then (HTTPException 404 "Abandoned book not found", db)
  else (RedirectResponse "/abandoned" 303, db).

Definition remove_from_abandoned (book_id : Z) (db : database)
  : response * database :=
  let '(success, db) := remove_from_abandoned book_id db in
  if negb success
  then (HTTPException 404 "Book not found in abandoned", db)
  else (RedirectResponse "/library" 303, db).

Definition delete_session (session_id book_id : Z) (db : database)
  : response * database :=
  let '(success, db) := delete_session session_id db in
  if negb success
  then (HTTPException 404 "Session not found", db)
  else (RedirectResponse ("/sessions/" +:+ pretty book_id) 303, db).

(** What [book_details_page] hands to its template. *)
Record book_details := {
  bd_book : book_row;
  bd_status : string;
  bd_has_sessions : bool
}.

(** [None] is the [HTTPException(404, "Book not found")]. *)
Definition book_details_page (book_id : Z) (db : database)
  : option book_details :=
  match get_book_by_id book_id db with
  | None => None
  | Some book =>
    let status := get_book_status book_id db in
    let '(sessions, _) := get_book_sessions book_id 1 0 db in
    let has_sessions := bool_decide (Z.of_nat (length sessions) > 0) in
    Some {| bd_book := book; bd_status := status;
            bd_has_sessions := has_sessions |}
  end.

(** The POST requests that change the status ledger or the session log,
    and the handler each one is routed to. *)
Inductive request :=
| PostLibraryRead (book_id : Z)
| PostLibraryDelete (book_id : Z)
| PostTrackerUpdateProgress (book_id current_page : Z)
| PostTrackerComplete (book_id : Z) (rating : option Z) (review : option string)
| PostTrackerAbandon (book_id page_at_abandonment : Z) (reason : option string)
| PostTrackerRemove (book_id : Z)
| PostTrackerSessionStart (book_id : Z) (start_time : string) (start_page : Z)
| PostTrackerSessionStop (book_id : Z) (start_time end_time : string)
    (duration_seconds start_page end_page : Z)
| PostCompletedUpdate (book_id : Z) (rating : option Z)
    (review start_date completion_date : option string)
| PostCompletedRemove (book_id : Z)
| PostAbandonedUpdate (book_id : Z) (page_at_abandonment : option Z)
    (reason start_date abandonment_date : option string)
| PostAbandonedRemove (book_id : Z)
| PostSessionsDelete (session_id book_id : Z).

Definition handle (now : string) (req : request) (db : database)
  : response * database :=
  match req with
  | PostLibraryRead b => move_to_tracker now b db
  | PostLibraryDelete b => delete_book b db
  | PostTrackerUpdateProgress b p => update_progress b p db
  | PostTrackerComplete b rating review =>
      complete_tracked_book now b rating review db
  | PostTrackerAbandon b p reason => abandon_tracked_book now b p reason db
  | PostTrackerRemove b => remove_from_tracker b db
  | PostTrackerSessionStart b t p => start_session b t p db
  | PostTrackerSessionStop b t1 t2 d p1 p2 => stop_session b t1 t2 d p1 p2 db
  | PostCompletedUpdate b rating review sd cd =>
      update_completed_book b rating review sd cd db
  | PostCompletedRemove b => remove_from_completed b db
  | PostAbandonedUpdate b p reason sd ad =>
      update_abandoned_book b p reason sd ad db
  | PostAbandonedRemove b => remove_from_abandoned b db
  | PostSessionsDelete s b => delete_session s b db
  end.

Definition is_error (r : response) : bool :=
  match r with
  | HTTPException _ _ => true
  | InternalServerError => true
  | _ => false
  end.

End main.

(** A database in which ids are keys: every catalog id and every book id of
    a status table occurs once, every status row belongs to a book of the
    catalog, and no book is in two status tables. *)
Definition consistent (db : database) : Prop :=
  NoDup (b_id <$> books db) /\
  NoDup (rt_book_id <$> reading_tracker db) /\
  NoDup (cb_book_id <$> completed_books db) /\
  NoDup (ab_book_id <$> abandoned_books db) /\
  (forall b, tracking db b \/ completed db b \/ abandoned db b ->
             in_catalog db b) /\
  (forall b, exclusive db b).

(** The calls as the pages of the application issue them: a book is put on
    the tracker from the catalog, and completed or abandoned from the
    tracker. *)
Definition call_from_page (db : database) (c : call) : Prop :=
  match c with
  | AddToTracker b _ => in_catalog db b
  | CompleteBook b _ _ _ => tracking db b
  | AbandonBook b _ _ _ => tracking db b
  | UpdateTrackerProgress _ _ => True
  | RemoveFromTracker _ => True
  | RemoveFromCompleted _ => True
  | RemoveFromAbandoned _ => True
  end.

(** ** Sample data *)

(** Two books in the catalog; book 7 is completed, book 5 has no status. *)
Definition sample_db : database :=
  {| books :=
       [ {| b_id := 5; b_title := "Dune"; b_author := "Frank Herbert";
            b_page_count := 612 |};
         {| b_id := 7; b_title := "Emma"; b_author := "Jane Austen";
            b_page_count := 474 |} ];
     reading_tracker := [];
     completed_books :=
       [ {| cb_id := 1; cb_book_id := 7; cb_rating := Some 4;
            cb_review := Some "witty"; cb_start_date := Some "2024-01-02 08:00:00";
            cb_completion_date := Some "2024-01-20 21:30:00" |} ];
     abandoned_books := [];
     reading_sessions := [] |}.

(** [sample_db] after book 5 has been put on the tracker at page 10. *)
Definition sample_db_tracking : database :=
  snd (add_to_tracker "2024-03-01 09:00:00" 5 10 sample_db).

(** [sample_db] with three reading sessions in the order they were
    recorded: two of book 5, and between them one stored under the id 9,
    which is not in the catalog. *)
Definition sample_db_sessions : database :=
  {| books := books sample_db;
     reading_tracker := reading_tracker sample_db;
     completed_books := completed_books sample_db;
     abandoned_books := abandoned_books sample_db;
     reading_sessions :=
       [ {| rs_id := 1; rs_book_id := 5;
            rs_start_time := "2024-03-10T21:05:00";
            rs_end_time := "2024-03-10T21:35:00";
            rs_duration_seconds := 1800; rs_pages_read := 20;
            rs_start_page := 100; rs_end_page := 120;
            rs_session_date := "2024-03-10" |};
         {| rs_id := 2; rs_book_id := 9;
            rs_start_time := "2024-03-11T08:00:00";
            rs_end_time := "2024-03-11T08:10:00";
            rs_duration_seconds := 600; rs_pages_read := 5;
            rs_start_page := 1; rs_end_page := 6;
            rs_session_date := "2024-03-11" |};
         {| rs_id := 3; rs_book_id := 5;
            rs_start_time := "2024-03-12T07:30:00";
            rs_end_time := "2024-03-12T08:00:00";
            rs_duration_seconds := 1800; rs_pages_read := 25;
            rs_start_page := 120; rs_end_page := 145;
            rs_session_date := "2024-03-12" |} ] |}.

(** Two TBR lists; list 1 holds the books 101, 102 and 103 in this order. *)
Definition sample_tbr : tbr_database :=
  {| tbr_lists :=
       [ {| tl_id := 1; tl_name := "next"; tl_description := None |};
         {| tl_id := 2; tl_name := "later";
            tl_description := Some "some day" |} ];
     tbr_list_books :=
       list_to_map
         [ (101, {| tm_list_id := 1; tm_position := 0 |});
           (102, {| tm_list_id := 1; tm_position := 1 |});
           (103, {| tm_list_id := 1; tm_position := 2 |}) ] |}.

(** * Properties *)

Section select_facts.
Context {A B : Type} (f : A -> B) (P : A -> Prop) `{!forall x, Decision (P x)}.

Lemma fetchone_select_None (l : list A) :
  fetchone (f <$> filter P l) = None <-> ~ Exists P l.
Proof.
  unfold fetchone. rewrite head_None, Exists_exists.
  split.
  - intros Hnil [x [Hx HP]]. apply fmap_nil_inv in Hnil.
    by apply (filter_nil_not_elem_of P l x Hnil HP).
  - intros Hno. induction l as [|x l IH]; [done|].
    rewrite filter_cons. destruct (decide (P x)) as [HP|HP].
    + exfalso. apply Hno. exists x. split; [left | done].
    + apply IH. intros [y [Hy HPy]]. apply Hno. exists y. split; [by right | done].
Qed.

Lemma fetchone_select_Some (l : list A) :
  is_Some (fetchone (f <$> filter P l)) <-> Exists P l.
Proof.
  destruct (fetchone (f <$> filter P l)) eqn:E.
  - split; [intros _ | eauto].
    destruct (decide (Exists P l)) as [?|Hn]; [done|].
    apply fetchone_select_None in Hn. congruence.
  - split; [intros [? ?]; done|].
    intros HE. apply fetchone_select_None in E. done.
Qed.

End select_facts.

Lemma rowcount_positive {A} (P : A -> Prop) `{!forall x, Decision (P x)}
    (l : list A) :
  Z.of_nat (length (filter P l)) > 0 <-> Exists P l.
Proof.
  rewrite Exists_exists. split.
  - destruct (filter P l) as [|x l'] eqn:E; simpl; [lia|].
    intros _. exists x.
    assert (Hin : x ∈ filter P l) by (rewrite E; left).
    apply list_elem_of_filter in Hin. tauto.
  - intros [x [Hx HP]].
    assert (Hin : x ∈ filter P l) by (apply list_elem_of_filter; done).
    destruct (filter P l); [by apply elem_of_nil in Hin | simpl; lia].
Qed.

Lemma rowcount_false {A} (P : A -> Prop) `{!forall x, Decision (P x)} (l : list A) :
  bool_decide (Z.of_nat (length (filter P l)) > 0) = false <-> ~ Exists P l.
Proof.
  rewrite bool_decide_eq_false.
  pose proof (rowcount_positive P l). tauto.
Qed.

(** ** What each statement does to the status of a book *)

Ltac status_unfold :=
  unfold tracking, completed, abandoned, in_catalog;
  cbn [reading_tracker completed_books abandoned_books books
       delete_tracker delete_completed delete_abandoned
       insert_tracker insert_completed insert_abandoned
       update_tracker update_completed update_abandoned];
  rewrite ?Exists_exists.

Ltac status_solve :=
  status_unfold;
  repeat (setoid_rewrite list_elem_of_filter
          || setoid_rewrite elem_of_app
          || setoid_rewrite list_elem_of_fmap
          || setoid_rewrite list_elem_of_singleton);
  naive_solver.

Lemma tracking_delete_tracker db b b' :
  tracking (delete_tracker b db) b' <-> tracking db b' /\ b' <> b.
Proof. status_solve. Qed.

Lemma completed_delete_completed db b b' :
  completed (delete_completed b db) b' <-> completed db b' /\ b' <> b.
Proof. status_solve. Qed.

Lemma abandoned_delete_abandoned db b b' :
  abandoned (delete_abandoned b db) b' <-> abandoned db b' /\ b' <> b.
Proof. status_solve. Qed.

Lemma tracking_insert_tracker now db b p b' :
  tracking (insert_tracker now b p db) b' <-> tracking db b' \/ b' = b.
Proof. status_solve. Qed.

Lemma completed_insert_completed now db b rating review start_date b' :
  completed (insert_completed now b rating review start_date db) b'
  <-> completed db b' \/ b' = b.
Proof. status_solve. Qed.

Lemma abandoned_insert_abandoned now db b p reason start_date b' :
  abandoned (insert_abandoned now b p reason start_date db) b'
  <-> abandoned db b' \/ b' = b.
Proof. status_solve. Qed.

Lemma tracking_update_tracker db b p b' :
  tracking (update_tracker b p db) b' <-> tracking db b'.
Proof.
  status_unfold. setoid_rewrite list_elem_of_fmap. split.
  - intros (r & (r0 & -> & Hin) & Hb). exists r0. split; [done|].
    by destruct (decide (rt_book_id r0 = b)).
  - intros (r & Hin & Hb). eexists. split; [eexists; split; [reflexivity|exact Hin]|].
    by destruct (decide (rt_book_id r = b)).
Qed.

Lemma completed_update_completed db b rating review start_date completion_date b' :
  completed (update_completed b rating review start_date completion_date db) b'
  <-> completed db b'.
Proof.
  status_unfold. setoid_rewrite list_elem_of_fmap. split.
  - intros (r & (r0 & -> & Hin) & Hb). exists r0. split; [done|].
    by destruct (decide (cb_book_id r0 = b)).
  - intros (r & Hin & Hb). eexists. split; [eexists; split; [reflexivity|exact Hin]|].
    by destruct (decide (cb_book_id r = b)).
Qed.

Lemma abandoned_update_abandoned db b page reason start_date abandonment_date b' :
  abandoned (update_abandoned b page reason start_date abandonment_date db) b'
  <-> abandoned db b'.
Proof.
  status_unfold. setoid_rewrite list_elem_of_fmap. split.
  - intros (r & (r0 & -> & Hin) & Hb). exists r0. split; [done|].
    by destruct (decide (ab_book_id r0 = b)).
  - intros (r & Hin & Hb). eexists. split; [eexists; split; [reflexivity|exact Hin]|].
    by destruct (decide (ab_book_id r = b)).
Qed.

(** ** The transition functions, statement by statement *)

Lemma add_to_tracker_tracked now db b p :
  tracking db b -> add_to_tracker now b p db = (false, db).
Proof.
  intros Ht. unfold add_to_tracker, select_tracker_ids.
  cbn [get_db_connection execute pending committed close commit
       delete_completed delete_abandoned reading_tracker].
  destruct (proj2 (fetchone_select_Some rt_id
              (fun r => rt_book_id r = b) (reading_tracker db)) Ht) as [i Hi].
  by rewrite Hi.
Qed.

Lemma add_to_tracker_untracked now db b p :
  ~ tracking db b ->
  add_to_tracker now b p db
  = (true, insert_tracker now b p (delete_abandoned b (delete_completed b db))).
Proof.
  intros Ht. unfold add_to_tracker, select_tracker_ids.
  cbn [get_db_connection execute pending committed close commit
       delete_completed delete_abandoned reading_tracker].
  by rewrite (proj2 (fetchone_select_None rt_id
                (fun r => rt_book_id r = b) (reading_tracker db)) Ht).
Qed.

Lemma complete_book_db now db b rating review start_date :
  exists sd,
    complete_book now b rating review start_date db
    = (true, insert_completed now b rating review sd
               (delete_abandoned b (delete_tracker b db))).
Proof. unfold complete_book. eexists. reflexivity. Qed.

Lemma abandon_book_db now db b page reason start_date :
  exists sd,
    abandon_book now b page reason start_date db
    = (true, insert_abandoned now b page reason sd
               (delete_completed b (delete_tracker b db))).
Proof. unfold abandon_book. eexists. reflexivity. Qed.

(** Every transition keeps the three status tables exclusive for every
    book. *)
Lemma run_call_exclusive now c db b :
  exclusive db b -> exclusive (snd (run_call now c db)) b.
Proof.
  unfold exclusive. intros (H1 & H2 & H3).
  destruct c as [b0 p|b0 rating review sd|b0 p reason sd|b0 p|b0|b0|b0];
    cbn [run_call].
  - destruct (decide (tracking db b0)) as [Ht|Ht].
    + by rewrite add_to_tracker_tracked.
    + rewrite add_to_tracker_untracked by done. cbn [snd].
      rewrite tracking_insert_tracker.
      assert (Hc : forall x, completed (insert_tracker now b0 p
                     (delete_abandoned b0 (delete_completed b0 db))) x
                   <-> completed db x /\ x <> b0) by (intros; status_solve).
      assert (Ha : forall x, abandoned (insert_tracker now b0 p
                     (delete_abandoned b0 (delete_completed b0 db))) x
                   <-> abandoned db x /\ x <> b0) by (intros; status_solve).
      assert (Htr : tracking (delete_abandoned b0 (delete_completed b0 db)) b
                    <-> tracking db b) by status_solve.
      rewrite Hc, Ha, Htr. tauto.
  - destruct (complete_book_db now db b0 rating review sd) as [sd' ->].
    cbn [snd]. rewrite completed_insert_completed.
    assert (Ht : forall x, tracking (insert_completed now b0 rating review sd'
                   (delete_abandoned b0 (delete_tracker b0 db))) x
                 <-> tracking db x /\ x <> b0) by (intros; status_solve).
    assert (Ha : forall x, abandoned (insert_completed now b0 rating review sd'
                   (delete_abandoned b0 (delete_tracker b0 db))) x
                 <-> abandoned db x /\ x <> b0) by (intros; status_solve).
    assert (Hc : completed (delete_abandoned b0 (delete_tracker b0 db)) b
                 <-> completed db b) by status_solve.
    rewrite Ht, Ha, Hc. tauto.
  - destruct (abandon_book_db now db b0 p reason sd) as [sd' ->].
    cbn [snd]. rewrite abandoned_insert_abandoned.
    assert (Ht : forall x, tracking (insert_abandoned now b0 p reason sd'
                   (delete_completed b0 (delete_tracker b0 db))) x
                 <-> tracking db x /\ x <> b0) by (intros; status_solve).
    assert (Hc : forall x, completed (insert_abandoned now b0 p reason sd'
                   (delete_completed b0 (delete_tracker b0 db))) x
                 <-> completed db x /\ x <> b0) by (intros; status_solve).
    assert (Ha : abandoned (delete_completed b0 (delete_tracker b0 db)) b
                 <-> abandoned db b) by status_solve.
    rewrite Ht, Hc, Ha. tauto.
  - unfold update_tracker_progress.
    cbn [snd get_db_connection execute pending committed close commit].
    rewrite tracking_update_tracker.
    change (completed (update_tracker b0 p db) b) with (completed db b).
    change (abandoned (update_tracker b0 p db) b) with (abandoned db b).
    tauto.
  - unfold remove_from_tracker.
    cbn [snd get_db_connection execute pending committed close commit].
    rewrite tracking_delete_tracker.
    change (completed (delete_tracker b0 db) b) with (completed db b).
    change (abandoned (delete_tracker b0 db) b) with (abandoned db b).
    tauto.
  - unfold remove_from_completed.
    cbn [snd get_db_connection execute pending committed close commit].
    rewrite completed_delete_completed.
    change (tracking (delete_completed b0 db) b) with (tracking db b).
    change (abandoned (delete_completed b0 db) b) with (abandoned db b).
    tauto.
  - unfold remove_from_abandoned.
    cbn [snd get_db_connection execute pending committed close commit].
    rewrite abandoned_delete_abandoned.
    change (tracking (delete_abandoned b0 db) b) with (tracking db b).
    change (completed (delete_abandoned b0 db) b) with (completed db b).
    tauto.
Qed.

Lemma run_calls_exclusive cs db b :
  exclusive db b -> exclusive (run_calls cs db) b.
Proof.
  revert db. induction cs as [|[now c] cs IH]; intros db Hex; cbn [run_calls].
  - exact Hex.
  - apply IH. by apply run_call_exclusive.
Qed.

(** C1. For every book, starting from a store in which the book has no
    status record, after any sequence of calls to [add_to_tracker],
    [complete_book], [abandon_book], [update_tracker_progress],
    [remove_from_tracker], [remove_from_completed] and
    [remove_from_abandoned] (on this book or on any other, with any
    arguments), at most one of the three kinds of status record exists for
    that book: it is never in two of [reading_tracker], [completed_books]
    and [abandoned_books] at once. *)
Theorem status_exclusive_after_calls (db : database) (book_id : Z)
    (cs : list (string * call)) :
  no_status db book_id ->
  exclusive (run_calls cs db) book_id.
Proof.
  intros (Ht & Hc & Ha). apply run_calls_exclusive.
  unfold exclusive. tauto.
Qed.

(** C2. If a Tracking record already exists for the book, [add_to_tracker]
    returns failure and leaves the whole database as it was (the two
    [DELETE]s it ran before the check are never committed); and whatever the
    database, a second [add_to_tracker] right after a first one on the same
    book returns failure and changes nothing. *)
Theorem add_to_tracker_already_tracking (db : database) (book_id : Z)
    (now now' : string) (current_page current_page' : Z) :
  (tracking db book_id ->
   add_to_tracker now book_id current_page db = (false, db)) /\
  (let db1 := snd (add_to_tracker now book_id current_page db) in
   add_to_tracker now' book_id current_page' db1 = (false, db1)).
Proof.
  split; [apply add_to_tracker_tracked|].
  cbn zeta. destruct (decide (tracking db book_id)) as [Ht|Ht].
  - rewrite (add_to_tracker_tracked now) by done. cbn [snd].
    by apply add_to_tracker_tracked.
  - rewrite (add_to_tracker_untracked now) by done. cbn [snd].
    apply add_to_tracker_tracked. apply tracking_insert_tracker. by right.
Qed.

Lemma get_book_status_eq db b :
  get_book_status b db =
  if decide (in_catalog db b) then
    if decide (tracking db b) then "tracking"
    else if decide (completed db b) then "completed"
    else if decide (abandoned db b) then "abandoned"
    else "library"
  else "unknown".
Proof.
  unfold get_book_status, select_book_ids, select_tracker_ids,
    select_completed_ids, select_abandoned_ids.
  cbn [get_db_connection pending].
  pose proof (fetchone_select_None b_id (fun r => b_id r = b) (books db)) as Hb.
  pose proof (fetchone_select_None rt_id (fun r => rt_book_id r = b)
                (reading_tracker db)) as Ht.
  pose proof (fetchone_select_None cb_id (fun r => cb_book_id r = b)
                (completed_books db)) as Hc.
  pose proof (fetchone_select_None ab_id (fun r => ab_book_id r = b)
                (abandoned_books db)) as Ha.
  fold (in_catalog db b) in Hb. fold (tracking db b) in Ht.
  fold (completed db b) in Hc. fold (abandoned db b) in Ha.
  repeat case_decide;
    repeat match goal with
           | |- context [fetchone ?l] => destruct (fetchone l)
           end; try reflexivity; exfalso; intuition congruence.
Qed.

(** C3. [get_book_status] returns ["unknown"] if and only if the book is
    not in the catalog; for a book of the catalog it looks at the tracker,
    then at the completed books, then at the abandoned books, answers with
    the first table that holds the book, and with ["library"] when none
    does. *)
Theorem get_book_status_priority (db : database) (book_id : Z) :
  (get_book_status book_id db = "unknown" <-> ~ in_catalog db book_id) /\
  (in_catalog db book_id ->
   (tracking db book_id -> get_book_status book_id db = "tracking") /\
   (~ tracking db book_id -> completed db book_id ->
    get_book_status book_id db = "completed") /\
   (~ tracking db book_id -> ~ completed db book_id -> abandoned db book_id ->
    get_book_status book_id db = "abandoned") /\
   (~ tracking db book_id -> ~ completed db book_id -> ~ abandoned db book_id ->
    get_book_status book_id db = "library")).
Proof.
  rewrite get_book_status_eq.
  repeat case_decide; repeat split; intros; try reflexivity; try tauto;
    try discriminate.
Qed.

Lemma filter_ne_id {A} (P : A -> Prop) `{!forall x, Decision (P x)} (l : list A) :
  filter (fun x => ~ P x) l = l <-> ~ Exists P l.
Proof.
  rewrite Exists_exists. induction l as [|x l IH].
  - split; [|done]. intros _ (y & Hy & _). by apply elem_of_nil in Hy.
  - rewrite filter_cons. destruct (decide (~ P x)) as [Hx|Hx].
    + split.
      * intros Heq (y & Hy & HP). injection Heq as Heq.
        apply elem_of_cons in Hy as [->|Hy]; [done|].
        apply IH in Heq. apply Heq. eauto.
      * intros Hno. f_equal. apply IH. intros (y & Hy & HP).
        apply Hno. exists y. split; [by right|done].
    + split.
      * intros Heq. exfalso.
        assert (Hlen : (length (filter (fun x => ~ P x) l) <= length l)%nat)
          by apply length_filter.
        rewrite Heq in Hlen. simpl in Hlen. lia.
      * intros Hno. exfalso. apply Hx. intros HP. apply Hno.
        exists x. split; [left|done].
Qed.

(** C4. [complete_book] always returns success, for a tracked book as for
    any other.  It deletes the Tracking and Abandoned rows of the book and
    appends one Completed row that carries the book, the rating, the review
    and the completion time; when [start_date] is omitted the row inherits
    the start date of the book's (first) Tracking row and keeps a null start
    date when there is none, and a non-empty [start_date] is stored as given.
    Afterwards no Tracking row remains for the book and, for a book of the
    catalog, [get_book_status] answers ["completed"]. *)
Theorem complete_book_completes (now : string) (db : database) (book_id : Z)
    (rating : option Z) (review start_date : option string) :
  exists (db' : database) (row : completed_row),
    complete_book now book_id rating review start_date db = (true, db') /\
    books db' = books db /\
    reading_sessions db' = reading_sessions db /\
    reading_tracker db'
      = filter (fun r => rt_book_id r <> book_id) (reading_tracker db) /\
    abandoned_books db'
      = filter (fun r => ab_book_id r <> book_id) (abandoned_books db) /\
    completed_books db' = (completed_books db ++ [row])%list /\
    cb_book_id row = book_id /\
    cb_rating row = rating /\
    cb_review row = review /\
    cb_completion_date row = Some now /\
    (start_date = None ->
     forall r rest,
       filter (fun r => rt_book_id r = book_id) (reading_tracker db) = r :: rest ->
       cb_start_date row = rt_start_date r) /\
    (start_date = None -> ~ tracking db book_id -> cb_start_date row = None) /\
    (forall s, start_date = Some s -> s <> "" -> cb_start_date row = Some s) /\
    ~ tracking db' book_id /\
    ~ abandoned db' book_id /\
    completed db' book_id /\
    (in_catalog db book_id -> get_book_status book_id db' = "completed").
Proof.
  eexists _, _. split; [reflexivity|].
  cbn [get_db_connection execute pending committed close commit
       insert_completed delete_abandoned delete_tracker
       books reading_sessions reading_tracker abandoned_books completed_books
       cb_book_id cb_rating cb_review cb_completion_date cb_start_date].
  repeat (split; [reflexivity|]).
  assert (Hnt : forall d : database,
             reading_tracker d
             = filter (fun r => rt_book_id r <> book_id) (reading_tracker db) ->
             ~ tracking d book_id).
  { intros d Hd. unfold tracking. rewrite Hd, Exists_exists.
    intros (r & Hr & Hb). apply list_elem_of_filter in Hr. tauto. }
  assert (Hna : forall d : database,
             abandoned_books d
             = filter (fun r => ab_book_id r <> book_id) (abandoned_books db) ->
             ~ abandoned d book_id).
  { intros d Hd. unfold abandoned. rewrite Hd, Exists_exists.
    intros (r & Hr & Hb). apply list_elem_of_filter in Hr. tauto. }
  split; [|split; [|split; [|split; [|split; [|split]]]]].
  - intros -> r rest Hf. unfold select_tracker_start_date.
    cbn [py_not]. by rewrite Hf.
  - intros -> Hno. unfold select_tracker_start_date. cbn [py_not].
    by rewrite (proj2 (fetchone_select_None rt_start_date
                         (fun r => rt_book_id r = book_id) (reading_tracker db)) Hno).
  - intros s -> Hs. by destruct s.
  - by apply Hnt.
  - by apply Hna.
  - status_solve.
  - intros Hcat. rewrite get_book_status_eq.
    rewrite decide_True by exact Hcat.
    rewrite decide_False by (by apply Hnt).
    rewrite decide_True by status_solve. reflexivity.
Qed.

(** C7. Each of [remove_from_tracker], [remove_from_completed] and
    [remove_from_abandoned] deletes the rows of the book from its own status
    table and touches no other table; it returns false exactly when the book
    had no row in that table, which is exactly when nothing was deleted. *)
Theorem remove_from_status_table (db : database) (book_id : Z) :
  (let (success, db') := remove_from_tracker book_id db in
   reading_tracker db'
     = filter (fun r => rt_book_id r <> book_id) (reading_tracker db) /\
   completed_books db' = completed_books db /\
   abandoned_books db' = abandoned_books db /\
   books db' = books db /\
   reading_sessions db' = reading_sessions db /\
   (success = false <-> ~ tracking db book_id) /\
   (success = false <-> reading_tracker db' = reading_tracker db)) /\
  (let (success, db') := remove_from_completed book_id db in
   completed_books db'
     = filter (fun r => cb_book_id r <> book_id) (completed_books db) /\
   reading_tracker db' = reading_tracker db /\
   abandoned_books db' = abandoned_books db /\
   books db' = books db /\
   reading_sessions db' = reading_sessions db /\
   (success = false <-> ~ completed db book_id) /\
   (success = false <-> completed_books db' = completed_books db)) /\
  (let (success, db') := remove_from_abandoned book_id db in
   abandoned_books db'
     = filter (fun r => ab_book_id r <> book_id) (abandoned_books db) /\
   reading_tracker db' = reading_tracker db /\
   completed_books db' = completed_books db /\
   books db' = books db /\
   reading_sessions db' = reading_sessions db /\
   (success = false <-> ~ abandoned db book_id) /\
   (success = false <-> abandoned_books db' = abandoned_books db)).
Proof.
  unfold remove_from_tracker, remove_from_completed, remove_from_abandoned,
    rowcount_tracker, rowcount_completed, rowcount_abandoned.
  cbn [get_db_connection execute pending committed close commit
       delete_tracker delete_completed delete_abandoned
       books reading_sessions reading_tracker abandoned_books completed_books].
  unfold tracking, completed, abandoned.
  split; [|split]; repeat (split; [reflexivity|]).
  - pose proof (rowcount_false (fun r => rt_book_id r = book_id)
                  (reading_tracker db)) as Hrc.
    pose proof (filter_ne_id (fun r => rt_book_id r = book_id)
                  (reading_tracker db)) as Hid.
    tauto.
  - pose proof (rowcount_false (fun r => cb_book_id r = book_id)
                  (completed_books db)) as Hrc.
    pose proof (filter_ne_id (fun r => cb_book_id r = book_id)
                  (completed_books db)) as Hid.
    tauto.
  - pose proof (rowcount_false (fun r => ab_book_id r = book_id)
                  (abandoned_books db)) as Hrc.
    pose proof (filter_ne_id (fun r => ab_book_id r = book_id)
                  (abandoned_books db)) as Hid.
    tauto.
Qed.

(** C9. [update_completed_book] (and in the same way
    [update_abandoned_book]) overwrites all four fields of every Completed
    (Abandoned) row of the book with its arguments, an omitted argument
    storing null rather than keeping the old value; it keeps every other
    row and every other table, returns true exactly when the book has such
    a row, and changes for no book which status tables hold it. *)
Theorem update_status_fields_overwrite (db : database) (book_id : Z)
    (rating page : option Z)
    (review reason start_date completion_date abandonment_date : option string) :
  (let (success, db') :=
     update_completed_book book_id rating review start_date completion_date db in
   (success = true <-> completed db book_id) /\
   length (completed_books db') = length (completed_books db) /\
   (forall (i : nat) (r : completed_row),
      completed_books db !! i = Some r ->
      completed_books db' !! i =
        Some (if decide (cb_book_id r = book_id)
              then {| cb_id := cb_id r; cb_book_id := book_id;
                      cb_rating := rating; cb_review := review;
                      cb_start_date := start_date;
                      cb_completion_date := completion_date |}
              else r)) /\
   reading_tracker db' = reading_tracker db /\
   abandoned_books db' = abandoned_books db /\
   books db' = books db /\
   reading_sessions db' = reading_sessions db /\
   (forall b, (tracking db' b <-> tracking db b) /\
              (completed db' b <-> completed db b) /\
              (abandoned db' b <-> abandoned db b))) /\
  (let (success, db') :=
     update_abandoned_book book_id page reason start_date abandonment_date db in
   (success = true <-> abandoned db book_id) /\
   length (abandoned_books db') = length (abandoned_books db) /\
   (forall (i : nat) (r : abandoned_row),
      abandoned_books db !! i = Some r ->
      abandoned_books db' !! i =
        Some (if decide (ab_book_id r = book_id)
              then {| ab_id := ab_id r; ab_book_id := book_id;
                      ab_page_at_abandonment := page; ab_reason := reason;
                      ab_start_date := start_date;
                      ab_abandonment_date := abandonment_date |}
              else r)) /\
   reading_tracker db' = reading_tracker db /\
   completed_books db' = completed_books db /\
   books db' = books db /\
   reading_sessions db' = reading_sessions db /\
   (forall b, (tracking db' b <-> tracking db b) /\
              (completed db' b <-> completed db b) /\
              (abandoned db' b <-> abandoned db b))).
Proof.
  unfold update_completed_book, update_abandoned_book,
    rowcount_completed, rowcount_abandoned.
  cbn [get_db_connection execute pending committed close commit].
  split.
  - split; [|split; [|split; [|do 4 (split; [reflexivity|])]]].
    + rewrite bool_decide_eq_true. apply rowcount_positive.
    + cbn [update_completed completed_books]. apply length_fmap.
    + intros i r Hi. cbn [update_completed completed_books].
      rewrite list_lookup_fmap, Hi. cbn [fmap option_fmap option_map].
      f_equal. case_decide; [subst|]; reflexivity.
    + intros b. split; [reflexivity|]. split; [|reflexivity].
      apply completed_update_completed.
  - split; [|split; [|split; [|do 4 (split; [reflexivity|])]]].
    + rewrite bool_decide_eq_true. apply rowcount_positive.
    + cbn [update_abandoned abandoned_books]. apply length_fmap.
    + intros i r Hi. cbn [update_abandoned abandoned_books].
      rewrite list_lookup_fmap, Hi. cbn [fmap option_fmap option_map].
      f_equal. case_decide; [subst|]; reflexivity.
    + intros b. split; [reflexivity|]. split; [reflexivity|].
      apply abandoned_update_abandoned.
Qed.

(** C10. For an id that no book of the catalog has, [complete_book] and
    [abandon_book] still return success and insert a Completed (Abandoned)
    row that refers to that id, while [get_book_status] keeps answering
    ["unknown"] for it although the status row exists. *)
Theorem complete_abandon_unknown_book (now : string) (db : database)
    (book_id page : Z) (rating : option Z)
    (review reason start_date : option string) :
  ~ in_catalog db book_id ->
  (let (success, db') := complete_book now book_id rating review start_date db in
   success = true /\
   (exists row, last (completed_books db') = Some row /\ cb_book_id row = book_id) /\
   completed db' book_id /\
   get_book_status book_id db' = "unknown") /\
  (let (success, db') := abandon_book now book_id page reason start_date db in
   success = true /\
   (exists row, last (abandoned_books db') = Some row /\ ab_book_id row = book_id) /\
   abandoned db' book_id /\
   get_book_status book_id db' = "unknown").
Proof.
  intros Hcat.
  destruct (complete_book_db now db book_id rating review start_date) as [sd ->].
  destruct (abandon_book_db now db book_id page reason start_date) as [sd' ->].
  split.
  - split; [reflexivity|]. split; [|split].
    + cbn [insert_completed completed_books]. eexists.
      split; [apply last_snoc|reflexivity].
    + apply completed_insert_completed. by right.
    + rewrite get_book_status_eq. by rewrite decide_False.
  - split; [reflexivity|]. split; [|split].
    + cbn [insert_abandoned abandoned_books]. eexists.
      split; [apply last_snoc|reflexivity].
    + apply abandoned_insert_abandoned. by right.
    + rewrite get_book_status_eq. by rewrite decide_False.
Qed.

(** ** The date of a timestamp, from its text *)














(** ** TBR lists: members and their order *)

Lemma members_spec db l b m :
  (b, m) ∈ members l db <-> tbr_list_books db !! b = Some m /\ tm_list_id m = l.
Proof.
  unfold members. rewrite list_elem_of_filter, elem_of_map_to_list.
  cbn [snd]. tauto.
Qed.

Lemma NoDup_members_fst db l : NoDup (members l db).*1.
Proof.
  unfold members.
  apply (sublist_NoDup _ (map_to_list (tbr_list_books db)).*1);
    [apply NoDup_fst_map_to_list | apply fmap_sublist, sublist_filter].
Qed.

Lemma get_books_in_tbr_list_Permutation db l :
  get_books_in_tbr_list l db ≡ₚ (members l db).*1.
Proof.
  unfold get_books_in_tbr_list. by rewrite merge_sort_Permutation.
Qed.

Lemma elem_of_get_books_in_tbr_list db l b :
  b ∈ get_books_in_tbr_list l db
  <-> exists m, tbr_list_books db !! b = Some m /\ tm_list_id m = l.
Proof.
  rewrite get_books_in_tbr_list_Permutation, list_elem_of_fmap. split.
  - intros ([b' m] & -> & Hin). apply members_spec in Hin. eauto.
  - intros (m & Hm & Hl). exists (b, m). split; [done|].
    by apply members_spec.
Qed.

Lemma head_filter_Exists {A} (P : A -> Prop) `{!forall x, Decision (P x)}
    (l : list A) :
  Exists P l -> exists x, head (filter P l) = Some x /\ P x.
Proof.
  intros HE. destruct (filter P l) as [|x l'] eqn:E.
  - exfalso. apply Exists_exists in HE as (x & Hx & HP).
    by apply (filter_nil_not_elem_of P l x E HP).
  - exists x. split; [done|].
    assert (Hin : x ∈ filter P l) by (rewrite E; left).
    apply list_elem_of_filter in Hin. tauto.
Qed.

Lemma tbr_lists_add_book fp b l db :
  tbr_lists (snd (add_book_to_tbr_list fp b l db)) = tbr_lists db.
Proof.
  unfold add_book_to_tbr_list. case_decide; [|done].
  destruct (tbr_list_books db !! b) as [m|] eqn:Hb.
  - case_decide.
    + by rewrite Hb.
    + cbn [tbr_list_books]. by rewrite lookup_delete_eq.
  - by rewrite Hb.
Qed.

(** A book that is not yet in the target list is moved there. *)
Lemma add_book_to_tbr_list_moves fp b l db :
  tbr_list_exists db l ->
  (forall m, tbr_list_books db !! b = Some m -> tm_list_id m <> l) ->
  exists p,
    add_book_to_tbr_list fp b l db
    = (true, {| tbr_lists := tbr_lists db;
                tbr_list_books :=
                  <[b := {| tm_list_id := l; tm_position := p |}]>
                    (delete b (tbr_list_books db)) |}).
Proof.
  intros Hl Hb. unfold add_book_to_tbr_list. rewrite decide_True by done.
  destruct (tbr_list_books db !! b) as [m|] eqn:Hm.
  - rewrite decide_False by (by apply Hb).
    cbn [tbr_list_books tbr_lists]. rewrite lookup_delete_eq. eauto.
  - rewrite Hm. eexists. do 3 f_equal. by rewrite delete_id.
Qed.

(** A book that is already in the target list stays where it is. *)
Lemma add_book_to_tbr_list_already fp b l db m :
  tbr_list_books db !! b = Some m -> tm_list_id m = l ->
  add_book_to_tbr_list fp b l db = (false, db).
Proof.
  intros Hm Hl. unfold add_book_to_tbr_list. case_decide; [|done].
  rewrite Hm. rewrite decide_True by done. by rewrite Hm.
Qed.

(** After an [add_book_to_tbr_list] on an existing list the book is in that
    list, whether the call moved it or found it there. *)
Lemma add_book_to_tbr_list_member fp b l db :
  tbr_list_exists db l ->
  exists m, tbr_list_books (snd (add_book_to_tbr_list fp b l db)) !! b = Some m
            /\ tm_list_id m = l.
Proof.
  intros Hl. destruct (tbr_list_books db !! b) as [m|] eqn:Hm.
  - destruct (decide (tm_list_id m = l)) as [Heq|Hne].
    + rewrite (add_book_to_tbr_list_already fp b l db m) by done. eauto.
    + destruct (add_book_to_tbr_list_moves fp b l db Hl) as [p ->].
      { intros m' Hm'. congruence. }
      cbn [snd tbr_list_books]. rewrite lookup_insert_eq. eauto.
  - destruct (add_book_to_tbr_list_moves fp b l db Hl) as [p ->].
    { intros m' Hm'. congruence. }
    cbn [snd tbr_list_books]. rewrite lookup_insert_eq. eauto.
Qed.

(** C5. For TBR lists [list1] and [list2] that differ, after
    [add_book_to_tbr_list b list1] and then [add_book_to_tbr_list b list2]
    the second call has succeeded, the current list of [b] is [list2], and
    [b] is in the sequence of [list2] and in that of no other list, so not
    in that of [list1].  A single call on a book that is a member of a
    different list succeeds and leaves no membership of the book there: the
    old membership is deleted before the new one is inserted. *)
Theorem add_book_to_tbr_list_moves_book (first_position : Z)
    (db : tbr_database) (b list1 list2 : Z) :
  list1 <> list2 ->
  tbr_list_exists db list1 ->
  tbr_list_exists db list2 ->
  (let db1 := snd (add_book_to_tbr_list first_position b list1 db) in
   let (success, db2) := add_book_to_tbr_list first_position b list2 db1 in
   success = true /\
   (exists row, get_book_tbr_list b db2 = Some row /\ tl_id row = list2) /\
   (b ∈ get_books_in_tbr_list list2 db2) /\
   (b ∉ get_books_in_tbr_list list1 db2) /\
   (forall l, l <> list2 -> b ∉ get_books_in_tbr_list l db2)) /\
  (forall m, tbr_list_books db !! b = Some m -> tm_list_id m = list1 ->
   let (success, db') := add_book_to_tbr_list first_position b list2 db in
   success = true /\
   (exists p, tbr_list_books db' !! b
              = Some {| tm_list_id := list2; tm_position := p |}) /\
   b ∉ get_books_in_tbr_list list1 db').
Proof.
  intros Hne Hl1 Hl2.
  assert (Hgen : forall d : tbr_database,
             tbr_list_exists d list2 ->
             (forall m, tbr_list_books d !! b = Some m -> tm_list_id m <> list2) ->
             let (success, db2) := add_book_to_tbr_list first_position b list2 d in
             success = true /\
             (exists p, tbr_list_books db2 !! b
                        = Some {| tm_list_id := list2; tm_position := p |}) /\
             (exists row, get_book_tbr_list b db2 = Some row /\ tl_id row = list2) /\
             (b ∈ get_books_in_tbr_list list2 db2) /\
             (forall l, l <> list2 -> b ∉ get_books_in_tbr_list l db2)).
  { intros d Hd Hb.
    destruct (add_book_to_tbr_list_moves first_position b list2 d Hd Hb)
      as [p ->].
    split; [reflexivity|]. split; [|split; [|split]].
    - exists p. cbn [tbr_list_books]. apply lookup_insert_eq.
    - unfold get_book_tbr_list. cbn [tbr_list_books tbr_lists].
      rewrite lookup_insert_eq. cbn [mbind option_bind tm_list_id].
      apply (head_filter_Exists (fun r => tl_id r = list2)), Hd.
    - apply elem_of_get_books_in_tbr_list. cbn [tbr_list_books].
      rewrite lookup_insert_eq. eauto.
    - intros l Hl Hin. apply elem_of_get_books_in_tbr_list in Hin
        as (m & Hm & Hml). cbn [tbr_list_books] in Hm.
      rewrite lookup_insert_eq in Hm. injection Hm as <-. by apply Hl. }
  split.
  - cbn zeta.
    destruct (add_book_to_tbr_list_member first_position b list1 db Hl1)
      as (m1 & Hm1 & Hml1).
    specialize (Hgen (snd (add_book_to_tbr_list first_position b list1 db))).
    destruct (add_book_to_tbr_list first_position b list2
                (snd (add_book_to_tbr_list first_position b list1 db)))
      as [success db2].
    destruct Hgen as (Hs & _ & Hrow & Hin & Hout).
    + unfold tbr_list_exists. by rewrite tbr_lists_add_book.
    + intros m Hm. congruence.
    + repeat split; try done. by apply Hout.
  - intros m Hm Hml. specialize (Hgen db Hl2).
    destruct (add_book_to_tbr_list first_position b list2 db) as [success db'].
    destruct Hgen as (Hs & Hp & _ & _ & Hout).
    + intros m' Hm'. congruence.
    + repeat split; try done. by apply Hout.
Qed.

(** ** TBR lists: neighbours in position order *)

Lemma preceding_Some p ms y :
  preceding p ms = Some y ->
  y ∈ ms /\ tm_position y.2 < p /\
  forall x, x ∈ ms -> tm_position x.2 < p -> tm_position x.2 <= tm_position y.2.
Proof.
  revert y. induction ms as [|x ms IH]; intros y; cbn [preceding foldr].
  - discriminate.
  - fold (preceding p ms). destruct (decide (tm_position x.2 < p)) as [Hx|Hx].
    + destruct (preceding p ms) as [z|] eqn:Hz.
      * destruct (IH z eq_refl) as (Hin & Hlt & Hmax).
        destruct (decide (tm_position z.2 < tm_position x.2)); intros [= <-].
        -- split; [left|]. split; [done|]. intros x' Hx' Hp.
           apply elem_of_cons in Hx' as [->|Hx']; [lia|].
           specialize (Hmax x' Hx' Hp). lia.
        -- split; [by right|]. split; [done|]. intros x' Hx' Hp.
           apply elem_of_cons in Hx' as [->|Hx']; [lia|]. by apply Hmax.
      * intros [= <-]. split; [left|]. split; [done|]. intros x' Hx' Hp.
        apply elem_of_cons in Hx' as [->|Hx']; [lia|].
        exfalso. clear IH. revert Hz Hx' Hp. clear.
        induction ms as [|w ms IH]; [by intros _ ?%elem_of_nil|].
        cbn [preceding foldr]. fold (preceding p ms).
        destruct (decide (tm_position w.2 < p)).
        { destruct (preceding p ms) as [z|]; [case_decide|]; discriminate. }
        intros Hz [->|Hin]%elem_of_cons Hp; [lia|]. by apply IH.
    + intros Hy. destruct (IH y Hy) as (Hin & Hlt & Hmax).
      split; [by right|]. split; [done|]. intros x' Hx' Hp.
      apply elem_of_cons in Hx' as [->|Hx']; [lia|]. by apply Hmax.
Qed.

Lemma preceding_None p ms :
  preceding p ms = None <-> forall x, x ∈ ms -> ~ tm_position x.2 < p.
Proof.
  induction ms as [|x ms IH]; cbn [preceding foldr].
  - split; [|done]. by intros _ x ?%elem_of_nil.
  - fold (preceding p ms). destruct (decide (tm_position x.2 < p)) as [Hx|Hx].
    + split.
      * destruct (preceding p ms) as [z|]; [case_decide|]; discriminate.
      * intros Hall. exfalso. apply (Hall x); [left|done].
    + rewrite IH. split.
      * intros Hall x' [->|Hx']%elem_of_cons; [done|]. by apply Hall.
      * intros Hall x' Hx'. apply Hall. by right.
Qed.

Lemma following_Some p ms y :
  following p ms = Some y ->
  y ∈ ms /\ p < tm_position y.2 /\
  forall x, x ∈ ms -> p < tm_position x.2 -> tm_position y.2 <= tm_position x.2.
Proof.
  revert y. induction ms as [|x ms IH]; intros y; cbn [following foldr].
  - discriminate.
  - fold (following p ms). destruct (decide (p < tm_position x.2)) as [Hx|Hx].
    + destruct (following p ms) as [z|] eqn:Hz.
      * destruct (IH z eq_refl) as (Hin & Hlt & Hmin).
        destruct (decide (tm_position x.2 < tm_position z.2)); intros [= <-].
        -- split; [left|]. split; [done|]. intros x' Hx' Hp.
           apply elem_of_cons in Hx' as [->|Hx']; [lia|].
           specialize (Hmin x' Hx' Hp). lia.
        -- split; [by right|]. split; [done|]. intros x' Hx' Hp.
           apply elem_of_cons in Hx' as [->|Hx']; [lia|]. by apply Hmin.
      * intros [= <-]. split; [left|]. split; [done|]. intros x' Hx' Hp.
        apply elem_of_cons in Hx' as [->|Hx']; [lia|].
        exfalso. clear IH. revert Hz Hx' Hp. clear.
        induction ms as [|w ms IH]; [by intros _ ?%elem_of_nil|].
        cbn [following foldr]. fold (following p ms).
        destruct (decide (p < tm_position w.2)).
        { destruct (following p ms) as [z|]; [case_decide|]; discriminate. }
        intros Hz [->|Hin]%elem_of_cons Hp; [lia|]. by apply IH.
    + intros Hy. destruct (IH y Hy) as (Hin & Hlt & Hmin).
      split; [by right|]. split; [done|]. intros x' Hx' Hp.
      apply elem_of_cons in Hx' as [->|Hx']; [lia|]. by apply Hmin.
Qed.

Lemma following_None p ms :
  following p ms = None <-> forall x, x ∈ ms -> ~ p < tm_position x.2.
Proof.
  induction ms as [|x ms IH]; cbn [following foldr].
  - split; [|done]. by intros _ x ?%elem_of_nil.
  - fold (following p ms). destruct (decide (p < tm_position x.2)) as [Hx|Hx].
    + split.
      * destruct (following p ms) as [z|]; [case_decide|]; discriminate.
      * intros Hall. exfalso. apply (Hall x); [left|done].
    + rewrite IH. split.
      * intros Hall x' [->|Hx']%elem_of_cons; [done|]. by apply Hall.
      * intros Hall x' Hx'. apply Hall. by right.
Qed.

#[local] Instance by_position_trans : Transitive by_position.
Proof. intros x y z. unfold by_position. lia. Qed.

#[local] Instance by_position_total : Total by_position.
Proof. intros x y. unfold by_position. lia. Qed.

Lemma ordered_members_sorted db l :
  StronglySorted by_position (merge_sort by_position (members l db)).
Proof. apply StronglySorted_merge_sort; apply _. Qed.

Lemma elem_of_ordered_members db l b m :
  (b, m) ∈ merge_sort by_position (members l db)
  <-> tbr_list_books db !! b = Some m /\ tm_list_id m = l.
Proof. rewrite merge_sort_Permutation. apply members_spec. Qed.

Lemma get_books_in_tbr_list_cons db l b rest :
  get_books_in_tbr_list l db = b :: rest ->
  exists m rest',
    merge_sort by_position (members l db) = (b, m) :: rest' /\ rest = rest'.*1.
Proof.
  unfold get_books_in_tbr_list. intros H.
  apply fmap_cons_inv in H as ([b' m] & rest' & Hb & -> & ->).
  cbn [fst] in Hb. subst b'. eauto.
Qed.

(** The first book of a list is a member whose position no other member of
    the list is below. *)
Lemma get_books_in_tbr_list_first db l b rest :
  get_books_in_tbr_list l db = b :: rest ->
  exists m,
    tbr_list_books db !! b = Some m /\ tm_list_id m = l /\
    forall c mc, tbr_list_books db !! c = Some mc -> tm_list_id mc = l ->
                 tm_position m <= tm_position mc.
Proof.
  intros (m & rest' & Hs & _)%get_books_in_tbr_list_cons.
  pose proof (ordered_members_sorted db l) as Hsorted. rewrite Hs in Hsorted.
  apply StronglySorted_inv in Hsorted as [_ Hall].
  rewrite Forall_forall in Hall.
  assert (Hbm : (b, m) ∈ merge_sort by_position (members l db))
    by (rewrite Hs; left).
  apply elem_of_ordered_members in Hbm as [Hb Hl].
  exists m. split; [done|]. split; [done|]. intros c mc Hc Hlc.
  assert (Hin : (c, mc) ∈ merge_sort by_position (members l db))
    by (by apply elem_of_ordered_members).
  rewrite Hs in Hin. apply elem_of_cons in Hin as [[= -> ->]|Hin]; [lia|].
  apply (Hall _ Hin).
Qed.

Lemma move_book_up_first db l b rest :
  get_books_in_tbr_list l db = b :: rest ->
  move_book_up b l db = (false, db).
Proof.
  intros (m & Hb & Hl & Hmin)%get_books_in_tbr_list_first.
  unfold move_book_up. rewrite Hb, decide_True by done.
  assert (Hnone : preceding (tm_position m) (members l db) = None).
  { apply preceding_None. intros [c mc] [Hc Hlc]%members_spec. cbn [snd].
    specialize (Hmin c mc Hc Hlc). lia. }
  by rewrite Hnone.
Qed.

(** What a successful [move_book_up] or [move_book_down] has done, and why
    a failed one failed. *)
Lemma move_book_up_spec db l b :
  match move_book_up b l db with
  | (true, db') =>
    exists m a ma,
      tbr_list_books db !! b = Some m /\ tm_list_id m = l /\
      tbr_list_books db !! a = Some ma /\ tm_list_id ma = l /\
      tm_position ma < tm_position m /\
      (forall c mc, tbr_list_books db !! c = Some mc -> tm_list_id mc = l ->
                    tm_position mc < tm_position m ->
                    tm_position mc <= tm_position ma) /\
      db' = swap_positions l b m a ma db
  | (false, db') =>
    db' = db /\
    forall m, tbr_list_books db !! b = Some m -> tm_list_id m = l ->
      forall c mc, tbr_list_books db !! c = Some mc -> tm_list_id mc = l ->
                   tm_position m <= tm_position mc
  end.
Proof.
  unfold move_book_up. destruct (tbr_list_books db !! b) as [m|] eqn:Hb.
  - case_decide as Hl.
    + destruct (preceding (tm_position m) (members l db)) as [[a ma]|] eqn:Hp.
      * apply preceding_Some in Hp as (Hin & Hlt & Hmax). cbn [snd] in *.
        apply members_spec in Hin as [Ha Hla].
        exists m, a, ma. repeat split; try done.
        intros c mc Hc Hlc Hcp. apply (Hmax (c, mc)); [|done].
        by apply members_spec.
      * split; [done|]. intros m' [= <-] _ c mc Hc Hlc.
        rewrite preceding_None in Hp.
        specialize (Hp (c, mc)). cbn [snd] in Hp.
        rewrite members_spec in Hp. specialize (Hp (conj Hc Hlc)). lia.
    + split; [done|]. intros m' [= <-] Hl'. done.
  - split; [done|]. intros m' [=].
Qed.

Lemma move_book_down_spec db l b :
  match move_book_down b l db with
  | (true, db') =>
    exists m a ma,
      tbr_list_books db !! b = Some m /\ tm_list_id m = l /\
      tbr_list_books db !! a = Some ma /\ tm_list_id ma = l /\
      tm_position m < tm_position ma /\
      (forall c mc, tbr_list_books db !! c = Some mc -> tm_list_id mc = l ->
                    tm_position m < tm_position mc ->
                    tm_position ma <= tm_position mc) /\
      db' = swap_positions l b m a ma db
  | (false, db') =>
    db' = db /\
    forall m, tbr_list_books db !! b = Some m -> tm_list_id m = l ->
      forall c mc, tbr_list_books db !! c = Some mc -> tm_list_id mc = l ->
                   tm_position mc <= tm_position m
  end.
Proof.
  unfold move_book_down. destruct (tbr_list_books db !! b) as [m|] eqn:Hb.
  - case_decide as Hl.
    + destruct (following (tm_position m) (members l db)) as [[a ma]|] eqn:Hp.
      * apply following_Some in Hp as (Hin & Hlt & Hmin). cbn [snd] in *.
        apply members_spec in Hin as [Ha Hla].
        exists m, a, ma. repeat split; try done.
        intros c mc Hc Hlc Hcp. apply (Hmin (c, mc)); [|done].
        by apply members_spec.
      * split; [done|]. intros m' [= <-] _ c mc Hc Hlc.
        rewrite following_None in Hp.
        specialize (Hp (c, mc)). cbn [snd] in Hp.
        rewrite members_spec in Hp. specialize (Hp (conj Hc Hlc)). lia.
    + split; [done|]. intros m' [= <-] Hl'. done.
  - split; [done|]. intros m' [=].
Qed.

(** ** TBR lists: swapping two neighbours *)

Lemma lookup_swap_positions l b m a ma db c :
  a <> b ->
  tbr_list_books (swap_positions l b m a ma db) !! c =
  if decide (c = b)
  then Some {| tm_list_id := l; tm_position := tm_position ma |}
  else if decide (c = a)
       then Some {| tm_list_id := l; tm_position := tm_position m |}
       else tbr_list_books db !! c.
Proof.
  intros Hab. unfold swap_positions. cbn [tbr_list_books].
  destruct (decide (c = b)) as [->|Hcb].
  - by rewrite lookup_insert_eq.
  - rewrite lookup_insert_ne by done.
    destruct (decide (c = a)) as [->|Hca].
    + by rewrite lookup_insert_eq.
    + by rewrite lookup_insert_ne.
Qed.

Lemma membership_eta l (m : tbr_membership) :
  tm_list_id m = l -> {| tm_list_id := l; tm_position := tm_position m |} = m.
Proof. intros <-. by destruct m. Qed.

(** Swapping the same two books again gives the database back. *)
Lemma swap_positions_involutive l a b ma mb db :
  a <> b ->
  tbr_list_books db !! a = Some ma -> tm_list_id ma = l ->
  tbr_list_books db !! b = Some mb -> tm_list_id mb = l ->
  swap_positions l b {| tm_list_id := l; tm_position := tm_position ma |}
                 a {| tm_list_id := l; tm_position := tm_position mb |}
                 (swap_positions l b mb a ma db) = db.
Proof.
  intros Hab Ha Hla Hb Hlb. destruct db as [lists bks].
  unfold swap_positions. cbn [tbr_lists tbr_list_books tm_position] in *.
  f_equal. apply map_eq. intros c.
  destruct (decide (c = b)) as [->|Hcb].
  - rewrite lookup_insert_eq, Hb. f_equal. by apply membership_eta.
  - rewrite lookup_insert_ne by done.
    destruct (decide (c = a)) as [->|Hca].
    + rewrite lookup_insert_eq, Ha. f_equal. by apply membership_eta.
    + by rewrite !lookup_insert_ne.
Qed.

(** Positions stay unique within the list when two of them are swapped. *)
Lemma unique_positions_swap l a b ma mb db :
  unique_positions l db ->
  tbr_list_books db !! a = Some ma -> tm_list_id ma = l ->
  tbr_list_books db !! b = Some mb -> tm_list_id mb = l ->
  tm_position ma <> tm_position mb ->
  unique_positions l (swap_positions l b mb a ma db).
Proof.
  intros Hu Ha Hla Hb Hlb Hne.
  assert (Hab : a <> b) by (intros ->; congruence).
  intros c1 c2 m1 m2. rewrite !(lookup_swap_positions l b mb a ma db) by done.
  destruct (decide (c1 = b)) as [->|Hc1b];
    [|destruct (decide (c1 = a)) as [->|Hc1a]];
    (destruct (decide (c2 = b)) as [->|Hc2b];
     [|destruct (decide (c2 = a)) as [->|Hc2a]]);
    intros H1 H2 Hl1 Hl2 Hp; try done;
    try (injection H1 as <-); try (injection H2 as <-);
    cbn [tm_position] in Hp; try (exfalso; lia).
  - exfalso. apply Hc2a. by apply (Hu c2 a m2 ma).
  - exfalso. apply Hc2b. by apply (Hu c2 b m2 mb).
  - exfalso. apply Hc1a. by apply (Hu c1 a m1 ma).
  - exfalso. apply Hc1b. by apply (Hu c1 b m1 mb).
  - by apply (Hu c1 c2 m1 m2).
Qed.

(** With unique positions, [move_book_up] picks the one neighbour the book
    has below it, and [move_book_down] the one above. *)
Lemma move_book_up_adjacent db l a b ma mb :
  unique_positions l db ->
  tbr_list_books db !! a = Some ma -> tm_list_id ma = l ->
  tbr_list_books db !! b = Some mb -> tm_list_id mb = l ->
  tm_position ma < tm_position mb ->
  (forall c mc, tbr_list_books db !! c = Some mc -> tm_list_id mc = l ->
                tm_position mc < tm_position mb ->
                tm_position mc <= tm_position ma) ->
  move_book_up b l db = (true, swap_positions l b mb a ma db).
Proof.
  intros Hu Ha Hla Hb Hlb Hlt Hadj.
  pose proof (move_book_up_spec db l b) as Hspec.
  destruct (move_book_up b l db) as [[|] db'].
  - destruct Hspec as (m & a' & ma' & Hb' & _ & Ha' & Hla' & Hlt' & Hmax & ->).
    assert (m = mb) by congruence. subst m.
    assert (Hle1 : tm_position ma <= tm_position ma') by (by apply (Hmax a)).
    assert (Hle2 : tm_position ma' <= tm_position ma) by (by apply (Hadj a')).
    assert (a' = a) by (apply (Hu a' a ma' ma); try done; lia). subst a'.
    assert (ma' = ma) by congruence. by subst ma'.
  - destruct Hspec as [_ Hmin]. specialize (Hmin mb Hb Hlb a ma Ha Hla). lia.
Qed.

Lemma move_book_down_adjacent db l a b ma mb :
  unique_positions l db ->
  tbr_list_books db !! a = Some ma -> tm_list_id ma = l ->
  tbr_list_books db !! b = Some mb -> tm_list_id mb = l ->
  tm_position mb < tm_position ma ->
  (forall c mc, tbr_list_books db !! c = Some mc -> tm_list_id mc = l ->
                tm_position mb < tm_position mc ->
                tm_position ma <= tm_position mc) ->
  move_book_down b l db = (true, swap_positions l b mb a ma db).
Proof.
  intros Hu Ha Hla Hb Hlb Hlt Hadj.
  pose proof (move_book_down_spec db l b) as Hspec.
  destruct (move_book_down b l db) as [[|] db'].
  - destruct Hspec as (m & a' & ma' & Hb' & _ & Ha' & Hla' & Hlt' & Hmin & ->).
    assert (m = mb) by congruence. subst m.
    assert (Hle1 : tm_position ma' <= tm_position ma) by (by apply (Hmin a)).
    assert (Hle2 : tm_position ma <= tm_position ma') by (by apply (Hadj a')).
    assert (a' = a) by (apply (Hu a' a ma' ma); try done; lia). subst a'.
    assert (ma' = ma) by congruence. by subst ma'.
  - destruct Hspec as [_ Hmax]. specialize (Hmax mb Hb Hlb a ma Ha Hla). lia.
Qed.

(** A successful [move_book_up] is undone by [move_book_down] on the same
    book. *)
Lemma move_book_up_then_down db db1 l b :
  unique_positions l db ->
  move_book_up b l db = (true, db1) ->
  move_book_down b l db1 = (true, db).
Proof.
  intros Hu Hup. pose proof (move_book_up_spec db l b) as Hspec.
  rewrite Hup in Hspec.
  destruct Hspec as (mb & a & ma & Hb & Hlb & Ha & Hla & Hlt & Hmax & ->).
  assert (Hab : a <> b) by (intros ->; assert (ma = mb) by congruence; subst; lia).
  rewrite <- (swap_positions_involutive l a b ma mb db) at 2 by done.
  apply move_book_down_adjacent.
  - apply unique_positions_swap; try done. lia.
  - rewrite lookup_swap_positions by done.
    rewrite decide_False by done. by rewrite decide_True.
  - done.
  - rewrite lookup_swap_positions by done. by rewrite decide_True.
  - done.
  - cbn [tm_position]. lia.
  - intros c mc. rewrite lookup_swap_positions by done. cbn [tm_position].
    repeat case_decide; intros Hc Hlc Hp; simplify_eq; cbn [tm_position] in *;
      try lia.
    destruct (decide (tm_position mc < tm_position mb)) as [Hlt'|]; [|lia].
    specialize (Hmax c mc Hc Hlc Hlt'). lia.
Qed.

Lemma NoDup_ordered_members_fst db l :
  NoDup (merge_sort by_position (members l db)).*1.
Proof.
  rewrite merge_sort_Permutation. apply NoDup_members_fst.
Qed.

(** The first two books of a list, with unique positions: the second has
    the first as its only neighbour below. *)
Lemma get_books_in_tbr_list_second db l a b rest :
  unique_positions l db ->
  get_books_in_tbr_list l db = a :: b :: rest ->
  exists ma mb rest',
    merge_sort by_position (members l db) = (a, ma) :: (b, mb) :: rest' /\
    rest = rest'.*1 /\ a <> b /\
    tbr_list_books db !! a = Some ma /\ tm_list_id ma = l /\
    tbr_list_books db !! b = Some mb /\ tm_list_id mb = l /\
    tm_position ma < tm_position mb /\
    (forall c mc, tbr_list_books db !! c = Some mc -> tm_list_id mc = l ->
                  tm_position mc < tm_position mb ->
                  tm_position mc <= tm_position ma).
Proof.
  intros Hu Hbooks. unfold get_books_in_tbr_list in Hbooks.
  apply fmap_cons_inv in Hbooks as ([a' ma] & tl & Ha' & Htl & Hs).
  cbn [fst] in Ha'. subst a'. symmetry in Htl.
  apply fmap_cons_inv in Htl as ([b' mb] & rest' & Hb' & -> & ->).
  cbn [fst] in Hb'. subst b'.
  pose proof (ordered_members_sorted db l) as Hsorted.
  pose proof (NoDup_ordered_members_fst db l) as Hnd.
  rewrite Hs in Hsorted, Hnd.
  apply StronglySorted_inv in Hsorted as [Hsorted Hall_a].
  apply StronglySorted_inv in Hsorted as [_ Hall_b].
  rewrite Forall_forall in Hall_a, Hall_b.
  cbn [fmap list_fmap fst] in Hnd.
  apply NoDup_cons in Hnd as [Hna _].
  assert (Hab : a <> b) by (intros ->; apply Hna; left).
  assert (Hina : (a, ma) ∈ merge_sort by_position (members l db))
    by (rewrite Hs; left).
  assert (Hinb : (b, mb) ∈ merge_sort by_position (members l db))
    by (rewrite Hs; right; left).
  apply elem_of_ordered_members in Hina as [Ha Hla].
  apply elem_of_ordered_members in Hinb as [Hb Hlb].
  assert (Hle : tm_position ma <= tm_position mb).
  { apply (Hall_a (b, mb)). left. }
  assert (Hne : tm_position ma <> tm_position mb).
  { intros Heq. apply Hab. by apply (Hu a b ma mb). }
  exists ma, mb, rest'. repeat split; try done; [lia|].
  intros c mc Hc Hlc Hlt.
  assert (Hin : (c, mc) ∈ merge_sort by_position (members l db))
    by (by apply elem_of_ordered_members).
  rewrite Hs in Hin.
  apply elem_of_cons in Hin as [[= -> ->]|Hin]; [lia|].
  apply elem_of_cons in Hin as [[= -> ->]|Hin]; [lia|].
  specialize (Hall_b _ Hin). unfold by_position in Hall_b.
  cbn [snd] in Hall_b. lia.
Qed.

(** After the swap the two books have changed places in the sequence of the
    list and the others have kept theirs. *)
Lemma get_books_in_tbr_list_swap db l a b rest :
  unique_positions l db ->
  get_books_in_tbr_list l db = a :: b :: rest ->
  exists ma mb,
    tbr_list_books db !! a = Some ma /\ tbr_list_books db !! b = Some mb /\
    get_books_in_tbr_list l (swap_positions l b mb a ma db) = b :: a :: rest.
Proof.
  intros Hu Hbooks.
  destruct (get_books_in_tbr_list_second db l a b rest Hu Hbooks)
    as (ma & mb & rest' & Hs & -> & Hab & Ha & Hla & Hb & Hlb & Hlt & Hadj).
  exists ma, mb. split; [done|]. split; [done|].
  set (db1 := swap_positions l b mb a ma db).
  set (mb1 := {| tm_list_id := l; tm_position := tm_position ma |}).
  set (ma1 := {| tm_list_id := l; tm_position := tm_position mb |}).
  pose proof (ordered_members_sorted db l) as Hsorted.
  pose proof (NoDup_ordered_members_fst db l) as Hnd.
  rewrite Hs in Hsorted, Hnd.
  apply StronglySorted_inv in Hsorted as [Hsorted Hall_a].
  apply StronglySorted_inv in Hsorted as [Hsorted Hall_b].
  cbn [fmap list_fmap fst] in Hnd.
  apply NoDup_cons in Hnd as [Hna Hnd]. apply NoDup_cons in Hnd as [Hnb Hnd].
  assert (Hna' : a ∉ rest'.*1) by (intros ?; apply Hna; by right).
  assert (Hu1 : unique_positions l db1)
    by (apply unique_positions_swap; try done; lia).
  assert (Hrest : forall c mc, (c, mc) ∈ rest' <->
             c <> a /\ c <> b /\ tbr_list_books db !! c = Some mc
             /\ tm_list_id mc = l).
  { intros c mc. split.
    - intros Hin.
      assert (Hc : c ∈ rest'.*1)
        by (apply list_elem_of_fmap; exists (c, mc); by split).
      split; [by intros ->|]. split; [by intros ->|].
      apply elem_of_ordered_members. rewrite Hs. by do 2 right.
    - intros (Hca & Hcb & Hc & Hlc).
      assert (Hin : (c, mc) ∈ merge_sort by_position (members l db))
        by (by apply elem_of_ordered_members).
      rewrite Hs in Hin.
      apply elem_of_cons in Hin as [[= -> ->]|Hin]; [done|].
      by apply elem_of_cons in Hin as [[= -> ->]|Hin]. }
  assert (Hgoal : merge_sort by_position (members l db1)
                  = (b, mb1) :: (a, ma1) :: rest').
  { apply (StronglySorted_unique_strong by_position).
    - intros [c1 m1] [c2 m2] Hin1 Hin2 H12 H21.
      apply elem_of_ordered_members in Hin1 as [H1 Hl1].
      assert (Hin2' : (c2, m2) ∈ merge_sort by_position (members l db1)).
      { apply elem_of_ordered_members. subst db1.
        rewrite lookup_swap_positions by done.
        apply elem_of_cons in Hin2 as [[= -> ->]|Hin2];
          [by rewrite decide_True|].
        apply elem_of_cons in Hin2 as [[= -> ->]|Hin2];
          [rewrite decide_False by done; by rewrite decide_True|].
        apply Hrest in Hin2 as (? & ? & ? & ?).
        by rewrite !decide_False by done. }
      apply elem_of_ordered_members in Hin2' as [H2 Hl2].
      unfold by_position in H12, H21. cbn [snd] in H12, H21.
      assert (c1 = c2) by (apply (Hu1 c1 c2 m1 m2); try done; lia).
      subst c2. f_equal. congruence.
    - apply ordered_members_sorted.
    - constructor; [constructor; [done|]|].
      + apply Forall_forall. intros x Hx. rewrite Forall_forall in Hall_b.
        specialize (Hall_b x Hx). by unfold by_position in *.
      + constructor.
        * unfold by_position, mb1, ma1. cbn [snd tm_position]. lia.
        * apply Forall_forall. intros x Hx.
          apply Forall_cons in Hall_a as [_ Hall_a].
          rewrite Forall_forall in Hall_a.
          specialize (Hall_a x Hx). by unfold by_position in *.
    - rewrite merge_sort_Permutation. apply NoDup_Permutation.
      + apply (NoDup_fmap_1 fst), NoDup_members_fst.
      + apply (NoDup_fmap_1 fst). cbn [fmap list_fmap fst].
        constructor; [|by constructor].
        intros [->|Hin]%elem_of_cons; done.
      + intros [c mc]. rewrite members_spec. subst db1.
        rewrite lookup_swap_positions by done.
        rewrite !elem_of_cons, Hrest. split.
        * repeat case_decide; intros [Hc Hlc]; simplify_eq; eauto 10.
        * intros [[= -> ->]|[[= -> ->]|(? & ? & ? & ?)]].
          -- by rewrite decide_True.
          -- rewrite decide_False by done. by rewrite decide_True.
          -- by rewrite !decide_False by done. }
  unfold get_books_in_tbr_list. by rewrite Hgoal.
Qed.

(** C6. In a TBR list, [move_book_up] on the first book of the list returns
    failure and leaves the database, hence every position, unchanged.  When
    positions are unique within the list, as the data model has them,
    [move_book_up] on the second book succeeds and makes it the first, and
    [move_book_down] on that now-first book succeeds and gives the original
    database back, hence the original order.  A successful [move_book_up]
    ([move_book_down]) has exchanged the position of the book with that of
    the member just before (after) it in position order, the one with the
    greatest position below (least position above) its own, and has changed
    nothing else; it succeeds exactly when the book is in the list and has
    such a neighbour. *)
Theorem move_book_up_down_swap (db : tbr_database) (list_id : Z) :
  (forall b rest,
     get_books_in_tbr_list list_id db = b :: rest ->
     move_book_up b list_id db = (false, db)) /\
  (forall a b rest,
     unique_positions list_id db ->
     get_books_in_tbr_list list_id db = a :: b :: rest ->
     exists db1,
       move_book_up b list_id db = (true, db1) /\
       get_books_in_tbr_list list_id db1 = b :: a :: rest /\
       move_book_down b list_id db1 = (true, db) /\
       get_books_in_tbr_list list_id (snd (move_book_down b list_id db1))
       = a :: b :: rest) /\
  (forall b,
     let (success, db') := move_book_up b list_id db in
     if success then
       exists p a q,
         tbr_list_books db !! b
         = Some {| tm_list_id := list_id; tm_position := p |} /\
         tbr_list_books db !! a
         = Some {| tm_list_id := list_id; tm_position := q |} /\
         q < p /\
         (forall c mc, tbr_list_books db !! c = Some mc ->
                       tm_list_id mc = list_id -> tm_position mc < p ->
                       tm_position mc <= q) /\
         tbr_list_books db' !! b
         = Some {| tm_list_id := list_id; tm_position := q |} /\
         tbr_list_books db' !! a
         = Some {| tm_list_id := list_id; tm_position := p |} /\
         (forall c, c <> a -> c <> b ->
                    tbr_list_books db' !! c = tbr_list_books db !! c) /\
         tbr_lists db' = tbr_lists db
     else
       db' = db /\
       forall m, tbr_list_books db !! b = Some m -> tm_list_id m = list_id ->
         forall c mc, tbr_list_books db !! c = Some mc ->
                      tm_list_id mc = list_id ->
                      tm_position m <= tm_position mc) /\
  (forall b,
     let (success, db') := move_book_down b list_id db in
     if success then
       exists p a q,
         tbr_list_books db !! b
         = Some {| tm_list_id := list_id; tm_position := p |} /\
         tbr_list_books db !! a
         = Some {| tm_list_id := list_id; tm_position := q |} /\
         p < q /\
         (forall c mc, tbr_list_books db !! c = Some mc ->
                       tm_list_id mc = list_id -> p < tm_position mc ->
                       q <= tm_position mc) /\
         tbr_list_books db' !! b
         = Some {| tm_list_id := list_id; tm_position := q |} /\
         tbr_list_books db' !! a
         = Some {| tm_list_id := list_id; tm_position := p |} /\
         (forall c, c <> a -> c <> b ->
                    tbr_list_books db' !! c = tbr_list_books db !! c) /\
         tbr_lists db' = tbr_lists db
     else
       db' = db /\
       forall m, tbr_list_books db !! b = Some m -> tm_list_id m = list_id ->
         forall c mc, tbr_list_books db !! c = Some mc ->
                      tm_list_id mc = list_id ->
                      tm_position mc <= tm_position m).
Proof.
  split; [|split; [|split]].
  - intros b rest. apply move_book_up_first.
  - intros a b rest Hu Hbooks.
    destruct (get_books_in_tbr_list_second db list_id a b rest Hu Hbooks)
      as (ma & mb & rest' & _ & _ & Hab & Ha & Hla & Hb & Hlb & Hlt & Hadj).
    destruct (get_books_in_tbr_list_swap db list_id a b rest Hu Hbooks)
      as (ma' & mb' & Ha' & Hb' & Hswap).
    assert (ma' = ma) by congruence. assert (mb' = mb) by congruence.
    subst ma' mb'.
    pose proof (move_book_up_adjacent db list_id a b ma mb Hu Ha Hla Hb Hlb
                  Hlt Hadj) as Hup.
    pose proof (move_book_up_then_down db _ list_id b Hu Hup) as Hdown.
    eexists. split; [exact Hup|]. split; [exact Hswap|].
    split; [exact Hdown|]. by rewrite Hdown.
  - intros b. pose proof (move_book_up_spec db list_id b) as Hspec.
    destruct (move_book_up b list_id db) as [[|] db']; [|exact Hspec].
    destruct Hspec as (m & a & ma & Hb & Hlb & Ha & Hla & Hlt & Hmax & ->).
    assert (Hab : a <> b)
      by (intros ->; assert (ma = m) by congruence; subst; lia).
    exists (tm_position m), a, (tm_position ma).
    rewrite !membership_eta by done. repeat split; try done.
    + rewrite lookup_swap_positions by done. rewrite decide_True by done.
      by rewrite membership_eta.
    + rewrite lookup_swap_positions by done.
      rewrite decide_False by done. rewrite decide_True by done.
      by rewrite membership_eta.
    + intros c Hca Hcb. rewrite lookup_swap_positions by done.
      by rewrite !decide_False by done.
  - intros b. pose proof (move_book_down_spec db list_id b) as Hspec.
    destruct (move_book_down b list_id db) as [[|] db']; [|exact Hspec].
    destruct Hspec as (m & a & ma & Hb & Hlb & Ha & Hla & Hlt & Hmin & ->).
    assert (Hab : a <> b)
      by (intros ->; assert (ma = m) by congruence; subst; lia).
    exists (tm_position m), a, (tm_position ma).
    rewrite !membership_eta by done. repeat split; try done.
    + rewrite lookup_swap_positions by done. rewrite decide_True by done.
      by rewrite membership_eta.
    + rewrite lookup_swap_positions by done.
      rewrite decide_False by done. rewrite decide_True by done.
      by rewrite membership_eta.
    + intros c Hca Hcb. rewrite lookup_swap_positions by done.
      by rewrite !decide_False by done.
Qed.

(** ** The properties on the sample data *)

Ltac by_computation := apply (bool_decide_unpack _); vm_compute; exact I.

Lemma unique_positions_NoDup db l :
  NoDup ((fun bm => tm_position bm.2) <$> members l db) ->
  unique_positions l db.
Proof.
  intros Hnd b1 b2 m1 m2 H1 H2 Hl1 Hl2 Hp.
  assert (Hin1 : (b1, m1) ∈ members l db) by (by apply members_spec).
  assert (Hin2 : (b2, m2) ∈ members l db) by (by apply members_spec).
  revert Hnd Hin1 Hin2. generalize (members l db). intros ms.
  induction ms as [|x ms IH]; [by intros _ ?%elem_of_nil|].
  cbn [fmap list_fmap]. rewrite NoDup_cons, !elem_of_cons.
  intros [Hx Hnd] [E1|Hin1] [E2|Hin2].
  - congruence.
  - subst x. exfalso. apply Hx. apply list_elem_of_fmap. exists (b2, m2).
    split; [exact Hp|done].
  - subst x. exfalso. apply Hx. apply list_elem_of_fmap. exists (b1, m1).
    split; [by symmetry|done].
  - by apply IH.
Qed.

Lemma status_exclusive_after_calls_witness :
  no_status sample_db 5 /\
  exclusive
    (run_calls
       [ ("2024-03-01 09:00:00", AddToTracker 5 10);
         ("2024-03-02 09:00:00", AddToTracker 7 0);
         ("2024-03-03 09:00:00", UpdateTrackerProgress 5 40);
         ("2024-03-04 09:00:00", AbandonBook 5 40 (Some "slow") None);
         ("2024-03-05 09:00:00", CompleteBook 5 (Some 3) None None);
         ("2024-03-06 09:00:00", RemoveFromAbandoned 5);
         ("2024-03-07 09:00:00", AddToTracker 5 0);
         ("2024-03-08 09:00:00", RemoveFromCompleted 7) ]
       sample_db) 5.
Proof.
  assert (H : no_status sample_db 5)
    by (unfold no_status, tracking, completed, abandoned; by_computation).
  split; [exact H|]. exact (status_exclusive_after_calls sample_db 5 _ H).
Defined.

Lemma add_to_tracker_already_tracking_witness :
  tracking sample_db_tracking 5 /\
  add_to_tracker "2024-03-02 09:00:00" 5 0 sample_db_tracking
  = (false, sample_db_tracking).
Proof.
  assert (H : tracking sample_db_tracking 5) by by_computation.
  split; [exact H|].
  exact (proj1 (add_to_tracker_already_tracking sample_db_tracking 5
                  "2024-03-02 09:00:00" "2024-03-02 09:00:01" 0 0) H).
Defined.

Lemma get_book_status_priority_witness :
  in_catalog sample_db 7 /\ ~ tracking sample_db 7 /\ completed sample_db 7 /\
  get_book_status 7 sample_db = "completed".
Proof.
  assert (Hcat : in_catalog sample_db 7) by by_computation.
  assert (Ht : ~ tracking sample_db 7) by by_computation.
  assert (Hc : completed sample_db 7) by by_computation.
  split; [exact Hcat|]. split; [exact Ht|]. split; [exact Hc|].
  destruct (proj2 (get_book_status_priority sample_db 7) Hcat) as (_ & H & _).
  exact (H Ht Hc).
Defined.

Lemma complete_book_completes_witness :
  in_catalog sample_db_tracking 5 /\
  exists db',
    complete_book "2024-03-05 22:00:00" 5 (Some 5) None None sample_db_tracking
    = (true, db') /\
    ~ tracking db' 5 /\
    get_book_status 5 db' = "completed".
Proof.
  assert (Hcat : in_catalog sample_db_tracking 5) by by_computation.
  split; [exact Hcat|].
  destruct (complete_book_completes "2024-03-05 22:00:00" sample_db_tracking 5
              (Some 5) None None)
    as (db' & row & Heq & _ & _ & _ & _ & _ & _ & _ & _ & _ & _ & _ & _
        & Hnt & _ & _ & Hstatus).
  exists db'. split; [exact Heq|]. split; [exact Hnt|]. exact (Hstatus Hcat).
Defined.

Lemma add_book_to_tbr_list_moves_book_witness :
  (1 <> 2 /\ tbr_list_exists sample_tbr 1 /\ tbr_list_exists sample_tbr 2) /\
  forall m, tbr_list_books sample_tbr !! 102 = Some m -> tm_list_id m = 1 ->
    let (success, db') := add_book_to_tbr_list 0 102 2 sample_tbr in
    success = true /\
    (exists p, tbr_list_books db' !! 102
               = Some {| tm_list_id := 2; tm_position := p |}) /\
    102 ∉ get_books_in_tbr_list 1 db'.
Proof.
  assert (Hne : 1 <> 2) by lia.
  assert (H1 : tbr_list_exists sample_tbr 1) by by_computation.
  assert (H2 : tbr_list_exists sample_tbr 2) by by_computation.
  split; [by repeat split|].
  exact (proj2 (add_book_to_tbr_list_moves_book 0 sample_tbr 102 1 2 Hne H1 H2)).
Defined.

Lemma move_book_up_down_swap_witness :
  (unique_positions 1 sample_tbr /\
   get_books_in_tbr_list 1 sample_tbr = [101; 102; 103]) /\
  exists db1,
    move_book_up 102 1 sample_tbr = (true, db1) /\
    get_books_in_tbr_list 1 db1 = [102; 101; 103] /\
    move_book_down 102 1 db1 = (true, sample_tbr) /\
    get_books_in_tbr_list 1 (snd (move_book_down 102 1 db1)) = [101; 102; 103].
Proof.
  assert (Hu : unique_positions 1 sample_tbr)
    by (apply unique_positions_NoDup; by_computation).
  assert (Hb : get_books_in_tbr_list 1 sample_tbr = [101; 102; 103])
    by (vm_compute; reflexivity).
  split; [by split|].
  exact (proj1 (proj2 (move_book_up_down_swap sample_tbr 1))
               101 102 [103] Hu Hb).
Defined.

Lemma remove_from_status_table_witness :
  ~ completed sample_db 5 /\ fst (remove_from_completed 5 sample_db) = false.
Proof.
  assert (Hc : ~ completed sample_db 5) by by_computation.
  split; [exact Hc|].
  pose proof (proj1 (proj2 (remove_from_status_table sample_db 5))) as H.
  destruct H as (_ & _ & _ & _ & _ & H & _). exact (proj2 H Hc).
Defined.


Lemma update_status_fields_overwrite_witness :
  completed sample_db 7 /\
  fst (update_completed_book 7 None None None None sample_db) = true /\
  completed_books (snd (update_completed_book 7 None None None None sample_db))
    !! 0%nat
  = Some {| cb_id := 1; cb_book_id := 7; cb_rating := None; cb_review := None;
            cb_start_date := None; cb_completion_date := None |}.
Proof.
  assert (Hc : completed sample_db 7) by by_computation.
  split; [exact Hc|].
  pose proof (proj1 (update_status_fields_overwrite sample_db 7 None None
                       None None None None None)) as H.
  destruct H as (Hs & _ & Hrows & _). split; [exact (proj2 Hs Hc)|].
  exact (Hrows 0%nat _ eq_refl).
Defined.

Lemma complete_abandon_unknown_book_witness :
  ~ in_catalog sample_db 42 /\
  fst (complete_book "2024-03-05 22:00:00" 42 None None None sample_db) = true /\
  completed
    (snd (complete_book "2024-03-05 22:00:00" 42 None None None sample_db)) 42 /\
  get_book_status 42
    (snd (complete_book "2024-03-05 22:00:00" 42 None None None sample_db))
  = "unknown".
Proof.
  assert (Hcat : ~ in_catalog sample_db 42) by by_computation.
  split; [exact Hcat|].
  pose proof (proj1 (complete_abandon_unknown_book "2024-03-05 22:00:00"
                       sample_db 42 0 None None None None Hcat)) as H.
  destruct H as (Hs & _ & Hc & Hu).
  split; [exact Hs|]. split; [exact Hc|exact Hu].
Defined.

(** ** The scenarios of the specification *)

(** Book 5 has no status record: its status is ["library"]; after
    [add_to_tracker 5 10] it is ["tracking"]; after [abandon_book] at page
    40 it is ["abandoned"] and no Tracking row remains for it. *)
Example scenario_track_then_abandon :
  let db1 := snd (add_to_tracker "2024-03-01 09:00:00" 5 10 sample_db) in
  let db2 := snd (abandon_book "2024-03-09 18:00:00" 5 40 None None db1) in
  get_book_status 5 sample_db = "library" /\
  get_book_status 5 db1 = "tracking" /\
  get_book_status 5 db2 = "abandoned" /\
  select_tracker_ids 5 db2 = [] /\
  ab_start_date <$> abandoned_books db2 = [Some "2024-03-01 09:00:00"].
Proof. vm_compute. repeat split. Qed.

(** Into the empty list 1 come the books 101, 102 and 103: the list reads
    [101; 102; 103]; after [move_book_up 103] it reads [101; 103; 102];
    after the removal of 101 it reads [103; 102]. *)
Example scenario_tbr_list :
  let empty := {| tbr_lists := tbr_lists sample_tbr; tbr_list_books := ∅ |} in
  let db1 := snd (add_book_to_tbr_list 0 101 1 empty) in
  let db2 := snd (add_book_to_tbr_list 0 102 1 db1) in
  let db3 := snd (add_book_to_tbr_list 0 103 1 db2) in
  let db4 := snd (move_book_up 103 1 db3) in
  let db5 := snd (remove_book_from_tbr_list 101 1 db4) in
  db3 = sample_tbr /\
  get_books_in_tbr_list 1 db3 = [101; 102; 103] /\
  get_books_in_tbr_list 1 db4 = [101; 103; 102] /\
  get_books_in_tbr_list 1 db5 = [103; 102].
Proof. vm_compute. repeat split. Qed.

(** A failed [add_to_tracker] really leaves the rows it had deleted: here
    book 7 is on the tracker and still has its Completed row, and both are
    there after the call. *)
Example add_to_tracker_rolls_back :
  let db := snd (add_to_tracker "2024-03-01 09:00:00" 7 0 sample_db) in
  let db := {| books := books db; reading_tracker := reading_tracker db;
               completed_books := completed_books sample_db;
               abandoned_books := abandoned_books db;
               reading_sessions := reading_sessions db |} in
  tracking db 7 /\ completed db 7 /\
  add_to_tracker "2024-03-02 09:00:00" 7 0 db = (false, db).
Proof.
  cbn zeta. split; [by_computation|]. split; [by_computation|].
  vm_compute. reflexivity.
Qed.

(** Exclusivity is about the three tables, not about rows: nothing stops
    [complete_book] from adding a second Completed row for a book. *)
Example complete_book_twice :
  let db1 := snd (complete_book "2024-03-05 22:00:00" 5 None None None sample_db) in
  let db2 := snd (complete_book "2024-03-06 22:00:00" 5 None None None db1) in
  cb_book_id <$> completed_books db2 = [7; 5; 5] /\ exclusive db2 5.
Proof.
  cbn zeta. split; [vm_compute; reflexivity|].
  unfold exclusive. by_computation.
Qed.

(** Start times in the forms a browser or a script sends: all are read,
    and all give the date 2024-03-10; an hour 24 and an offset of a whole
    day are refused. *)
Example fromisoformat_formats :
  ((fun s => (fun dt => date_isoformat (datetime_date dt)) <$> fromisoformat s) <$>
       [ "2024-03-10T21:05:00"; "2024-03-10 21:05:00.5";
         "2024-03-10T21:05:00.000Z"; "2024-03-10T21:05:00,123+0530";
         "20240310T210500"; "2024-W10-7"; "2024W107T2105" ]
   = replicate 7 (Some "2024-03-10")) /\
  fromisoformat "2024-03-10T24:00:00" = None /\
  fromisoformat "2024-03-10T21:05:00+24:00" = None /\
  fromisoformat "2024-02-30" = None /\
  fromisoformat "10 March 2024" = None.
Proof. repeat split; vm_compute; reflexivity. Qed.

(** * Further properties of the data-access layer *)

(** ** Transitions *)

(** X1. [abandon_book] always returns success.  It deletes the Tracking and
    Completed rows of the book and appends one Abandoned row with the book,
    the page, the reason and the abandonment time; an omitted [start_date]
    is inherited from the book's first Tracking row, or stays null without
    one.  Afterwards the book has no Tracking and no Completed row, and
    [get_book_status] answers ["abandoned"] for a book of the catalog. *)
Theorem abandon_book_abandons (now : string) (db : database)
    (book_id page_at_abandonment : Z) (reason start_date : option string) :
  exists (db' : database) (row : abandoned_row),
    abandon_book now book_id page_at_abandonment reason start_date db
    = (true, db') /\
    books db' = books db /\
    reading_sessions db' = reading_sessions db /\
    reading_tracker db'
      = filter (fun r => rt_book_id r <> book_id) (reading_tracker db) /\
    completed_books db'
      = filter (fun r => cb_book_id r <> book_id) (completed_books db) /\
    abandoned_books db' = (abandoned_books db ++ [row])%list /\
    ab_book_id row = book_id /\
    ab_page_at_abandonment row = Some page_at_abandonment /\
    ab_reason row = reason /\
    ab_abandonment_date row = Some now /\
    (start_date = None ->
     forall r rest,
       filter (fun r => rt_book_id r = book_id) (reading_tracker db) = r :: rest ->
       ab_start_date row = rt_start_date r) /\
    (start_date = None -> ~ tracking db book_id -> ab_start_date row = None) /\
    (forall s, start_date = Some s -> s <> "" -> ab_start_date row = Some s) /\
    ~ tracking db' book_id /\
    ~ completed db' book_id /\
    abandoned db' book_id /\
    (in_catalog db book_id -> get_book_status book_id db' = "abandoned").
Proof.
  eexists _, _. split; [reflexivity|].
  cbn [get_db_connection execute pending committed close commit
       insert_abandoned delete_completed delete_tracker
       books reading_sessions reading_tracker abandoned_books completed_books
       ab_book_id ab_page_at_abandonment ab_reason ab_abandonment_date
       ab_start_date].
  repeat (split; [reflexivity|]).
  assert (Hnt : forall d : database,
             reading_tracker d
             = filter (fun r => rt_book_id r <> book_id) (reading_tracker db) ->
             ~ tracking d book_id).
  { intros d Hd. unfold tracking. rewrite Hd, Exists_exists.
    intros (r & Hr & Hb). apply list_elem_of_filter in Hr. tauto. }
  assert (Hnc : forall d : database,
             completed_books d
             = filter (fun r => cb_book_id r <> book_id) (completed_books db) ->
             ~ completed d book_id).
  { intros d Hd. unfold completed. rewrite Hd, Exists_exists.
    intros (r & Hr & Hb). apply list_elem_of_filter in Hr. tauto. }
  split; [|split; [|split; [|split; [|split; [|split]]]]].
  - intros -> r rest Hf. unfold select_tracker_start_date.
    cbn [py_not]. by rewrite Hf.
  - intros -> Hno. unfold select_tracker_start_date. cbn [py_not].
    by rewrite (proj2 (fetchone_select_None rt_start_date
                         (fun r => rt_book_id r = book_id) (reading_tracker db)) Hno).
  - intros s -> Hs. by destruct s.
  - by apply Hnt.
  - by apply Hnc.
  - status_solve.
  - intros Hcat. rewrite get_book_status_eq.
    rewrite decide_True by exact Hcat.
    rewrite decide_False by (by apply Hnt).
    rewrite decide_False by (by apply Hnc).
    rewrite decide_True by status_solve. reflexivity.
Qed.

(** X2. On a book that is not tracked, [add_to_tracker] returns success,
    deletes the Completed and Abandoned rows of the book (with their rating,
    review and reason) and appends one Tracking row with the given page and
    the current time as start date.  Afterwards the book is tracked, neither
    completed nor abandoned, and [get_book_status] answers ["tracking"] for
    a book of the catalog. *)
Theorem add_to_tracker_starts (now : string) (db : database)
    (book_id current_page : Z) :
  ~ tracking db book_id ->
  exists (db' : database) (row : tracker_row),
    add_to_tracker now book_id current_page db = (true, db') /\
    books db' = books db /\
    reading_sessions db' = reading_sessions db /\
    reading_tracker db' = (reading_tracker db ++ [row])%list /\
    completed_books db'
      = filter (fun r => cb_book_id r <> book_id) (completed_books db) /\
    abandoned_books db'
      = filter (fun r => ab_book_id r <> book_id) (abandoned_books db) /\
    rt_book_id row = book_id /\
    rt_current_page row = current_page /\
    rt_start_date row = Some now /\
    tracking db' book_id /\
    ~ completed db' book_id /\
    ~ abandoned db' book_id /\
    (in_catalog db book_id -> get_book_status book_id db' = "tracking").
Proof.
  intros Hnt. rewrite add_to_tracker_untracked by done.
  eexists _, _. split; [reflexivity|].
  cbn [insert_tracker delete_abandoned delete_completed
       books reading_sessions reading_tracker abandoned_books completed_books
       rt_book_id rt_current_page rt_start_date].
  repeat (split; [reflexivity|]).
  assert (Ht : tracking (insert_tracker now book_id current_page
                 (delete_abandoned book_id (delete_completed book_id db)))
                 book_id) by (apply tracking_insert_tracker; by right).
  split; [exact Ht|].
  split; [status_solve|]. split; [status_solve|].
  intros Hcat. rewrite get_book_status_eq.
  rewrite decide_True by exact Hcat. by rewrite decide_True.
Qed.

(** X3. [update_tracker_progress] returns true exactly when the book has a
    Tracking row.  It writes the given page, unchecked, into every Tracking
    row of the book and keeps the id, the book and the start date of the
    row; rows of other books and the other tables are untouched, and no
    book changes status. *)
Theorem update_tracker_progress_sets_page (db : database)
    (book_id current_page : Z) :
  let (success, db') := update_tracker_progress book_id current_page db in
  (success = true <-> tracking db book_id) /\
  length (reading_tracker db') = length (reading_tracker db) /\
  (forall (i : nat) (r : tracker_row),
     reading_tracker db !! i = Some r ->
     reading_tracker db' !! i =
       Some (if decide (rt_book_id r = book_id)
             then {| rt_id := rt_id r; rt_book_id := book_id;
                     rt_current_page := current_page;
                     rt_start_date := rt_start_date r |}
             else r)) /\
  completed_books db' = completed_books db /\
  abandoned_books db' = abandoned_books db /\
  books db' = books db /\
  reading_sessions db' = reading_sessions db /\
  (forall b, get_book_status b db' = get_book_status b db).
Proof.
  unfold update_tracker_progress, rowcount_tracker.
  cbn [get_db_connection execute pending committed close commit].
  split; [|split; [|split; [|do 4 (split; [reflexivity|])]]].
  - rewrite bool_decide_eq_true. apply rowcount_positive.
  - cbn [update_tracker reading_tracker]. apply length_fmap.
  - intros i r Hi. cbn [update_tracker reading_tracker].
    rewrite list_lookup_fmap, Hi. cbn [fmap option_fmap option_map].
    f_equal. case_decide; [subst|]; reflexivity.
  - intros b. rewrite !get_book_status_eq.
    pose proof (tracking_update_tracker db book_id current_page b) as Ht.
    change (in_catalog (update_tracker book_id current_page db) b)
      with (in_catalog db b).
    change (completed (update_tracker book_id current_page db) b)
      with (completed db b).
    change (abandoned (update_tracker book_id current_page db) b)
      with (abandoned db b).
    repeat case_decide; try reflexivity; tauto.
Qed.

(** ** What a transition leaves alone *)

Lemma filter_filter_ne {A} (key : A -> Z) (b b0 : Z) (l : list A) :
  b <> b0 ->
  filter (fun r => key r = b) (filter (fun r => key r <> b0) l)
  = filter (fun r => key r = b) l.
Proof.
  intros Hne. induction l as [|x l IH]; [done|].
  rewrite !filter_cons. destruct (decide (key x <> b0)) as [Hx|Hx].
  - rewrite filter_cons. destruct (decide (key x = b)); by rewrite IH.
  - assert (key x = b0) by (by destruct (decide (key x = b0))).
    rewrite decide_False by congruence. exact IH.
Qed.

Lemma filter_snoc_ne {A} (key : A -> Z) (b : Z) (l : list A) (x : A) :
  key x <> b ->
  filter (fun r => key r = b) (l ++ [x])%list = filter (fun r => key r = b) l.
Proof.
  intros Hne. rewrite filter_app, filter_cons, decide_False by done.
  rewrite filter_nil. apply app_nil_r.
Qed.

Lemma filter_fmap_other {A} (key : A -> Z) (b b0 : Z) (f : A -> A)
    (l : list A) :
  b <> b0 -> (forall r, key (f r) = key r) ->
  filter (fun r => key r = b)
         ((fun r => if decide (key r = b0) then f r else r) <$> l)
  = filter (fun r => key r = b) l.
Proof.
  intros Hne Hkey. induction l as [|x l IH]; [done|].
  rewrite fmap_cons, !filter_cons, IH.
  destruct (decide (key x = b0)) as [Hx|Hx]; [|done].
  rewrite Hkey. by rewrite !decide_False by congruence.
Qed.

Lemma get_book_status_rows db db' b :
  books db' = books db ->
  filter (fun r => rt_book_id r = b) (reading_tracker db')
  = filter (fun r => rt_book_id r = b) (reading_tracker db) ->
  filter (fun r => cb_book_id r = b) (completed_books db')
  = filter (fun r => cb_book_id r = b) (completed_books db) ->
  filter (fun r => ab_book_id r = b) (abandoned_books db')
  = filter (fun r => ab_book_id r = b) (abandoned_books db) ->
  get_book_status b db' = get_book_status b db.
Proof.
  intros Hb Ht Hc Ha.
  unfold get_book_status, select_book_ids, select_tracker_ids,
    select_completed_ids, select_abandoned_ids.
  cbn [get_db_connection pending]. by rewrite Hb, Ht, Hc, Ha.
Qed.

Ltac frame_tables :=
  cbn [snd get_db_connection execute pending committed close commit
       insert_tracker insert_completed insert_abandoned
       delete_tracker delete_completed delete_abandoned
       update_tracker update_completed update_abandoned
       books reading_sessions reading_tracker completed_books abandoned_books];
  repeat split; try reflexivity;
  rewrite ?(filter_snoc_ne rt_book_id), ?(filter_snoc_ne cb_book_id),
    ?(filter_snoc_ne ab_book_id) by (cbn; congruence);
  rewrite ?(filter_filter_ne rt_book_id), ?(filter_filter_ne cb_book_id),
    ?(filter_filter_ne ab_book_id) by done;
  try reflexivity.

(** X4. A transition call on one book leaves every other book alone: the
    Tracking, Completed and Abandoned rows of any other book are the same
    rows afterwards, and so is its status. *)
Theorem run_call_other_book (now : string) (c : call) (db : database) (b : Z) :
  b <> call_book c ->
  let db' := snd (run_call now c db) in
  filter (fun r => rt_book_id r = b) (reading_tracker db')
  = filter (fun r => rt_book_id r = b) (reading_tracker db) /\
  filter (fun r => cb_book_id r = b) (completed_books db')
  = filter (fun r => cb_book_id r = b) (completed_books db) /\
  filter (fun r => ab_book_id r = b) (abandoned_books db')
  = filter (fun r => ab_book_id r = b) (abandoned_books db) /\
  get_book_status b db' = get_book_status b db.
Proof.
  intros Hne. cbn zeta.
  assert (Hrows :
    books (snd (run_call now c db)) = books db /\
    filter (fun r => rt_book_id r = b) (reading_tracker (snd (run_call now c db)))
    = filter (fun r => rt_book_id r = b) (reading_tracker db) /\
    filter (fun r => cb_book_id r = b) (completed_books (snd (run_call now c db)))
    = filter (fun r => cb_book_id r = b) (completed_books db) /\
    filter (fun r => ab_book_id r = b) (abandoned_books (snd (run_call now c db)))
    = filter (fun r => ab_book_id r = b) (abandoned_books db)).
  { destruct c as [b0 p|b0 rating review sd|b0 p reason sd|b0 p|b0|b0|b0];
      cbn [run_call call_book] in *.
    - destruct (decide (tracking db b0)) as [Ht|Ht].
      + by rewrite add_to_tracker_tracked.
      + rewrite add_to_tracker_untracked by done. frame_tables.
    - destruct (complete_book_db now db b0 rating review sd) as [sd' ->].
      frame_tables.
    - destruct (abandon_book_db now db b0 p reason sd) as [sd' ->].
      frame_tables.
    - unfold update_tracker_progress. frame_tables.
      by apply (filter_fmap_other rt_book_id).
    - unfold remove_from_tracker. frame_tables.
    - unfold remove_from_completed. frame_tables.
    - unfold remove_from_abandoned. frame_tables. }
  destruct Hrows as (Hb & Ht & Hc & Ha).
  repeat split; try done. by apply get_book_status_rows.
Qed.

(** X5. No sequence of transition calls adds, removes or changes a catalog
    entry or a reading session; in particular a book is unknown afterwards
    exactly when it was unknown before. *)
Theorem run_calls_catalog_sessions (cs : list (string * call)) (db : database) :
  books (run_calls cs db) = books db /\
  reading_sessions (run_calls cs db) = reading_sessions db /\
  (forall b, get_book_status b (run_calls cs db) = "unknown"
             <-> get_book_status b db = "unknown").
Proof.
  assert (Hstep : forall now c d,
             books (snd (run_call now c d)) = books d /\
             reading_sessions (snd (run_call now c d)) = reading_sessions d).
  { intros now c d.
    destruct c as [b0 p|b0 rating review sd|b0 p reason sd|b0 p|b0|b0|b0];
      cbn [run_call].
    - destruct (decide (tracking d b0)) as [Ht|Ht].
      + by rewrite add_to_tracker_tracked.
      + by rewrite add_to_tracker_untracked.
    - by destruct (complete_book_db now d b0 rating review sd) as [sd' ->].
    - by destruct (abandon_book_db now d b0 p reason sd) as [sd' ->].
    - done.
    - done.
    - done.
    - done. }
  assert (Hall : books (run_calls cs db) = books db /\
                 reading_sessions (run_calls cs db) = reading_sessions db).
  { revert db. induction cs as [|[now c] cs IH]; intros db; [done|].
    cbn [run_calls]. destruct (IH (snd (run_call now c db))) as [-> ->].
    apply Hstep. }
  destruct Hall as [Hb Hs]. split; [done|]. split; [done|].
  intros b.
  assert (Hcat : in_catalog (run_calls cs db) b <-> in_catalog db b)
    by (unfold in_catalog; by rewrite Hb).
  rewrite !get_book_status_eq.
  repeat case_decide; split; intros; try done; tauto.
Qed.

(** ** Returning to the library *)

Lemma not_tracking_delete_tracker db b : ~ tracking (delete_tracker b db) b.
Proof. rewrite tracking_delete_tracker. tauto. Qed.

Lemma not_completed_delete_completed db b : ~ completed (delete_completed b db) b.
Proof. rewrite completed_delete_completed. tauto. Qed.

Lemma not_abandoned_delete_abandoned db b : ~ abandoned (delete_abandoned b db) b.
Proof. rewrite abandoned_delete_abandoned. tauto. Qed.

(** X6. For a book whose three status tables are exclusive, removing it
    from the table its status names puts it back into the library:
    [remove_from_tracker] on a book with status ["tracking"],
    [remove_from_completed] on one with status ["completed"] and
    [remove_from_abandoned] on one with status ["abandoned"] all succeed and
    leave the status ["library"]. *)
Theorem remove_returns_to_library (db : database) (book_id : Z) :
  exclusive db book_id ->
  (get_book_status book_id db = "tracking" ->
   let (success, db') := remove_from_tracker book_id db in
   success = true /\ get_book_status book_id db' = "library") /\
  (get_book_status book_id db = "completed" ->
   let (success, db') := remove_from_completed book_id db in
   success = true /\ get_book_status book_id db' = "library") /\
  (get_book_status book_id db = "abandoned" ->
   let (success, db') := remove_from_abandoned book_id db in
   success = true /\ get_book_status book_id db' = "library").
Proof.
  intros (H1 & H2 & H3).
  unfold remove_from_tracker, remove_from_completed, remove_from_abandoned,
    rowcount_tracker, rowcount_completed, rowcount_abandoned.
  cbn [get_db_connection execute pending committed close commit].
  rewrite !bool_decide_eq_true, !rowcount_positive.
  fold (tracking db book_id) (completed db book_id) (abandoned db book_id).
  rewrite !get_book_status_eq.
  pose proof (not_tracking_delete_tracker db book_id) as Hnt.
  pose proof (not_completed_delete_completed db book_id) as Hnc.
  pose proof (not_abandoned_delete_abandoned db book_id) as Hna.
  change (in_catalog (delete_tracker book_id db) book_id)
    with (in_catalog db book_id).
  change (in_catalog (delete_completed book_id db) book_id)
    with (in_catalog db book_id).
  change (in_catalog (delete_abandoned book_id db) book_id)
    with (in_catalog db book_id).
  change (completed (delete_tracker book_id db) book_id)
    with (completed db book_id).
  change (abandoned (delete_tracker book_id db) book_id)
    with (abandoned db book_id).
  change (tracking (delete_completed book_id db) book_id)
    with (tracking db book_id).
  change (abandoned (delete_completed book_id db) book_id)
    with (abandoned db book_id).
  change (tracking (delete_abandoned book_id db) book_id)
    with (tracking db book_id).
  change (completed (delete_abandoned book_id db) book_id)
    with (completed db book_id).
  repeat case_decide; repeat split; intros; try done; tauto.
Qed.

(** X7. Completing a book and then removing it from the completed books
    puts a book of the catalog into the library whatever it was before: a
    book that was being tracked does not come back onto the tracker, and
    its Tracking and Abandoned rows are gone. *)
Theorem complete_then_remove_is_library (now : string) (db : database)
    (book_id : Z) (rating : option Z) (review start_date : option string) :
  in_catalog db book_id ->
  let db1 := snd (complete_book now book_id rating review start_date db) in
  let (success, db2) := remove_from_completed book_id db1 in
  success = true /\
  get_book_status book_id db2 = "library" /\
  no_status db2 book_id.
Proof.
  intros Hcat. cbn zeta.
  destruct (complete_book_db now db book_id rating review start_date) as [sd ->].
  cbn [snd]. unfold remove_from_completed, rowcount_completed.
  cbn [get_db_connection execute pending committed close commit].
  set (db1 := insert_completed now book_id rating review sd
                (delete_abandoned book_id (delete_tracker book_id db))).
  assert (Hc1 : completed db1 book_id)
    by (apply completed_insert_completed; by right).
  assert (Hnt : ~ tracking (delete_completed book_id db1) book_id).
  { change (tracking (delete_completed book_id db1) book_id)
      with (tracking (delete_tracker book_id db) book_id).
    apply not_tracking_delete_tracker. }
  assert (Hna : ~ abandoned (delete_completed book_id db1) book_id).
  { change (abandoned (delete_completed book_id db1) book_id)
      with (abandoned (delete_abandoned book_id (delete_tracker book_id db))
                      book_id).
    apply not_abandoned_delete_abandoned. }
  pose proof (not_completed_delete_completed db1 book_id) as Hnc.
  split; [|split].
  - rewrite bool_decide_eq_true. by apply rowcount_positive.
  - rewrite get_book_status_eq.
    rewrite decide_True by exact Hcat. by rewrite !decide_False.
  - done.
Qed.

(** ** Deleting a book *)

Lemma filter_ne_none {A} (key : A -> Z) (b : Z) (l : list A) :
  ~ Exists (fun r => key r = b) (filter (fun r => key r <> b) l).
Proof.
  rewrite Exists_exists. intros (r & Hr & Hb).
  apply list_elem_of_filter in Hr. tauto.
Qed.

(** X8. [delete_book] returns true exactly when the book was in the
    catalog.  Whatever it returns, it has removed the catalog rows, the
    Tracking, Completed and Abandoned rows and the reading sessions of that
    book id, so rows left behind for a book that was never in the catalog
    go too; afterwards the status of the id is ["unknown"].  The rows of
    every other book, in all five tables, and its status are unchanged. *)
Theorem delete_book_removes_everything (db : database) (book_id : Z) :
  let (success, db') := delete_book book_id db in
  (success = true <-> in_catalog db book_id) /\
  books db' = filter (fun r => b_id r <> book_id) (books db) /\
  reading_tracker db'
    = filter (fun r => rt_book_id r <> book_id) (reading_tracker db) /\
  completed_books db'
    = filter (fun r => cb_book_id r <> book_id) (completed_books db) /\
  abandoned_books db'
    = filter (fun r => ab_book_id r <> book_id) (abandoned_books db) /\
  reading_sessions db'
    = filter (fun r => rs_book_id r <> book_id) (reading_sessions db) /\
  ~ in_catalog db' book_id /\
  no_status db' book_id /\
  ~ Exists (fun r => rs_book_id r = book_id) (reading_sessions db') /\
  get_book_status book_id db' = "unknown" /\
  (forall b, b <> book_id ->
     filter (fun r => b_id r = b) (books db')
     = filter (fun r => b_id r = b) (books db) /\
     filter (fun r => rt_book_id r = b) (reading_tracker db')
     = filter (fun r => rt_book_id r = b) (reading_tracker db) /\
     filter (fun r => cb_book_id r = b) (completed_books db')
     = filter (fun r => cb_book_id r = b) (completed_books db) /\
     filter (fun r => ab_book_id r = b) (abandoned_books db')
     = filter (fun r => ab_book_id r = b) (abandoned_books db) /\
     filter (fun r => rs_book_id r = b) (reading_sessions db')
     = filter (fun r => rs_book_id r = b) (reading_sessions db) /\
     get_book_status b db' = get_book_status b db).
Proof.
  unfold delete_book, rowcount_books.
  cbn [get_db_connection execute pending committed close commit
       delete_sessions_of_book delete_tracker delete_completed delete_abandoned
       delete_books_row
       books reading_sessions reading_tracker completed_books abandoned_books].
  split; [|do 5 (split; [reflexivity|])].
  { rewrite bool_decide_eq_true. apply rowcount_positive. }
  assert (Hcat : ~ Exists (fun r => b_id r = book_id)
                    (filter (fun r => b_id r <> book_id) (books db)))
    by apply (filter_ne_none b_id).
  split; [exact Hcat|]. split; [|split; [|split]].
  - unfold no_status, tracking, completed, abandoned.
    cbn [reading_tracker completed_books abandoned_books].
    split; [apply (filter_ne_none rt_book_id)|].
    split; [apply (filter_ne_none cb_book_id)|apply (filter_ne_none ab_book_id)].
  - apply (filter_ne_none rs_book_id).
  - rewrite get_book_status_eq. by rewrite decide_False.
  - intros b Hb.
    assert (Hbooks : filter (fun r => b_id r = b)
                       (filter (fun r => b_id r <> book_id) (books db))
                     = filter (fun r => b_id r = b) (books db))
      by (by apply (filter_filter_ne b_id)).
    rewrite !(filter_filter_ne rt_book_id), !(filter_filter_ne cb_book_id),
      !(filter_filter_ne ab_book_id), !(filter_filter_ne rs_book_id) by done.
    split; [exact Hbooks|]. do 4 (split; [reflexivity|]).
    unfold get_book_status, select_book_ids, select_tracker_ids,
      select_completed_ids, select_abandoned_ids.
    cbn [get_db_connection pending delete_sessions_of_book delete_tracker
         delete_completed delete_abandoned delete_books_row
         books reading_tracker completed_books abandoned_books].
    rewrite Hbooks.
    by rewrite !(filter_filter_ne rt_book_id), !(filter_filter_ne cb_book_id),
      !(filter_filter_ne ab_book_id) by done.
Qed.

(** X9. [get_book_by_id] returns [None] exactly when no catalog row has the
    id, which is exactly when [get_book_status] answers ["unknown"]; a row
    it returns is a row of the catalog with that id. *)
Theorem get_book_by_id_found (db : database) (book_id : Z) :
  (get_book_by_id book_id db = None <-> ~ in_catalog db book_id) /\
  (get_book_by_id book_id db = None
   <-> get_book_status book_id db = "unknown") /\
  (forall row, get_book_by_id book_id db = Some row ->
               b_id row = book_id /\ row ∈ books db).
Proof.
  unfold get_book_by_id, select_books. cbn [get_db_connection pending].
  assert (Hnone : fetchone (filter (fun r => b_id r = book_id) (books db)) = None
                  <-> ~ in_catalog db book_id).
  { rewrite <- (fetchone_select_None id (fun r => b_id r = book_id) (books db)).
    by rewrite list_fmap_id. }
  split; [exact Hnone|]. split.
  - rewrite Hnone, get_book_status_eq.
    repeat case_decide; split; intros; try done; tauto.
  - intros row Hrow. unfold fetchone in Hrow.
    apply head_Some_elem_of in Hrow. apply list_elem_of_filter in Hrow. tauto.
Qed.

(** ** Deleting a reading session *)

Lemma next_id_above (ids : list Z) (x : Z) : x ∈ ids -> x < next_id ids.
Proof.
  unfold next_id. induction ids as [|y ids IH]; [by intros ?%elem_of_nil|].
  cbn [foldr]. intros [->|Hin]%elem_of_cons; [lia|].
  specialize (IH Hin). lia.
Qed.

Lemma database_eta (db : database) :
  {| books := books db; reading_tracker := reading_tracker db;
     completed_books := completed_books db;
     abandoned_books := abandoned_books db;
     reading_sessions := reading_sessions db |} = db.
Proof. by destruct db. Qed.

(** X10. [delete_session] returns true exactly when a session with that id
    exists; it removes the sessions with that id and nothing else, so a
    call with an id that is not in the log changes nothing.  Deleting the
    session that [add_reading_session] has just recorded, by the id it
    returned, gives back the database as it was before the session. *)
Theorem delete_session_undoes_add (db : database) (book_id session_id : Z)
    (start_time end_time : string) (duration_seconds start_page end_page : Z) :
  (let (success, db') := delete_session session_id db in
   (success = true
    <-> Exists (fun r => rs_id r = session_id) (reading_sessions db)) /\
   reading_sessions db'
     = filter (fun r => rs_id r <> session_id) (reading_sessions db) /\
   books db' = books db /\
   reading_tracker db' = reading_tracker db /\
   completed_books db' = completed_books db /\
   abandoned_books db' = abandoned_books db /\
   (success = false -> db' = db)) /\
  (forall db1,
     add_reading_session book_id start_time end_time duration_seconds
                         start_page end_page db = Some (session_id, db1) ->
     delete_session session_id db1 = (true, db)).
Proof.
  split.
  - unfold delete_session, rowcount_session.
    cbn [get_db_connection execute pending committed close commit
         delete_session_row
         books reading_sessions reading_tracker completed_books abandoned_books].
    split; [rewrite bool_decide_eq_true; apply rowcount_positive|].
    do 5 (split; [reflexivity|]).
    intros Hf. apply rowcount_false in Hf.
    apply (filter_ne_id (fun r => rs_id r = session_id)) in Hf.
    unfold delete_session_row. rewrite Hf. apply database_eta.
  - intros db1. unfold add_reading_session.
    destruct (fromisoformat start_time) as [dt|]; [|discriminate].
    cbn [mbind option_bind get_db_connection execute pending committed close
         commit].
    intros [= Hid <-]. unfold lastrowid_session, insert_session in Hid.
    cbn [reading_sessions] in Hid. rewrite last_snoc in Hid.
    cbn [fmap option_fmap option_map default rs_id] in Hid. unfold id in Hid.
    unfold delete_session, rowcount_session, insert_session, delete_session_row.
    cbn [get_db_connection execute pending committed close commit
         books reading_sessions reading_tracker completed_books abandoned_books].
    assert (Hold : filter (fun r => rs_id r <> session_id) (reading_sessions db)
                   = reading_sessions db).
    { apply (filter_ne_id (fun r => rs_id r = session_id)).
      rewrite Exists_exists. intros (r & Hr & Hrid).
      assert (Hlt : rs_id r < next_id (rs_id <$> reading_sessions db))
        by (apply next_id_above, list_elem_of_fmap; eauto).
      lia. }
    rewrite !filter_app, !filter_cons, !filter_nil. cbn [rs_id].
    rewrite decide_True by done. rewrite decide_False by (intros Hn; by apply Hn).
    rewrite Hold, app_nil_r, database_eta. f_equal.
    apply bool_decide_eq_true. rewrite length_app. cbn [length]. lia.
Qed.

(** ** The dashboard counts *)

Lemma Exists_elem_of_fmap {A} (key : A -> Z) (b : Z) (l : list A) :
  Exists (fun r => key r = b) l <-> b ∈ key <$> l.
Proof.
  rewrite Exists_exists, list_elem_of_fmap. naive_solver.
Qed.

Lemma length_filter_le_Z {A} (P : A -> Prop) `{!forall x, Decision (P x)}
    (l : list A) :
  0 <= Z.of_nat (length (filter P l)) <= Z.of_nat (length l).
Proof. pose proof (length_filter P l). lia. Qed.

Lemma length_filter_all {A} (P : A -> Prop) `{!forall x, Decision (P x)}
    (l : list A) :
  length (filter P l) = length l <-> Forall P l.
Proof.
  induction l as [|x l IH]; [by split; [constructor|]|].
  rewrite filter_cons, Forall_cons. pose proof (length_filter P l) as Hle.
  destruct (decide (P x)) as [Hx|Hx]; cbn [length].
  - rewrite <- IH. split; [intros [=]; by split|intros [_ ->]; done].
  - split; [lia|tauto].
Qed.

(** The rows of a list fall into four classes, each row into exactly one. *)
Lemma length_four_classes {A} (P0 P1 P2 P3 : A -> Prop)
    `{!forall x, Decision (P0 x)} `{!forall x, Decision (P1 x)}
    `{!forall x, Decision (P2 x)} `{!forall x, Decision (P3 x)} (l : list A) :
  (forall x, x ∈ l ->
     (P0 x /\ ~ P1 x /\ ~ P2 x /\ ~ P3 x) \/
     (~ P0 x /\ P1 x /\ ~ P2 x /\ ~ P3 x) \/
     (~ P0 x /\ ~ P1 x /\ P2 x /\ ~ P3 x) \/
     (~ P0 x /\ ~ P1 x /\ ~ P2 x /\ P3 x)) ->
  (length l = length (filter P0 l) + length (filter P1 l)
              + length (filter P2 l) + length (filter P3 l))%nat.
Proof.
  induction l as [|x l IH]; [done|]. intros Hall.
  rewrite !filter_cons. cbn [length].
  rewrite IH by (intros y Hy; apply Hall; by right).
  specialize (Hall x (list_elem_of_here _ _)).
  repeat case_decide; cbn [length]; try lia; exfalso; tauto.
Qed.

(** With unique ids, a status table has as many rows as the catalog has
    books in it. *)
Lemma length_status_table {A} (key : A -> Z) (rows : list A)
    (bks : list book_row) :
  NoDup (b_id <$> bks) -> NoDup (key <$> rows) ->
  (forall b, b ∈ key <$> rows -> b ∈ b_id <$> bks) ->
  length (filter (fun r => b_id r ∈ key <$> rows) bks) = length rows.
Proof.
  intros Hb Hr Hsub.
  rewrite <- (length_fmap b_id), <- (length_fmap key rows).
  apply Permutation_length, NoDup_Permutation; [| done |].
  - apply (sublist_NoDup _ (b_id <$> bks)); [done|].
    apply fmap_sublist, sublist_filter.
  - intros b. rewrite list_elem_of_fmap. split.
    + intros (r & -> & Hin). apply list_elem_of_filter in Hin. tauto.
    + intros Hin. specialize (Hsub b Hin).
      apply list_elem_of_fmap in Hsub as (r & -> & Hrin).
      exists r. split; [done|]. by apply list_elem_of_filter.
Qed.

(** X11. On the dashboard the library count is at most the total number of
    books, and equals it exactly when no book of the catalog has a status
    row.  In a consistent database the four counts add up:
    total = library + tracking + completed + abandoned. *)
Theorem get_dashboard_stats_add_up (db : database) :
  let stats := get_dashboard_stats db in
  0 <= library_count stats <= total_books stats /\
  (library_count stats = total_books stats
   <-> forall b, in_catalog db b -> no_status db b) /\
  (consistent db ->
   total_books stats
   = library_count stats + tracking_count stats + completed_count stats
     + abandoned_count stats).
Proof.
  cbn zeta. unfold get_dashboard_stats, count_library.
  cbn [get_db_connection pending total_books library_count tracking_count
       completed_count abandoned_count].
  split; [apply length_filter_le_Z|]. split.
  - rewrite Nat2Z.inj_iff, length_filter_all, Forall_forall. split.
    + intros Hall b Hcat.
      apply Exists_exists in Hcat as (r & Hr & <-).
      specialize (Hall r Hr). unfold no_status, tracking, completed, abandoned.
      by rewrite !Exists_elem_of_fmap.
    + intros Hall r Hr.
      assert (Hcat : in_catalog db (b_id r))
        by (apply Exists_exists; eauto).
      specialize (Hall _ Hcat). unfold no_status, tracking, completed,
        abandoned in Hall.
      by rewrite !Exists_elem_of_fmap in Hall.
  - intros (Hb & Ht & Hc & Ha & Hsub & Hex).
    rewrite <- (length_status_table rt_book_id (reading_tracker db) (books db))
      by (try done; intros b Hin; apply Exists_elem_of_fmap, Hsub; left;
          by apply Exists_elem_of_fmap).
    rewrite <- (length_status_table cb_book_id (completed_books db) (books db))
      by (try done; intros b Hin; apply Exists_elem_of_fmap, Hsub; right; left;
          by apply Exists_elem_of_fmap).
    rewrite <- (length_status_table ab_book_id (abandoned_books db) (books db))
      by (try done; intros b Hin; apply Exists_elem_of_fmap, Hsub; right; right;
          by apply Exists_elem_of_fmap).
    rewrite <- !Nat2Z.inj_add. f_equal.
    apply length_four_classes. intros r Hr.
    destruct (Hex (b_id r)) as (H1 & H2 & H3).
    unfold tracking, completed, abandoned in H1, H2, H3.
    pose proof (Exists_elem_of_fmap rt_book_id (b_id r) (reading_tracker db)).
    pose proof (Exists_elem_of_fmap cb_book_id (b_id r) (completed_books db)).
    pose proof (Exists_elem_of_fmap ab_book_id (b_id r) (abandoned_books db)).
    destruct (decide (b_id r ∈ rt_book_id <$> reading_tracker db));
      destruct (decide (b_id r ∈ cb_book_id <$> completed_books db));
      destruct (decide (b_id r ∈ ab_book_id <$> abandoned_books db)); tauto.
Qed.

(** ** Consistency is kept *)

Lemma NoDup_fmap_filter {A} (key : A -> Z) (P : A -> Prop)
    `{!forall x, Decision (P x)} (l : list A) :
  NoDup (key <$> l) -> NoDup (key <$> filter P l).
Proof.
  intros Hnd. apply (sublist_NoDup _ (key <$> l)); [done|].
  apply fmap_sublist, sublist_filter.
Qed.

Lemma NoDup_fmap_snoc {A} (key : A -> Z) (l : list A) (x : A) :
  NoDup (key <$> l) -> ~ Exists (fun r => key r = key x) l ->
  NoDup (key <$> (l ++ [x])%list).
Proof.
  intros Hnd Hx. rewrite fmap_app. apply NoDup_app. split; [done|].
  split; [|apply NoDup_singleton].
  intros b Hb [->|[]%elem_of_nil]%elem_of_cons.
  apply Hx. by apply Exists_elem_of_fmap.
Qed.

Lemma fmap_update_key {A} (key : A -> Z) (b0 : Z) (f : A -> A) (l : list A) :
  (forall r, key (f r) = key r) ->
  key <$> ((fun r => if decide (key r = b0) then f r else r) <$> l) = key <$> l.
Proof.
  intros Hkey. rewrite <- list_fmap_compose. apply list_fmap_ext.
  intros i r _. cbn. by case_decide.
Qed.

(** X12. A consistent database stays consistent under every transition the
    pages of the application issue: putting a book of the catalog on the
    tracker, completing or abandoning a tracked book, updating progress and
    the three removals.  So ids stay unique in each table, status rows keep
    pointing into the catalog and no book gets into two status tables. *)
Theorem run_call_consistent (now : string) (c : call) (db : database) :
  consistent db -> call_from_page db c ->
  consistent (snd (run_call now c db)).
Proof.
  intros (Hb & Ht & Hc & Ha & Hsub & Hex) Hpage.
  assert (Hex' : forall b, exclusive (snd (run_call now c db)) b)
    by (intros b; apply run_call_exclusive, Hex).
  unfold consistent. split; [|split; [|split; [|split; [|split; [|exact Hex']]]]];
    clear Hex';
    destruct c as [b0 p|b0 rating review sd|b0 p reason sd|b0 p|b0|b0|b0];
    cbn [run_call call_from_page] in *.
  (* the catalog *)
  - destruct (decide (tracking db b0)) as [Htr|Htr];
      [by rewrite add_to_tracker_tracked
      |by rewrite add_to_tracker_untracked].
  - by destruct (complete_book_db now db b0 rating review sd) as [sd' ->].
  - by destruct (abandon_book_db now db b0 p reason sd) as [sd' ->].
  - done.
  - done.
  - done.
  - done.
  (* the tracker *)
  - destruct (decide (tracking db b0)) as [Htr|Htr];
      [by rewrite add_to_tracker_tracked|].
    rewrite add_to_tracker_untracked by done.
    cbn [snd insert_tracker delete_abandoned delete_completed reading_tracker].
    by apply (NoDup_fmap_snoc rt_book_id).
  - destruct (complete_book_db now db b0 rating review sd) as [sd' ->].
    by apply (NoDup_fmap_filter rt_book_id).
  - destruct (abandon_book_db now db b0 p reason sd) as [sd' ->].
    by apply (NoDup_fmap_filter rt_book_id).
  - cbn [snd update_tracker_progress get_db_connection execute pending
         committed close commit update_tracker reading_tracker].
    by rewrite (fmap_update_key rt_book_id).
  - by apply (NoDup_fmap_filter rt_book_id).
  - done.
  - done.
  (* the completed books *)
  - destruct (decide (tracking db b0)) as [Htr|Htr];
      [by rewrite add_to_tracker_tracked|].
    rewrite add_to_tracker_untracked by done.
    by apply (NoDup_fmap_filter cb_book_id).
  - destruct (complete_book_db now db b0 rating review sd) as [sd' ->].
    cbn [snd insert_completed delete_abandoned delete_tracker completed_books].
    apply (NoDup_fmap_snoc cb_book_id); [done|]. cbn [cb_book_id].
    intros Hcb. by apply (proj1 (Hex b0)).
  - destruct (abandon_book_db now db b0 p reason sd) as [sd' ->].
    by apply (NoDup_fmap_filter cb_book_id).
  - done.
  - done.
  - by apply (NoDup_fmap_filter cb_book_id).
  - done.
  (* the abandoned books *)
  - destruct (decide (tracking db b0)) as [Htr|Htr];
      [by rewrite add_to_tracker_tracked|].
    rewrite add_to_tracker_untracked by done.
    by apply (NoDup_fmap_filter ab_book_id).
  - destruct (complete_book_db now db b0 rating review sd) as [sd' ->].
    by apply (NoDup_fmap_filter ab_book_id).
  - destruct (abandon_book_db now db b0 p reason sd) as [sd' ->].
    cbn [snd insert_abandoned delete_completed delete_tracker abandoned_books].
    apply (NoDup_fmap_snoc ab_book_id); [done|]. cbn [ab_book_id].
    intros Hab. by apply (proj1 (proj2 (Hex b0))).
  - done.
  - done.
  - done.
  - by apply (NoDup_fmap_filter ab_book_id).
  (* status rows point into the catalog *)
  - destruct (decide (tracking db b0)) as [Htr|Htr];
      [by rewrite add_to_tracker_tracked|].
    rewrite add_to_tracker_untracked by done. cbn [snd]. intros b.
    change (in_catalog (insert_tracker now b0 p
              (delete_abandoned b0 (delete_completed b0 db))) b)
      with (in_catalog db b).
    rewrite tracking_insert_tracker.
    intros [[Hs| ->]|[Hs|Hs]]; [| done | |]; apply Hsub; revert Hs; status_solve.
  - destruct (complete_book_db now db b0 rating review sd) as [sd' ->].
    cbn [snd]. intros b.
    change (in_catalog (insert_completed now b0 rating review sd'
              (delete_abandoned b0 (delete_tracker b0 db))) b)
      with (in_catalog db b).
    rewrite completed_insert_completed.
    intros [Hs|[[Hs| ->]|Hs]]; [| |by apply Hsub; left|];
      apply Hsub; revert Hs; status_solve.
  - destruct (abandon_book_db now db b0 p reason sd) as [sd' ->].
    cbn [snd]. intros b.
    change (in_catalog (insert_abandoned now b0 p reason sd'
              (delete_completed b0 (delete_tracker b0 db))) b)
      with (in_catalog db b).
    rewrite abandoned_insert_abandoned.
    intros [Hs|[Hs|[Hs| ->]]]; [| | |by apply Hsub; left];
      apply Hsub; revert Hs; status_solve.
  - intros b. cbn [snd update_tracker_progress get_db_connection execute
                   pending committed close commit].
    rewrite tracking_update_tracker. apply Hsub.
  - intros b. cbn [snd remove_from_tracker get_db_connection execute
                   pending committed close commit].
    rewrite tracking_delete_tracker. intros [[Hs _]|Hs]; apply Hsub; tauto.
  - intros b. cbn [snd remove_from_completed get_db_connection execute
                   pending committed close commit].
    rewrite completed_delete_completed.
    intros [Hs|[[Hs _]|Hs]]; apply Hsub; tauto.
  - intros b. cbn [snd remove_from_abandoned get_db_connection execute
                   pending committed close commit].
    rewrite abandoned_delete_abandoned.
    intros [Hs|[Hs|[Hs _]]]; apply Hsub; tauto.
Qed.

(** ** Listing the reading sessions *)

#[local] Instance newest_first_total : Total newest_first.
Proof.
  intros x y. unfold newest_first, String.ltb.
  pose proof (String.compare_antisym (rs_session_date y) (rs_session_date x)) as Ha.
  destruct (String.compare (rs_session_date y) (rs_session_date x)) eqn:E.
  - apply String.compare_eq_iff in E.
    destruct (String.leb_total (rs_start_time y) (rs_start_time x));
      [left | right]; right; done.
  - left. by left.
  - right. left.
    by destruct (String.compare (rs_session_date x) (rs_session_date y)).
Qed.

Lemma Sorted_drop {A} (R : relation A) (l : list A) (n : nat) :
  Sorted R l -> Sorted R (drop n l).
Proof.
  revert l. induction n as [|n IH]; intros l Hl; [done|].
  destruct l as [|x l]; [done|]. cbn. apply IH. by inversion Hl.
Qed.

Lemma Sorted_take {A} (R : relation A) (l : list A) (n : nat) :
  Sorted R l -> Sorted R (take n l).
Proof.
  revert l. induction n as [|n IH]; intros l Hl; [constructor|].
  destruct l as [|x l]; [constructor|]. cbn. inversion Hl; subst.
  constructor; [by apply IH|].
  destruct l as [|y l]; [destruct n; constructor|].
  destruct n; cbn; constructor. by inversion H2.
Qed.

Lemma sql_limit_offset_sublist {A} (limit offset : Z) (rows : list A) :
  sql_limit_offset limit offset rows `sublist_of` rows.
Proof.
  unfold sql_limit_offset. case_decide.
  - apply sublist_drop.
  - etrans; [apply sublist_take | apply sublist_drop].
Qed.

Lemma sql_limit_offset_Sorted {A} (R : relation A) (limit offset : Z)
    (rows : list A) :
  Sorted R rows -> Sorted R (sql_limit_offset limit offset rows).
Proof.
  intros Hs. unfold sql_limit_offset. case_decide.
  - by apply Sorted_drop.
  - by apply Sorted_take, Sorted_drop.
Qed.

Lemma sql_limit_offset_length {A} (limit offset : Z) (rows : list A) :
  0 <= limit -> Z.of_nat (length (sql_limit_offset limit offset rows)) <= limit.
Proof.
  intros Hl. unfold sql_limit_offset. rewrite decide_False by lia.
  rewrite length_take. lia.
Qed.

Lemma sql_limit_offset_all {A} (limit offset : Z) (rows : list A) :
  limit < 0 -> offset <= 0 -> sql_limit_offset limit offset rows = rows.
Proof.
  intros Hl Ho. unfold sql_limit_offset. rewrite decide_True by done.
  by replace (Z.to_nat offset) with 0%nat by lia.
Qed.

(** The pages [1 .. n] of a listing, each of [limit] rows at offset
    [(page - 1) * limit], are its first [n * limit] rows. *)
Lemma sql_pages_take {A} (limit : Z) (rows : list A) (n : nat) :
  0 < limit ->
  mjoin ((fun page => sql_limit_offset limit ((page - 1) * limit) rows)
           <$> seqZ 1 (Z.of_nat n))
  = take (n * Z.to_nat limit) rows.
Proof.
  intros Hl. induction n as [|n IH]; [done|].
  rewrite seqZ_S, fmap_app, join_app, IH. cbn [fmap list_fmap mjoin list_join].
  rewrite app_nil_r. unfold sql_limit_offset. rewrite decide_False by lia.
  replace (Z.to_nat ((1 + Z.of_nat n - 1) * limit))
    with (n * Z.to_nat limit)%nat by nia.
  rewrite take_take_drop. f_equal. lia.
Qed.

Lemma sql_pages_all {A} (limit n : Z) (rows : list A) :
  0 < limit -> Z.of_nat (length rows) <= n * limit ->
  mjoin ((fun page => sql_limit_offset limit ((page - 1) * limit) rows)
           <$> seqZ 1 n)
  = rows.
Proof.
  intros Hl Hn. assert (0 <= n) by nia.
  rewrite <- (Z2Nat.id n) by done.
  rewrite sql_pages_take by done. apply take_ge. nia.
Qed.

(** X13. A page of [get_book_sessions]: every listed session is a stored
    session of that book, and the page lists no stored session more often
    than it is stored (it is a sub-multiset of the sessions stored for the
    book); the page is ordered newest first (by session date, then start
    time); it has at most [limit] rows when [limit] is not negative, and
    never more than [total_count], which is the number of sessions stored
    for the book whatever the limit and offset. *)
Theorem get_book_sessions_page (db : database) (book_id limit offset : Z) :
  let (sessions, total_count) := get_book_sessions book_id limit offset db in
  (forall s, s ∈ sessions -> s ∈ reading_sessions db /\ rs_book_id s = book_id) /\
  sessions ⊆+ filter (fun r => rs_book_id r = book_id) (reading_sessions db) /\
  Sorted newest_first sessions /\
  (0 <= limit -> Z.of_nat (length sessions) <= limit) /\
  Z.of_nat (length sessions) <= total_count /\
  total_count
  = Z.of_nat (length (filter (fun r => rs_book_id r = book_id)
                             (reading_sessions db))).
Proof.
  unfold get_book_sessions, select_sessions_of_book.
  cbn [get_db_connection pending].
  set (stored := filter (fun r => rs_book_id r = book_id) (reading_sessions db)).
  pose proof (sql_limit_offset_sublist limit offset
                (merge_sort newest_first stored)) as Hsub.
  pose proof (merge_sort_Permutation newest_first stored) as Hperm.
  assert (Hms : sql_limit_offset limit offset (merge_sort newest_first stored)
                ⊆+ stored).
  { rewrite <- Hperm at 2. by apply sublist_submseteq. }
  split; [|split; [exact Hms|]]; [|repeat split].
  - intros s Hs. eapply elem_of_submseteq in Hs; [|exact Hms].
    apply list_elem_of_filter in Hs. tauto.
  - apply sql_limit_offset_Sorted, Sorted_merge_sort. apply _.
  - apply sql_limit_offset_length.
  - apply submseteq_length in Hms. lia.
Qed.

(** X14. Paging through [get_book_sessions]: with a positive [limit], the
    pages [1 .. n] at the offsets [(page - 1) * limit], one after the
    other, are the whole listing of the book (the one a negative limit
    gives) as soon as [n * limit] reaches [total_count]; together they
    list every stored session of the book exactly as often as it is
    stored. *)
Theorem get_book_sessions_pages_cover (db : database) (book_id limit n : Z) :
  0 < limit ->
  snd (get_book_sessions book_id limit 0 db) <= n * limit ->
  let pages :=
    mjoin ((fun page =>
              fst (get_book_sessions book_id limit ((page - 1) * limit) db))
             <$> seqZ 1 n) in
  pages = fst (get_book_sessions book_id (-1) 0 db) /\
  pages ≡ₚ filter (fun r => rs_book_id r = book_id) (reading_sessions db).
Proof.
  unfold get_book_sessions, select_sessions_of_book.
  cbn [get_db_connection pending fst snd]. intros Hl Hn.
  set (stored := filter (fun r => rs_book_id r = book_id) (reading_sessions db))
    in *.
  pose proof (merge_sort_Permutation newest_first stored) as Hperm.
  cbn zeta. rewrite sql_pages_all; [| done |].
  - rewrite sql_limit_offset_all by lia. done.
  - rewrite Hperm. done.
Qed.

Lemma filter_key_NoDup {A} (key : A -> Z) (k : Z) (l : list A) :
  NoDup (key <$> l) ->
  (length (filter (fun r => key r = k) l) <= 1)%nat.
Proof.
  induction l as [|x l IH]; [cbn; lia|].
  rewrite fmap_cons, NoDup_cons, filter_cons. intros [Hx Hnd].
  destruct (decide (key x = k)) as [Hk|Hk]; [|by apply IH].
  assert (Hnil : filter (fun r => key r = k) l = []).
  { destruct (filter (fun r => key r = k) l) as [|y l'] eqn:E; [done|].
    assert (Hy : y ∈ filter (fun r => key r = k) l) by (rewrite E; left).
    apply list_elem_of_filter in Hy as [Hy1 Hy2]. exfalso. apply Hx.
    apply list_elem_of_fmap. exists y. split; [congruence|done]. }
  rewrite Hnil. cbn. lia.
Qed.

(** The join of one session with the catalog: the session once when its
    book is in a catalog whose ids are unique, no row when it is not. *)
Lemma join_session_books (bks : list book_row) (s : session_row) :
  NoDup (b_id <$> bks) ->
  fst <$> (b ← filter (fun b => b_id b = rs_book_id s) bks; [(s, b)])
  = if decide (Exists (fun b => b_id b = rs_book_id s) bks) then [s] else [].
Proof.
  intros Hnd. pose proof (filter_key_NoDup b_id (rs_book_id s) bks Hnd) as Hle.
  pose proof (rowcount_positive (fun b => b_id b = rs_book_id s) bks) as Hpos.
  destruct (filter (fun b => b_id b = rs_book_id s) bks) as [|b [|b' l]] eqn:E.
  - cbn in Hpos. rewrite decide_False; [done|]. intros H%Hpos. lia.
  - cbn in Hpos. rewrite decide_True; [done|]. apply Hpos. lia.
  - cbn in Hle. lia.
Qed.

Lemma join_sessions_books (bks : list book_row) (l : list session_row) :
  NoDup (b_id <$> bks) ->
  fst <$> (s ← l; b ← filter (fun b => b_id b = rs_book_id s) bks; [(s, b)])
  = filter (fun s => Exists (fun b => b_id b = rs_book_id s) bks) l.
Proof.
  intros Hnd. induction l as [|s l IH]; [done|].
  rewrite bind_cons, fmap_app, IH, join_session_books, filter_cons by done.
  by case_decide.
Qed.

(** X15. The listing of [get_all_sessions] against its [total_count], in a
    catalog whose ids are unique.  The listing (all of it, with a negative
    limit) holds each stored session whose book is in the catalog once,
    with the catalog row of that book, and no session whose book is not;
    [total_count] counts every stored session.  So the listing is never
    longer than [total_count] and is that long exactly when every session
    belongs to a book of the catalog.  With the page count
    [(total_count + limit - 1) // limit] that [sessions_page] computes,
    the pages [1 .. page count] one after the other are the whole
    listing. *)
Theorem get_all_sessions_listing (db : database) (limit : Z) :
  NoDup (b_id <$> books db) ->
  let (listing, total_count) := get_all_sessions (-1) 0 db in
  fst <$> listing
  ≡ₚ filter (fun s => in_catalog db (rs_book_id s)) (reading_sessions db) /\
  (forall s b, (s, b) ∈ listing -> b ∈ books db /\ b_id b = rs_book_id s) /\
  total_count = Z.of_nat (length (reading_sessions db)) /\
  Z.of_nat (length listing) <= total_count /\
  (Z.of_nat (length listing) = total_count <->
   Forall (fun s => in_catalog db (rs_book_id s)) (reading_sessions db)) /\
  (0 < limit ->
   mjoin ((fun page => fst (get_all_sessions limit ((page - 1) * limit) db))
            <$> seqZ 1 ((total_count + limit - 1) `div` limit))
   = listing).
Proof.
  intros Hnd. unfold get_all_sessions, select_sessions_with_books.
  cbn [get_db_connection pending fst snd].
  set (joined := s ← reading_sessions db;
                 b ← filter (fun b => b_id b = rs_book_id s) (books db);
                 [(s, b)]).
  set (R := fun x y : session_row * book_row => newest_first x.1 y.1).
  pose proof (merge_sort_Permutation R joined) as Hperm.
  rewrite sql_limit_offset_all by lia.
  assert (Hfst : fst <$> merge_sort R joined
                 ≡ₚ filter (fun s => in_catalog db (rs_book_id s))
                           (reading_sessions db)).
  { rewrite Hperm. unfold joined. by rewrite join_sessions_books. }
  assert (Hlen : length (merge_sort R joined)
                 = length (filter (fun s => in_catalog db (rs_book_id s))
                                  (reading_sessions db))).
  { rewrite <- Hfst. by rewrite length_fmap. }
  pose proof (length_filter (fun s => in_catalog db (rs_book_id s))
                            (reading_sessions db)) as Hle.
  split; [exact Hfst|]. split; [|split; [done|]]; [|split; [lia|split]].
  - intros s b Hin. rewrite Hperm in Hin. unfold joined in Hin.
    apply list_elem_of_bind in Hin as (s' & Hin & _).
    apply list_elem_of_bind in Hin as (b' & Hin & Hb').
    apply list_elem_of_singleton in Hin. injection Hin as -> ->.
    apply list_elem_of_filter in Hb'. tauto.
  - rewrite Hlen, Nat2Z.inj_iff. apply length_filter_all.
  - intros Hl. apply sql_pages_all; [done|].
    pose proof (Z.mul_div_le (Z.of_nat (length (reading_sessions db)) + limit - 1)
                  limit Hl) as H1.
    pose proof (Z.mod_pos_bound
                  (Z.of_nat (length (reading_sessions db)) + limit - 1)
                  limit Hl) as H2.
    pose proof (Z.div_mod (Z.of_nat (length (reading_sessions db)) + limit - 1)
                  limit ltac:(lia)) as H3.
    nia.
Qed.

(** ** The routes *)

Lemma fmap_update_none {A} (key : A -> Z) (b : Z) (f : A -> A) (l : list A) :
  ~ Exists (fun r => key r = b) l ->
  (fun r => if decide (key r = b) then f r else r) <$> l = l.
Proof.
  intros Hno. induction l as [|x l IH]; [done|].
  rewrite fmap_cons. rewrite Exists_cons in Hno.
  rewrite decide_False by tauto. f_equal. apply IH. tauto.
Qed.

Lemma filter_ne_all {A} (key : A -> Z) (b : Z) (l : list A) :
  ~ Exists (fun r => key r = b) l -> filter (fun r => key r <> b) l = l.
Proof. intros Hno. by apply (filter_ne_id (fun r => key r = b)). Qed.

(** A call that reports no row changed has changed no row. *)
Lemma update_tracker_progress_failed db b p :
  fst (update_tracker_progress b p db) = false ->
  snd (update_tracker_progress b p db) = db.
Proof.
  unfold update_tracker_progress, rowcount_tracker, update_tracker.
  cbn [get_db_connection execute pending committed close commit fst snd].
  intros H%rowcount_false. rewrite fmap_update_none by done.
  apply database_eta.
Qed.

Lemma remove_from_tracker_failed db b :
  fst (remove_from_tracker b db) = false -> snd (remove_from_tracker b db) = db.
Proof.
  unfold remove_from_tracker, rowcount_tracker, delete_tracker.
  cbn [get_db_connection execute pending committed close commit fst snd].
  intros H%rowcount_false. rewrite filter_ne_all by done. apply database_eta.
Qed.

Lemma remove_from_completed_failed db b :
  fst (remove_from_completed b db) = false ->
  snd (remove_from_completed b db) = db.
Proof.
  unfold remove_from_completed, rowcount_completed, delete_completed.
  cbn [get_db_connection execute pending committed close commit fst snd].
  intros H%rowcount_false. rewrite filter_ne_all by done. apply database_eta.
Qed.

Lemma remove_from_abandoned_failed db b :
  fst (remove_from_abandoned b db) = false ->
  snd (remove_from_abandoned b db) = db.
Proof.
  unfold remove_from_abandoned, rowcount_abandoned, delete_abandoned.
  cbn [get_db_connection execute pending committed close commit fst snd].
  intros H%rowcount_false. rewrite filter_ne_all by done. apply database_eta.
Qed.

Lemma update_completed_book_failed db b rating review sd cd :
  fst (update_completed_book b rating review sd cd db) = false ->
  snd (update_completed_book b rating review sd cd db) = db.
Proof.
  unfold update_completed_book, rowcount_completed, update_completed.
  cbn [get_db_connection execute pending committed close commit fst snd].
  intros H%rowcount_false. rewrite fmap_update_none by done.
  apply database_eta.
Qed.

Lemma update_abandoned_book_failed db b page reason sd ad :
  fst (update_abandoned_book b page reason sd ad db) = false ->
  snd (update_abandoned_book b page reason sd ad db) = db.
Proof.
  unfold update_abandoned_book, rowcount_abandoned, update_abandoned.
  cbn [get_db_connection execute pending committed close commit fst snd].
  intros H%rowcount_false. rewrite fmap_update_none by done.
  apply database_eta.
Qed.

Lemma delete_session_failed db s :
  fst (delete_session s db) = false -> snd (delete_session s db) = db.
Proof.
  unfold delete_session, rowcount_session, delete_session_row.
  cbn [get_db_connection execute pending committed close commit fst snd].
  intros H%rowcount_false. rewrite filter_ne_all by done. apply database_eta.
Qed.

Lemma delete_book_not_found db b :
  fst (delete_book b db) = false ->
  ~ in_catalog db b /\
  books (snd (delete_book b db)) = books db /\
  (snd (delete_book b db) = db <->
   ~ tracking db b /\ ~ completed db b /\ ~ abandoned db b /\
   ~ Exists (fun r => rs_book_id r = b) (reading_sessions db)).
Proof.
  unfold delete_book, rowcount_books, delete_books_row, delete_abandoned,
    delete_completed, delete_tracker, delete_sessions_of_book.
  cbn [get_db_connection execute pending committed close commit fst snd
       books reading_tracker completed_books abandoned_books reading_sessions].
  intros Hno%rowcount_false. split; [exact Hno|].
  rewrite (filter_ne_all b_id) by exact Hno. split; [reflexivity|].
  unfold tracking, completed, abandoned.
  rewrite <- (filter_ne_id (fun r => rt_book_id r = b)),
    <- (filter_ne_id (fun r => cb_book_id r = b)),
    <- (filter_ne_id (fun r => ab_book_id r = b)),
    <- (filter_ne_id (fun r => rs_book_id r = b)).
  destruct db as [bk rt cb ab rs].
  cbn [books reading_tracker completed_books abandoned_books reading_sessions].
  split.
  - intros [= -> -> -> ->]. done.
  - intros (-> & -> & -> & ->). done.
Qed.

(** X16. A request that is answered with an error has changed nothing in
    the database, with one exception.  Every handler that reports 400 or
    404, and [stop_session] when the start time does not parse, leaves the
    database exactly as it was.  The exception is [delete_book]: its 404
    means that the id is not in the catalog, and the catalog is unchanged,
    but the Tracking, Completed and Abandoned rows and the reading sessions
    stored under that id have been deleted all the same, so the database
    is unchanged only when there were none. *)
Theorem handle_error_leaves_database (now : string) (req : main.request)
    (db : database) :
  let (resp, db') := main.handle now req db in
  main.is_error resp = true ->
  match req with
  | main.PostLibraryDelete b =>
      ~ in_catalog db b /\ books db' = books db /\
      (db' = db <->
       ~ tracking db b /\ ~ completed db b /\ ~ abandoned db b /\
       ~ Exists (fun r => rs_book_id r = b) (reading_sessions db))
  | _ => db' = db
  end.
Proof.
  destruct req as [b|b|b p|b rating review|b p reason|b|b t p|b t1 t2 d p1 p2
                  |b rating review sd cd|b|b p reason sd ad|b|s b];
    cbn [main.handle].
  - unfold main.move_to_tracker.
    destruct (decide (tracking db b)) as [Ht|Ht].
    + rewrite add_to_tracker_tracked by done. done.
    + rewrite (add_to_tracker_untracked now) by done. cbn. done.
  - unfold main.delete_book.
    pose proof (delete_book_not_found db b) as H.
    destruct (delete_book b db) as [[|] db']; cbn [negb fst snd] in *;
      [cbn; done|]. intros _. by apply H.
  - unfold main.update_progress.
    pose proof (update_tracker_progress_failed db b p) as H.
    destruct (update_tracker_progress b p db) as [[|] db']; cbn [negb fst snd] in *;
      [cbn; done|]. intros _. by apply H.
  - unfold main.complete_tracked_book.
    destruct (complete_book_db now db b rating review None) as [sd ->].
    cbn. done.
  - unfold main.abandon_tracked_book.
    destruct (abandon_book_db now db b p reason None) as [sd ->].
    cbn. done.
  - unfold main.remove_from_tracker.
    pose proof (remove_from_tracker_failed db b) as H.
    destruct (remove_from_tracker b db) as [[|] db']; cbn [negb fst snd] in *;
      [cbn; done|]. intros _. by apply H.
  - unfold main.start_session. by destruct (get_book_by_id b db).
  - unfold main.stop_session.
    destruct (add_reading_session b t1 t2 d p1 p2 db) as [[sid db1]|]; [|done].
    destruct (update_tracker_progress b p2 db1). cbn. done.
  - unfold main.update_completed_book.
    pose proof (update_completed_book_failed db b rating
                  (main.empty_to_none review) (main.empty_to_none sd)
                  (main.empty_to_none cd)) as H.
    destruct (update_completed_book b rating (main.empty_to_none review)
                (main.empty_to_none sd) (main.empty_to_none cd) db)
      as [[|] db']; cbn [negb fst snd] in *; [cbn; done|]. intros _. by apply H.
  - unfold main.remove_from_completed.
    pose proof (remove_from_completed_failed db b) as H.
    destruct (remove_from_completed b db) as [[|] db']; cbn [negb fst snd] in *;
      [cbn; done|]. intros _. by apply H.
  - unfold main.update_abandoned_book.
    pose proof (update_abandoned_book_failed db b p
                  (main.empty_to_none reason) (main.empty_to_none sd)
                  (main.empty_to_none ad)) as H.
    destruct (update_abandoned_book b p (main.empty_to_none reason)
                (main.empty_to_none sd) (main.empty_to_none ad) db)
      as [[|] db']; cbn [negb fst snd] in *; [cbn; done|]. intros _. by apply H.
  - unfold main.remove_from_abandoned.
    pose proof (remove_from_abandoned_failed db b) as H.
    destruct (remove_from_abandoned b db) as [[|] db']; cbn [negb fst snd] in *;
      [cbn; done|]. intros _. by apply H.
  - unfold main.delete_session.
    pose proof (delete_session_failed db s) as H.
    destruct (delete_session s db) as [[|] db']; cbn [negb fst snd] in *;
      [cbn; done|]. intros _. by apply H.
Qed.

(** X17. The handlers [complete_tracked_book] and [abandon_tracked_book]
    never answer 400: whatever the book id, whether the book is tracked or
    not and whether it is in the catalog or not, the answer is the
    redirect to [/completed] (to [/abandoned]), and the book then has a
    Completed (an Abandoned) row and no row of the two other kinds.  Its
    status is ["completed"] (["abandoned"]) when the id is in the
    catalog and ["unknown"] when it is not. *)
Theorem tracked_book_routes_never_fail (now : string) (db : database)
    (book_id page_at_abandonment : Z) (rating : option Z)
    (review reason : option string) :
  (let (resp, db') :=
     main.complete_tracked_book now book_id rating review db in
   resp = main.RedirectResponse "/completed" 303 /\
   completed db' book_id /\ ~ tracking db' book_id /\ ~ abandoned db' book_id /\
   get_book_status book_id db'
   = if decide (in_catalog db book_id) then "completed" else "unknown") /\
  (let (resp, db') :=
     main.abandon_tracked_book now book_id page_at_abandonment reason db in
   resp = main.RedirectResponse "/abandoned" 303 /\
   abandoned db' book_id /\ ~ tracking db' book_id /\ ~ completed db' book_id /\
   get_book_status book_id db'
   = if decide (in_catalog db book_id) then "abandoned" else "unknown").
Proof.
  split.
  - unfold main.complete_tracked_book.
    destruct (complete_book_db now db book_id rating review None) as [sd ->].
    cbn [negb].
    set (db' := insert_completed now book_id rating review sd
                  (delete_abandoned book_id (delete_tracker book_id db))).
    assert (Hc : completed db' book_id) by (unfold db'; status_solve).
    assert (Ht : ~ tracking db' book_id) by (unfold db'; status_solve).
    assert (Ha : ~ abandoned db' book_id) by (unfold db'; status_solve).
    do 4 (split; [done|]).
    rewrite get_book_status_eq.
    change (in_catalog db' book_id) with (in_catalog db book_id).
    destruct (decide (in_catalog db book_id)); [|done].
    rewrite decide_False by done. by rewrite decide_True.
  - unfold main.abandon_tracked_book.
    destruct (abandon_book_db now db book_id page_at_abandonment reason None)
      as [sd ->].
    cbn [negb].
    set (db' := insert_abandoned now book_id page_at_abandonment reason sd
                  (delete_completed book_id (delete_tracker book_id db))).
    assert (Ha : abandoned db' book_id) by (unfold db'; status_solve).
    assert (Ht : ~ tracking db' book_id) by (unfold db'; status_solve).
    assert (Hc : ~ completed db' book_id) by (unfold db'; status_solve).
    do 4 (split; [done|]).
    rewrite get_book_status_eq.
    change (in_catalog db' book_id) with (in_catalog db book_id).
    destruct (decide (in_catalog db book_id)); [|done].
    rewrite decide_False by done. rewrite decide_False by done.
    by rewrite decide_True.
Qed.

Lemma add_reading_session_eq db b t1 t2 d p1 p2 :
  add_reading_session b t1 t2 d p1 p2 db
  = dt ← fromisoformat t1;
    Some (next_id (rs_id <$> reading_sessions db),
          insert_session b t1 t2 d (p2 - p1) p1 p2
                         (date_isoformat (datetime_date dt)) db).
Proof.
  unfold add_reading_session.
  destruct (fromisoformat t1) as [dt|]; [|done].
  cbn [mbind option_bind get_db_connection execute pending committed close
       commit]. do 2 f_equal.
  unfold lastrowid_session, insert_session. cbn [reading_sessions].
  by rewrite last_snoc.
Qed.

(** X18. [stop_session] stores the session and then moves the tracker to
    the end page, with no check in between.  When the start time parses,
    the answer is the redirect to [/tracker]; one session row has been
    appended, with a fresh id, [end_page - start_page] as pages read and
    the date of the start time; every Tracking row of the book now shows
    [end_page] (also when that is lower than the page it showed), the rows
    of other books and the other tables are unchanged, and no book has
    changed status.  The session is stored whether or not the book is
    tracked.  When the start time does not parse, nothing is stored. *)
Theorem stop_session_records (db : database) (book_id : Z)
    (start_time end_time : string) (duration_seconds start_page end_page : Z) :
  let (resp, db') :=
    main.stop_session book_id start_time end_time duration_seconds
                      start_page end_page db in
  match fromisoformat start_time with
  | None => resp = main.InternalServerError /\ db' = db
  | Some dt =>
    resp = main.RedirectResponse "/tracker" 303 /\
    (exists session_id,
       (session_id ∉ rs_id <$> reading_sessions db) /\
       reading_sessions db'
       = (reading_sessions db ++
          [ {| rs_id := session_id; rs_book_id := book_id;
               rs_start_time := start_time; rs_end_time := end_time;
               rs_duration_seconds := duration_seconds;
               rs_pages_read := end_page - start_page;
               rs_start_page := start_page; rs_end_page := end_page;
               rs_session_date := date_isoformat (datetime_date dt) |} ])%list) /\
    reading_tracker db'
    = ((fun r => if decide (rt_book_id r = book_id)
                 then {| rt_id := rt_id r; rt_book_id := rt_book_id r;
                         rt_current_page := end_page;
                         rt_start_date := rt_start_date r |}
                 else r) <$> reading_tracker db) /\
    books db' = books db /\
    completed_books db' = completed_books db /\
    abandoned_books db' = abandoned_books db /\
    (forall b, get_book_status b db' = get_book_status b db)
  end.
Proof.
  unfold main.stop_session. rewrite add_reading_session_eq.
  destruct (fromisoformat start_time) as [dt|]; [|done].
  cbn [mbind option_bind].
  unfold update_tracker_progress.
  cbn [get_db_connection execute pending committed close commit
       update_tracker insert_session
       books reading_tracker completed_books abandoned_books reading_sessions].
  split; [reflexivity|]. split; [|do 4 (split; [reflexivity|])].
  - eexists. split; [|reflexivity].
    intros Hin%next_id_above. lia.
  - intros b. rewrite !get_book_status_eq.
    pose proof (tracking_update_tracker db book_id end_page b) as Ht.
    repeat case_decide; try reflexivity; tauto.
Qed.

Lemma filter_none_nil {A} (P : A -> Prop) `{!forall x, Decision (P x)}
    (l : list A) :
  ~ Exists P l -> filter P l = [].
Proof.
  intros Hno. destruct (filter P l) as [|x l'] eqn:E; [done|].
  exfalso. apply Hno. apply (proj1 (rowcount_positive P l)).
  rewrite E. cbn [length]. lia.
Qed.

(** X19. [start_session] refuses a book that is not in the catalog, but
    [stop_session] does not look: for such a book and a start time that
    parses it answers with the redirect and stores the session.  The
    stored session is counted, in the [total_count] of [get_all_sessions]
    and of [get_book_sessions], yet no page of [get_all_sessions] lists
    it, and the pages of the book itself answer 404. *)
Theorem stop_session_unknown_book (db : database) (book_id : Z)
    (start_time end_time : string) (duration_seconds start_page end_page : Z) :
  ~ in_catalog db book_id ->
  is_Some (fromisoformat start_time) ->
  fst (main.start_session book_id start_time start_page db)
  = main.HTTPException 404 "Book not found" /\
  let (resp, db') :=
    main.stop_session book_id start_time end_time duration_seconds
                      start_page end_page db in
  resp = main.RedirectResponse "/tracker" 303 /\
  (forall limit offset,
     fst (get_all_sessions limit offset db')
     = fst (get_all_sessions limit offset db) /\
     snd (get_all_sessions limit offset db')
     = snd (get_all_sessions limit offset db) + 1 /\
     snd (get_book_sessions book_id limit offset db')
     = snd (get_book_sessions book_id limit offset db) + 1) /\
  main.book_details_page book_id db' = None.
Proof.
  intros Hcat [dt Hdt].
  assert (Hnone : forall d, books d = books db -> get_book_by_id book_id d = None).
  { intros d Hd. unfold get_book_by_id, select_books.
    cbn [get_db_connection pending]. rewrite Hd.
    by rewrite (filter_none_nil _ _ Hcat). }
  split.
  { unfold main.start_session. by rewrite (Hnone db eq_refl). }
  unfold main.stop_session. rewrite add_reading_session_eq, Hdt.
  cbn [mbind option_bind].
  unfold update_tracker_progress.
  cbn [get_db_connection execute pending committed close commit].
  split; [reflexivity|]. split.
  - intros limit offset.
    unfold get_all_sessions, get_book_sessions, select_sessions_with_books.
    cbn [get_db_connection pending fst snd update_tracker insert_session
         books reading_sessions].
    rewrite bind_app, filter_app, !length_app. cbn [mbind list_bind].
    rewrite (filter_none_nil (fun b => b_id b = book_id) (books db) Hcat).
    cbn [mbind list_bind app]. rewrite !app_nil_r.
    split; [reflexivity|]. split; [cbn [length]; lia|].
    rewrite filter_cons, decide_True by reflexivity.
    cbn [filter list_filter length]. lia.
  - unfold main.book_details_page. by rewrite Hnone.
Qed.

(** X20. [book_details_page] answers 404 exactly when the id is not in the
    catalog.  Otherwise the page shows the first catalog row with that id
    and the status [get_book_status] gives, which is then one of
    ["tracking"], ["completed"], ["abandoned"] and ["library"], never
    ["unknown"]; and [has_sessions] is true exactly when a reading session
    is stored for the book. *)
Theorem book_details_page_shows (db : database) (book_id : Z) :
  (main.book_details_page book_id db = None <-> ~ in_catalog db book_id) /\
  (forall d, main.book_details_page book_id db = Some d ->
     head (filter (fun r => b_id r = book_id) (books db))
     = Some (main.bd_book d) /\
     main.bd_book d ∈ books db /\
     b_id (main.bd_book d) = book_id /\
     main.bd_status d = get_book_status book_id db /\
     main.bd_status d ∈ ["tracking"; "completed"; "abandoned"; "library"] /\
     (main.bd_has_sessions d = true
      <-> Exists (fun r => rs_book_id r = book_id) (reading_sessions db))).
Proof.
  unfold main.book_details_page, get_book_by_id, select_books, fetchone.
  cbn [get_db_connection pending].
  destruct (head (filter (fun r => b_id r = book_id) (books db)))
    as [book|] eqn:E.
  - assert (Hin : book ∈ filter (fun r => b_id r = book_id) (books db))
      by (by apply head_Some_elem_of).
    apply list_elem_of_filter in Hin as [Hid Hin].
    assert (Hcat : in_catalog db book_id).
    { unfold in_catalog. rewrite Exists_exists. eauto. }
    split; [split; [done|tauto]|].
    intros d [= <-]. cbn [main.bd_book main.bd_status main.bd_has_sessions].
    do 4 (split; [done|]). split.
    + rewrite get_book_status_eq, decide_True by done.
      repeat case_decide; set_solver.
    + unfold get_book_sessions, select_sessions_of_book, sql_limit_offset.
      cbn [get_db_connection pending fst]. rewrite decide_False by lia.
      change (Z.to_nat 0) with 0%nat. change (Z.to_nat 1) with 1%nat.
      rewrite drop_0, bool_decide_eq_true.
      set (stored := filter (fun r => rs_book_id r = book_id)
                            (reading_sessions db)).
      pose proof (merge_sort_Permutation newest_first stored) as Hperm.
      apply Permutation_length in Hperm.
      pose proof (rowcount_positive (fun r => rs_book_id r = book_id)
                    (reading_sessions db)) as Hpos.
      fold stored in Hpos. rewrite <- Hpos, length_take. lia.
  - split; [|done]. split; [intros _|done].
    apply head_None in E. unfold in_catalog. intros Hex.
    apply (proj2 (rowcount_positive _ _)) in Hex. rewrite E in Hex.
    cbn in Hex. lia.
Qed.

(** X21. The update handlers store a blank form field as null.  When
    [update_completed_book] succeeds, which it does exactly when the book
    has a Completed row, every Completed row of the book holds the rating
    as sent and, for review, start date and completion date, the text
    sent, or null when the field was blank or missing; so none of these
    columns holds the empty text, and a form that leaves a field out
    erases what was stored.  The same for [update_abandoned_book] with
    page, reason, start date and abandonment date. *)
Theorem update_routes_blank_is_null (db : database) (book_id : Z)
    (rating page_at_abandonment : option Z)
    (review reason start_date end_date : option string) :
  (let (resp, db') :=
     main.update_completed_book book_id rating review start_date end_date db in
   (resp = main.RedirectResponse "/completed" 303 <-> completed db book_id) /\
   (resp = main.HTTPException 404 "Completed book not found"
    <-> ~ completed db book_id) /\
   forall row, row ∈ completed_books db' -> cb_book_id row = book_id ->
     cb_rating row = rating /\
     cb_review row = main.empty_to_none review /\
     cb_start_date row = main.empty_to_none start_date /\
     cb_completion_date row = main.empty_to_none end_date /\
     cb_review row <> Some "" /\ cb_start_date row <> Some "" /\
     cb_completion_date row <> Some "") /\
  (let (resp, db') :=
     main.update_abandoned_book book_id page_at_abandonment reason start_date
                                end_date db in
   (resp = main.RedirectResponse "/abandoned" 303 <-> abandoned db book_id) /\
   (resp = main.HTTPException 404 "Abandoned book not found"
    <-> ~ abandoned db book_id) /\
   forall row, row ∈ abandoned_books db' -> ab_book_id row = book_id ->
     ab_page_at_abandonment row = page_at_abandonment /\
     ab_reason row = main.empty_to_none reason /\
     ab_start_date row = main.empty_to_none start_date /\
     ab_abandonment_date row = main.empty_to_none end_date /\
     ab_reason row <> Some "" /\ ab_start_date row <> Some "" /\
     ab_abandonment_date row <> Some "").
Proof.
  assert (Hne : forall s, main.empty_to_none s <> Some "").
  { intros [[|c s]|]; done. }
  split.
  - unfold main.update_completed_book, update_completed_book,
      rowcount_completed.
    cbn [get_db_connection execute pending committed close commit].
    pose proof (rowcount_positive (fun r => cb_book_id r = book_id)
                  (completed_books db)) as Hpos.
    fold (completed db book_id) in Hpos.
    assert (Hrows : forall row,
              row ∈ completed_books
                (update_completed book_id rating (main.empty_to_none review)
                   (main.empty_to_none start_date)
                   (main.empty_to_none end_date) db) ->
              cb_book_id row = book_id ->
              cb_rating row = rating /\
              cb_review row = main.empty_to_none review /\
              cb_start_date row = main.empty_to_none start_date /\
              cb_completion_date row = main.empty_to_none end_date /\
              cb_review row <> Some "" /\ cb_start_date row <> Some "" /\
              cb_completion_date row <> Some "").
    { intros row Hrow Hid. cbn [update_completed completed_books] in Hrow.
      apply list_elem_of_fmap in Hrow as (r & -> & _).
      destruct (decide (cb_book_id r = book_id)) as [_|Hr]; [|done].
      cbn. repeat split; auto. }
    destruct (bool_decide _) eqn:Hb; cbn [negb];
      [apply bool_decide_eq_true in Hb | apply bool_decide_eq_false in Hb];
      (split; [|split; [|exact Hrows]]); split; intros; try done; tauto.
  - unfold main.update_abandoned_book, update_abandoned_book,
      rowcount_abandoned.
    cbn [get_db_connection execute pending committed close commit].
    pose proof (rowcount_positive (fun r => ab_book_id r = book_id)
                  (abandoned_books db)) as Hpos.
    fold (abandoned db book_id) in Hpos.
    assert (Hrows : forall row,
              row ∈ abandoned_books
                (update_abandoned book_id page_at_abandonment (main.empty_to_none reason)
                   (main.empty_to_none start_date)
                   (main.empty_to_none end_date) db) ->
              ab_book_id row = book_id ->
              ab_page_at_abandonment row = page_at_abandonment /\
              ab_reason row = main.empty_to_none reason /\
              ab_start_date row = main.empty_to_none start_date /\
              ab_abandonment_date row = main.empty_to_none end_date /\
              ab_reason row <> Some "" /\ ab_start_date row <> Some "" /\
              ab_abandonment_date row <> Some "").
    { intros row Hrow Hid. cbn [update_abandoned abandoned_books] in Hrow.
      apply list_elem_of_fmap in Hrow as (r & -> & _).
      destruct (decide (ab_book_id r = book_id)) as [_|Hr]; [|done].
      cbn. repeat split; auto. }
    destruct (bool_decide _) eqn:Hb; cbn [negb];
      [apply bool_decide_eq_true in Hb | apply bool_decide_eq_false in Hb];
      (split; [|split; [|exact Hrows]]); split; intros; try done; tauto.
Qed.

(** ** Instances on the sample data *)

(** Consistency follows from checks on the tables that can be computed. *)
Lemma consistent_by_tables (db : database) :
  NoDup (b_id <$> books db) ->
  NoDup (rt_book_id <$> reading_tracker db) ->
  NoDup (cb_book_id <$> completed_books db) ->
  NoDup (ab_book_id <$> abandoned_books db) ->
  Forall (fun b => in_catalog db b /\ ~ completed db b /\ ~ abandoned db b)
         (rt_book_id <$> reading_tracker db) ->
  Forall (fun b => in_catalog db b /\ ~ abandoned db b)
         (cb_book_id <$> completed_books db) ->
  Forall (fun b => in_catalog db b) (ab_book_id <$> abandoned_books db) ->
  consistent db.
Proof.
  intros Hb Ht Hc Ha Hrt Hcb Hab. rewrite Forall_forall in Hrt, Hcb, Hab.
  assert (Ht' : forall b, tracking db b -> b ∈ rt_book_id <$> reading_tracker db)
    by (intros b; apply Exists_elem_of_fmap).
  assert (Hc' : forall b, completed db b -> b ∈ cb_book_id <$> completed_books db)
    by (intros b; apply Exists_elem_of_fmap).
  assert (Ha' : forall b, abandoned db b -> b ∈ ab_book_id <$> abandoned_books db)
    by (intros b; apply Exists_elem_of_fmap).
  do 4 (split; [done|]). split.
  - intros b [H|[H|H]]; [apply Ht', Hrt in H|apply Hc', Hcb in H|apply Ha', Hab in H];
      tauto.
  - intros b. unfold exclusive. repeat split; intros [H1 H2].
    + apply Ht', Hrt in H1. tauto.
    + apply Ht', Hrt in H1. tauto.
    + apply Hc', Hcb in H1. tauto.
Qed.

Lemma consistent_sample_db : consistent sample_db.
Proof.
  apply consistent_by_tables;
    unfold in_catalog, tracking, completed, abandoned; by_computation.
Qed.

Lemma add_to_tracker_starts_witness :
  ~ tracking sample_db 5 /\
  exists db' row,
    add_to_tracker "2024-03-01 09:00:00" 5 10 sample_db = (true, db') /\
    reading_tracker db' = (reading_tracker sample_db ++ [row])%list /\
    rt_current_page row = 10 /\
    tracking db' 5.
Proof.
  assert (H : ~ tracking sample_db 5) by by_computation.
  split; [exact H|].
  destruct (add_to_tracker_starts "2024-03-01 09:00:00" sample_db 5 10 H)
    as (db' & row & Heq & _ & _ & Hrt & _ & _ & _ & Hp & _ & Ht & _).
  exists db', row. split; [exact Heq|]. split; [exact Hrt|].
  split; [exact Hp|exact Ht].
Defined.

Lemma run_call_other_book_witness :
  7 <> call_book (AddToTracker 5 10) /\
  get_book_status 7
    (snd (run_call "2024-03-01 09:00:00" (AddToTracker 5 10) sample_db))
  = get_book_status 7 sample_db.
Proof.
  assert (H : 7 <> call_book (AddToTracker 5 10)) by (cbn; lia).
  split; [exact H|].
  exact (proj2 (proj2 (proj2
    (run_call_other_book "2024-03-01 09:00:00" (AddToTracker 5 10)
       sample_db 7 H)))).
Defined.

Lemma remove_returns_to_library_witness :
  exclusive sample_db 7 /\
  get_book_status 7 sample_db = "completed" /\
  fst (remove_from_completed 7 sample_db) = true /\
  get_book_status 7 (snd (remove_from_completed 7 sample_db)) = "library".
Proof.
  assert (H : exclusive sample_db 7)
    by (unfold exclusive, tracking, completed, abandoned; by_computation).
  assert (Hs : get_book_status 7 sample_db = "completed") by reflexivity.
  split; [exact H|]. split; [exact Hs|].
  exact (proj1 (proj2 (remove_returns_to_library sample_db 7 H)) Hs).
Defined.

Lemma complete_then_remove_is_library_witness :
  in_catalog sample_db_tracking 5 /\
  get_book_status 5
    (snd (remove_from_completed 5
       (snd (complete_book "2024-03-05 22:00:00" 5 (Some 5) None None
               sample_db_tracking))))
  = "library".
Proof.
  assert (H : in_catalog sample_db_tracking 5) by by_computation.
  split; [exact H|].
  exact (proj1 (proj2
    (complete_then_remove_is_library "2024-03-05 22:00:00" sample_db_tracking
       5 (Some 5) None None H))).
Defined.

Lemma delete_session_undoes_add_witness :
  add_reading_session 5 "2024-03-10T21:05:00" "2024-03-10T21:35:00"
                      1800 100 120 sample_db_tracking
  = Some (1, insert_session 5 "2024-03-10T21:05:00" "2024-03-10T21:35:00"
               1800 20 100 120 "2024-03-10" sample_db_tracking) /\
  delete_session 1
    (insert_session 5 "2024-03-10T21:05:00" "2024-03-10T21:35:00"
       1800 20 100 120 "2024-03-10" sample_db_tracking)
  = (true, sample_db_tracking).
Proof.
  split; [reflexivity|].
  exact (proj2 (delete_session_undoes_add sample_db_tracking 5 1
                  "2024-03-10T21:05:00" "2024-03-10T21:35:00" 1800 100 120)
               _ eq_refl).
Defined.

Lemma get_dashboard_stats_add_up_witness :
  consistent sample_db /\
  total_books (get_dashboard_stats sample_db)
  = library_count (get_dashboard_stats sample_db)
    + tracking_count (get_dashboard_stats sample_db)
    + completed_count (get_dashboard_stats sample_db)
    + abandoned_count (get_dashboard_stats sample_db).
Proof.
  split; [exact consistent_sample_db|].
  exact (proj2 (proj2 (get_dashboard_stats_add_up sample_db))
               consistent_sample_db).
Defined.

Lemma run_call_consistent_witness :
  consistent sample_db /\
  call_from_page sample_db (AddToTracker 5 10) /\
  consistent (snd (run_call "2024-03-01 09:00:00" (AddToTracker 5 10) sample_db)).
Proof.
  assert (H : call_from_page sample_db (AddToTracker 5 10))
    by (cbn [call_from_page]; by_computation).
  split; [exact consistent_sample_db|]. split; [exact H|].
  exact (run_call_consistent "2024-03-01 09:00:00" (AddToTracker 5 10)
           sample_db consistent_sample_db H).
Defined.

Lemma get_book_sessions_pages_cover_witness :
  (0 < 1 /\ snd (get_book_sessions 5 1 0 sample_db_sessions) <= 2 * 1) /\
  mjoin ((fun page =>
            fst (get_book_sessions 5 1 ((page - 1) * 1) sample_db_sessions))
           <$> seqZ 1 2)
  = fst (get_book_sessions 5 (-1) 0 sample_db_sessions).
Proof.
  assert (H1 : 0 < 1) by lia.
  assert (H2 : snd (get_book_sessions 5 1 0 sample_db_sessions) <= 2 * 1)
    by (vm_compute; discriminate).
  split; [by split|].
  exact (proj1 (get_book_sessions_pages_cover sample_db_sessions 5 1 2 H1 H2)).
Defined.

Lemma get_all_sessions_listing_witness :
  (NoDup (b_id <$> books sample_db_sessions) /\ 0 < 1) /\
  Z.of_nat (length (fst (get_all_sessions (-1) 0 sample_db_sessions)))
  <= snd (get_all_sessions (-1) 0 sample_db_sessions) /\
  mjoin ((fun page =>
            fst (get_all_sessions 1 ((page - 1) * 1) sample_db_sessions))
           <$> seqZ 1 ((snd (get_all_sessions (-1) 0 sample_db_sessions)
                        + 1 - 1) `div` 1))
  = fst (get_all_sessions (-1) 0 sample_db_sessions).
Proof.
  assert (H : NoDup (b_id <$> books sample_db_sessions)) by by_computation.
  assert (Hl : 0 < 1) by lia.
  split; [by split|].
  pose proof (get_all_sessions_listing sample_db_sessions 1 H)
    as (_ & _ & _ & Hle & _ & Hpages).
  split; [exact Hle|exact (Hpages Hl)].
Defined.

Lemma handle_error_leaves_database_witness :
  main.is_error
    (fst (main.handle "2024-03-01 09:00:00" (main.PostTrackerRemove 5)
            sample_db)) = true /\
  snd (main.handle "2024-03-01 09:00:00" (main.PostTrackerRemove 5) sample_db)
  = sample_db.
Proof.
  assert (H : main.is_error
                (fst (main.handle "2024-03-01 09:00:00"
                        (main.PostTrackerRemove 5) sample_db)) = true)
    by reflexivity.
  split; [exact H|].
  exact (handle_error_leaves_database "2024-03-01 09:00:00"
           (main.PostTrackerRemove 5) sample_db H).
Defined.

Lemma stop_session_unknown_book_witness :
  (~ in_catalog sample_db 9 /\ is_Some (fromisoformat "2024-03-11T08:00:00")) /\
  fst (main.stop_session 9 "2024-03-11T08:00:00" "2024-03-11T08:10:00"
         600 1 6 sample_db)
  = main.RedirectResponse "/tracker" 303 /\
  main.book_details_page 9
    (snd (main.stop_session 9 "2024-03-11T08:00:00" "2024-03-11T08:10:00"
            600 1 6 sample_db))
  = None.
Proof.
  assert (H1 : ~ in_catalog sample_db 9) by by_computation.
  assert (H2 : is_Some (fromisoformat "2024-03-11T08:00:00"))
    by (vm_compute; eauto).
  split; [by split|].
  pose proof (proj2 (stop_session_unknown_book sample_db 9
                       "2024-03-11T08:00:00" "2024-03-11T08:10:00" 600 1 6
                       H1 H2)) as (Hr & _ & Hp).
  split; [exact Hr|exact Hp].
Defined.
